(** * MCP registry adapters: request building and response shaping

    A shallow embedding of the request builders and response shapers of
    the adapter modules under [servers/] (Airtable, Todoist, Mailchimp,
    AbstractAPI, Claude, ClickUp, Pinecone), and the properties of them that the
    specification states.

    Python values are embedded as the inductive [value]; a [dict] is an
    association list that keeps insertion order and holds each key once,
    as Python's does.  An adapter tool is a program in the small monad
    [Prog], which either returns, raises a Python exception, or issues one
    HTTP request through [httpx] and continues with the response. *)

From Stdlib Require Import ZArith List String Ascii Bool Floats Lia.
From Stdlib Require Import DecimalString.
From Stdlib Require DecimalNat.
Import ListNotations.

Set Warnings "-register-all".

Open Scope list_scope.
Open Scope string_scope.

(** ** Python values *)

Module Py.

Definition dict (A : Type) : Type := list (string * A).

Inductive value : Type :=
| VNone
| VBool (b : bool)
| VInt (z : Z)
| VFloat (f : float)
| VStr (s : string)
| VList (l : list value)
| VDict (d : list (string * value)).

(** The exceptions the adapters can raise; [ValueError] and [KeyError]
    carry the message, [HTTPStatusError] the status code and the body. *)
Inductive exn : Type :=
| ValueError (msg : string)
| KeyError (key : string)
| TypeError
| AttributeError
| OverflowError
| JSONDecodeError
| HTTPStatusError (status : Z) (body : option value)
| TransportError (msg : string).

(** *** Dictionaries *)

Section Dict.
Context {A : Type}.

(** [d.get(k)] / [d[k]] *)
Fixpoint dict_get (k : string) (d : dict A) : option A :=
  match d with
  | [] => None
  | (k', v) :: d' => if String.eqb k' k then Some v else dict_get k d'
  end.

(** [k in d] *)
Definition dict_in (k : string) (d : dict A) : bool :=
  match dict_get k d with Some _ => true | None => false end.

(** [d[k] = v]: an existing key keeps its position, a new one goes last. *)
Fixpoint dict_set (k : string) (v : A) (d : dict A) : dict A :=
  match d with
  | [] => [(k, v)]
  | (k', v') :: d' =>
      if String.eqb k' k then (k', v) :: d' else (k', v') :: dict_set k v d'
  end.

Definition dict_keys (d : dict A) : list string := map fst d.

(** [d.get(k, dflt)] *)
Definition dict_get_default (k : string) (dflt : A) (d : dict A) : A :=
  match dict_get k d with Some v => v | None => dflt end.

(** [d[k]], which raises [KeyError] on a missing key. *)
Definition dict_item (k : string) (d : dict A) : exn + A :=
  match dict_get k d with Some v => inr v | None => inl (KeyError k) end.

(** The entries stored under [k]. *)
Definition dict_entries (k : string) (d : dict A) : dict A :=
  filter (fun kv => String.eqb (fst kv) k) d.

(** Python's dictionaries hold a key once; [dict_set] keeps it so. *)
Definition unique_keys (d : dict A) : Prop := NoDup (dict_keys d).
End Dict.

(** *** Truth value testing ([if x:]) *)

Class Truthy (A : Type) : Type := truthy : A -> bool.

#[export] Instance truthy_bool : Truthy bool := fun b => b.
#[export] Instance truthy_Z : Truthy Z := fun z => negb (Z.eqb z 0).
#[export] Instance truthy_string : Truthy string :=
  fun s => match s with EmptyString => false | _ => true end.
#[export] Instance truthy_list {A} : Truthy (list A) :=
  fun l => match l with [] => false | _ => true end.
#[export] Instance truthy_option {A} `{Truthy A} : Truthy (option A) :=
  fun o => match o with Some a => truthy a | None => false end.

(** [x is not None] *)
Definition is_not_None {A} (o : option A) : bool :=
  match o with Some _ => true | None => false end.

(** *** Embedding typed parameters into Python values *)

Class ToValue (A : Type) : Type := to_value : A -> value.

#[export] Instance to_value_value : ToValue value := fun v => v.
#[export] Instance to_value_bool : ToValue bool := VBool.
#[export] Instance to_value_Z : ToValue Z := VInt.
#[export] Instance to_value_float : ToValue float := VFloat.
#[export] Instance to_value_string : ToValue string := VStr.
#[export] Instance to_value_list {A} `{ToValue A} : ToValue (list A) :=
  fun l => VList (map to_value l).
#[export] Instance to_value_dict : ToValue (dict value) | 0 := VDict.
#[export] Instance to_value_option {A} `{ToValue A} : ToValue (option A) :=
  fun o => match o with Some a => to_value a | None => VNone end.

(** A parameter with a default: the default stands in when the caller
    does not supply it. *)
Definition default {A} (d : A) (o : option A) : A :=
  match o with Some a => a | None => d end.

(** *** Strings *)

(** [str(x)] as an f-string renders it. *)
Class Str (A : Type) : Type := str : A -> string.

#[export] Instance str_string : Str string := fun s => s.
#[export] Instance str_bool : Str bool :=
  fun b => if b then "True" else "False".
#[export] Instance str_nat : Str nat :=
  fun n => NilEmpty.string_of_uint (Nat.to_uint n).
#[export] Instance str_option {A} `{Str A} : Str (option A) :=
  fun o => match o with Some a => str a | None => "None" end.

(** [sub in s] for strings. *)
Fixpoint str_contains (sub s : string) : bool :=
  if String.prefix sub s then true
  else match s with
       | EmptyString => false
       | String _ s' => str_contains sub s'
       end.

(** [s.split(sep)] for a separator of one character: the pieces between
    the occurrences of [sep], of which there is always at least one. *)
Fixpoint split_char (sep : ascii) (s : string) : list string :=
  match s with
  | EmptyString => [EmptyString]
  | String c s' =>
      if Ascii.eqb c sep then EmptyString :: split_char sep s'
      else match split_char sep s' with
           | [] => [String c EmptyString]
           | p :: ps => String c p :: ps
           end
  end.

(** [sep.join(items)]: every item has to be a [str]. *)
Fixpoint str_items (items : list value) : exn + list string :=
  match items with
  | [] => inr []
  | VStr s :: items' =>
      match str_items items' with
      | inl e => inl e
      | inr ss => inr (s :: ss)
      end
  | _ :: _ => inl TypeError
  end.

Definition join (sep : string) (items : list value) : exn + string :=
  match str_items items with
  | inl e => inl e
  | inr ss => inr (String.concat sep ss)
  end.

(** [s.lower()] on ASCII letters. *)
Definition lower_ascii (c : ascii) : ascii :=
  let n := nat_of_ascii c in
  if Nat.leb 65 n && Nat.leb n 90 then ascii_of_nat (n + 32) else c.

Fixpoint lower (s : string) : string :=
  match s with
  | EmptyString => EmptyString
  | String c s' => String (lower_ascii c) (lower s')
  end.

(** The characters of a string, each a string of length one. *)
Fixpoint chars (s : string) : list string :=
  match s with
  | EmptyString => []
  | String c s' => String c EmptyString :: chars s'
  end.

(** *** Operators on values *)

(** [v == s] for a [str] [s] *)
Definition eq_str (v : value) (s : string) : bool :=
  match v with VStr t => String.eqb t s | _ => false end.

(** [k in c] for a [str] [k] *)
Definition str_in (k : string) (c : value) : exn + bool :=
  match c with
  | VDict d => inr (dict_in k d)
  | VList l => inr (existsb (fun v => eq_str v k) l)
  | VStr s => inr (str_contains k s)
  | _ => inl TypeError
  end.

(** [c[k]] for a [str] [k] *)
Definition subscript (c : value) (k : string) : exn + value :=
  match c with
  | VDict d => dict_item k d
  | _ => inl TypeError
  end.

(** [c[k] = v] for a [str] [k] *)
Definition set_item (c : value) (k : string) (v : value) : exn + value :=
  match c with
  | VDict d => inr (VDict (dict_set k v d))
  | _ => inl TypeError
  end.

(** [c.get(k, dflt)] *)
Definition get (c : value) (k : string) (dflt : value) : exn + value :=
  match c with
  | VDict d => inr (dict_get_default k dflt d)
  | _ => inl AttributeError
  end.

(** [for x in c]: the items a loop over [c] visits. *)
Definition iterate (c : value) : exn + list value :=
  match c with
  | VList l => inr l
  | VDict d => inr (map VStr (dict_keys d))
  | VStr s => inr (map VStr (chars s))
  | _ => inl TypeError
  end.

(** [float(z)] for an [int]: the nearest double, ties to even;
    [OverflowError] when it is out of range. *)
Definition float_of_int (z : Z) : exn + float :=
  let f := SF2Prim (binary_normalize 53 1024 z 0 false) in
  if PrimFloat.eqb (PrimFloat.abs f) infinity then inl OverflowError
  else inr f.

(** [x * v] for a [float] [x] *)
Definition float_mul (x : float) (v : value) : exn + value :=
  match v with
  | VFloat y => inr (VFloat (x * y)%float)
  | VInt z =>
      match float_of_int z with
      | inl e => inl e
      | inr y => inr (VFloat (x * y)%float)
      end
  | VBool b => inr (VFloat (x * (if b then 1 else 0))%float)
  | _ => inl TypeError
  end.

(** [l[:n]] for a non-negative [n]. *)
Definition slice_to {A} (n : nat) (l : list A) : list A := firstn n l.

(** [when c f x]: the statement [if c: x = f(x)]. *)
Definition when {A} (c : bool) (f : A -> A) (x : A) : A :=
  if c then f x else x.

(** [enumerate(l)] *)
Definition enumerate {A} (l : list A) : list (nat * A) :=
  combine (seq 0 (List.length l)) l.

(** A [for] loop over [l] whose body updates [s] and may raise. *)
Fixpoint for_each {A S} (body : A -> S -> exn + S) (l : list A) (s : S)
  : exn + S :=
  match l with
  | [] => inr s
  | a :: l' =>
      match body a s with
      | inl e => inl e
      | inr s' => for_each body l' s'
      end
  end.

End Py.

Import Py.

(** ** The HTTP transport ([httpx]) and the tool monad *)

Module Http.

Inductive Method : Type := GET | POST | PUT | PATCH | DELETE.

(** What a call of [client.get], [client.post], ... is given. *)
Record Request : Type := mkRequest {
  req_method : Method;
  req_url : string;
  req_headers : option (dict value);
  req_params : option (dict value);
  req_json : option value;
  req_auth : option (value * value)
}.

(** [body] is the decoded JSON body, [None] when the body is not JSON. *)
Record Response : Type := mkResponse {
  status_code : Z;
  body : option value
}.

(** A tool either returns, raises, or issues a request and goes on with
    the response it is given. *)
Inductive Prog (A : Type) : Type :=
| Ret (a : A)
| Raise (e : exn)
| Send (r : Request) (k : Response -> Prog A).

Arguments Ret {A} a.
Arguments Raise {A} e.
Arguments Send {A} r k.

Fixpoint bind {A B} (p : Prog A) (f : A -> Prog B) : Prog B :=
  match p with
  | Ret a => f a
  | Raise e => Raise e
  | Send r k => Send r (fun resp => bind (k resp) f)
  end.

Notation "x <- p ;; q" := (bind p (fun x => q))
  (at level 61, p at next level, right associativity).

(** A pure computation that may raise, run inside a tool. *)
Definition lift {A} (r : exn + A) : Prog A :=
  match r with inl e => Raise e | inr a => Ret a end.

(** [await client.<method>(...)] *)
Definition request (r : Request) : Prog Response := Send r (fun resp => Ret resp).

(** [response.raise_for_status()]: any status outside 2xx raises. *)
Definition is_success (resp : Response) : bool :=
  (200 <=? status_code resp)%Z && (status_code resp <=? 299)%Z.

Definition raise_for_status (resp : Response) : Prog unit :=
  if is_success resp then Ret tt
  else Raise (HTTPStatusError (status_code resp) (body resp)).

(** [response.json()] *)
Definition response_json (resp : Response) : Prog value :=
  match body resp with
  | Some v => Ret v
  | None => Raise JSONDecodeError
  end.

(** Running a tool against an upstream: the requests issued, in order,
    and the outcome.  The upstream answers a request with a response or
    the transport fails (a timeout, a refused connection). *)
Fixpoint run {A} (upstream : Request -> exn + Response) (p : Prog A)
  : list Request * (exn + A) :=
  match p with
  | Ret a => ([], inr a)
  | Raise e => ([], inl e)
  | Send r k =>
      match upstream r with
      | inl e => ([r], inl e)
      | inr resp => let (rs, out) := run upstream (k resp) in (r :: rs, out)
      end
  end.

Definition requests {A} (upstream : Request -> exn + Response) (p : Prog A)
  : list Request := fst (run upstream p).

Definition outcome {A} (upstream : Request -> exn + Response) (p : Prog A)
  : exn + A := snd (run upstream p).

End Http.

Import Http.

(** ** servers/airtable/server.py *)

Module Airtable.

Section Env.
(** [os.getenv("AIRTABLE_ACCESS_TOKEN")] *)
Variable AIRTABLE_ACCESS_TOKEN : option string.

Definition BASE_URL : string := "https://api.airtable.com/v0".

Definition get_headers : exn + dict value :=
  if negb (truthy AIRTABLE_ACCESS_TOKEN) then
    inl (ValueError "AIRTABLE_ACCESS_TOKEN environment variable is required")
  else
    inr [("Authorization", VStr ("Bearer " ++ str AIRTABLE_ACCESS_TOKEN));
         ("Content-Type", VStr "application/json")].

(** [for field in fields: params["fields[]"] = field] *)
Definition set_fields (fields : list string) (params : dict value)
  : dict value :=
  fold_left (fun params field => dict_set "fields[]" (to_value field) params)
            fields params.

(** The body of the loop over [enumerate(sort)]. *)
Definition set_sort_item (item : nat * dict string) (params : dict value)
  : exn + dict value :=
  let (i, sort_item) := item in
  match dict_item "field" sort_item with
  | inl e => inl e
  | inr field =>
      let params :=
        dict_set ("sort[" ++ str i ++ "][field]") (to_value field) params in
      let params :=
        dict_set ("sort[" ++ str i ++ "][direction]")
                 (to_value (dict_get_default "direction" "asc" sort_item))
                 params in
      inr params
  end.

(** The query parameters [list_records] builds (lines 96-114). *)
Definition list_records_params
    (fields : option (list string))
    (filter_by_formula : option string)
    (max_records page_size : option Z)
    (sort : option (list (dict string)))
    (view offset : option string) : exn + dict value :=
  let params : dict value := [] in
  let params :=
    match fields with
    | Some fs => when (truthy fs) (set_fields fs) params
    | None => params
    end in
  let params :=
    when (truthy filter_by_formula)
         (dict_set "filterByFormula" (to_value filter_by_formula)) params in
  let params :=
    when (truthy max_records)
         (dict_set "maxRecords" (to_value max_records)) params in
  let params :=
    when (truthy page_size)
         (dict_set "pageSize" (to_value page_size)) params in
  let params := when (truthy view) (dict_set "view" (to_value view)) params in
  let params :=
    when (truthy offset) (dict_set "offset" (to_value offset)) params in
  match sort with
  | Some items =>
      if truthy items then for_each set_sort_item (enumerate items) params
      else inr params
  | None => inr params
  end.

Definition list_records
    (base_id table_id_or_name : string)
    (fields : option (list string))
    (filter_by_formula : option string)
    (max_records page_size : option Z)
    (sort : option (list (dict string)))
    (view offset : option string) : Prog value :=
  params <- lift (list_records_params fields filter_by_formula max_records
                                      page_size sort view offset) ;;
  headers <- lift get_headers ;;
  response <- request
    (mkRequest GET (BASE_URL ++ "/" ++ base_id ++ "/" ++ table_id_or_name)
               (Some headers) (Some params) None None) ;;
  _ <- raise_for_status response ;;
  response_json response.

Definition update_record
    (base_id table_id_or_name record_id : string)
    (fields : dict value)
    (replace_all : option bool) : Prog value :=
  let replace_all := default false replace_all in
  let data : dict value := [("fields", to_value fields)] in
  response <-
    (if replace_all then
       headers <- lift get_headers ;;
       request
         (mkRequest PUT
            (BASE_URL ++ "/" ++ base_id ++ "/" ++ table_id_or_name ++ "/"
                      ++ record_id)
            (Some headers) None (Some (to_value data)) None)
     else
       headers <- lift get_headers ;;
       request
         (mkRequest PATCH
            (BASE_URL ++ "/" ++ base_id ++ "/" ++ table_id_or_name ++ "/"
                      ++ record_id)
            (Some headers) None (Some (to_value data)) None)) ;;
  _ <- raise_for_status response ;;
  response_json response.

Definition search_records
    (base_id table_id_or_name formula : string)
    (fields : option (list string))
    (sort : option (list (dict string)))
    (max_records : option Z) : Prog value :=
  list_records base_id table_id_or_name fields (Some formula) max_records
               None sort None None.

(** [{"fields": r} if "fields" not in r else r] *)
Definition format_record (r : dict value) : dict value :=
  if negb (dict_in "fields" r) then [("fields", to_value r)] else r.

Definition bulk_create_records
    (base_id table_id_or_name : string)
    (records : list (dict value)) : Prog value :=
  let formatted_records := map format_record records in
  let data : dict value :=
    [("records", to_value (slice_to 10 formatted_records))] in
  headers <- lift get_headers ;;
  response <- request
    (mkRequest POST (BASE_URL ++ "/" ++ base_id ++ "/" ++ table_id_or_name)
               (Some headers) None (Some (to_value data)) None) ;;
  _ <- raise_for_status response ;;
  response_json response.

Definition bulk_update_records
    (base_id table_id_or_name : string)
    (records : list (dict value))
    (replace_all : option bool) : Prog value :=
  let replace_all := default false replace_all in
  let data : dict value := [("records", to_value (slice_to 10 records))] in
  response <-
    (if replace_all then
       headers <- lift get_headers ;;
       request
         (mkRequest PUT (BASE_URL ++ "/" ++ base_id ++ "/" ++ table_id_or_name)
                    (Some headers) None (Some (to_value data)) None)
     else
       headers <- lift get_headers ;;
       request
         (mkRequest PATCH
                    (BASE_URL ++ "/" ++ base_id ++ "/" ++ table_id_or_name)
                    (Some headers) None (Some (to_value data)) None)) ;;
  _ <- raise_for_status response ;;
  response_json response.

Definition list_bases : Prog value :=
  headers <- lift get_headers ;;
  response <- request
    (mkRequest GET "https://api.airtable.com/v0/meta/bases"
               (Some headers) None None None) ;;
  _ <- raise_for_status response ;;
  response_json response.

Definition get_base_schema (base_id : string) : Prog value :=
  headers <- lift get_headers ;;
  response <- request
    (mkRequest GET
       ("https://api.airtable.com/v0/meta/bases/" ++ base_id ++ "/tables")
       (Some headers) None None None) ;;
  _ <- raise_for_status response ;;
  response_json response.

Definition get_record (base_id table_id_or_name record_id : string)
  : Prog value :=
  headers <- lift get_headers ;;
  response <- request
    (mkRequest GET
       (BASE_URL ++ "/" ++ base_id ++ "/" ++ table_id_or_name ++ "/"
                 ++ record_id)
       (Some headers) None None None) ;;
  _ <- raise_for_status response ;;
  response_json response.

Definition create_record (base_id table_id_or_name : string)
    (fields : dict value) : Prog value :=
  let data : dict value := [("fields", to_value fields)] in
  headers <- lift get_headers ;;
  response <- request
    (mkRequest POST (BASE_URL ++ "/" ++ base_id ++ "/" ++ table_id_or_name)
               (Some headers) None (Some (to_value data)) None) ;;
  _ <- raise_for_status response ;;
  response_json response.

Definition delete_record (base_id table_id_or_name record_id : string)
  : Prog value :=
  headers <- lift get_headers ;;
  response <- request
    (mkRequest DELETE
       (BASE_URL ++ "/" ++ base_id ++ "/" ++ table_id_or_name ++ "/"
                 ++ record_id)
       (Some headers) None None None) ;;
  _ <- raise_for_status response ;;
  response_json response.

(** The loop over the tables of a schema in [get_table_fields] and
    [list_views] (lines 375-383 and 410-418): the first table whose [id] or
    [name] is [table_id_or_name] is returned with its [part] (["fields"] or
    ["views"]); without one, the error object is. *)
Fixpoint find_table (part table_id_or_name : string) (tables : list value)
  : exn + value :=
  match tables with
  | [] => inr (VDict [("error", VStr "Table not found")])
  | table :: tables' =>
      let found :=
        match subscript table "id" with
        | inl e => inl e
        | inr id =>
            match subscript table "name" with
            | inl e => inl e
            | inr name =>
                match get table part (VList []) with
                | inl e => inl e
                | inr items =>
                    inr (VDict [("table_id", id); ("table_name", name);
                                (part, items)])
                end
            end
        end in
      match subscript table "id" with
      | inl e => inl e
      | inr id =>
          if eq_str id table_id_or_name then found
          else
            match subscript table "name" with
            | inl e => inl e
            | inr name =>
                if eq_str name table_id_or_name then found
                else find_table part table_id_or_name tables'
            end
      end
  end.

(** [for table in schema.get("tables", [])] with the loop above. *)
Definition find_in_schema (part table_id_or_name : string) (schema : value)
  : exn + value :=
  match get schema "tables" (VList []) with
  | inl e => inl e
  | inr tables =>
      match iterate tables with
      | inl e => inl e
      | inr tables => find_table part table_id_or_name tables
      end
  end.

Definition get_table_fields (base_id table_id_or_name : string)
  : Prog value :=
  headers <- lift get_headers ;;
  response <- request
    (mkRequest GET
       ("https://api.airtable.com/v0/meta/bases/" ++ base_id ++ "/tables")
       (Some headers) None None None) ;;
  _ <- raise_for_status response ;;
  schema <- response_json response ;;
  lift (find_in_schema "fields" table_id_or_name schema).

Definition list_views (base_id table_id_or_name : string) : Prog value :=
  headers <- lift get_headers ;;
  response <- request
    (mkRequest GET
       ("https://api.airtable.com/v0/meta/bases/" ++ base_id ++ "/tables")
       (Some headers) None None None) ;;
  _ <- raise_for_status response ;;
  schema <- response_json response ;;
  lift (find_in_schema "views" table_id_or_name schema).

(** One call of a tool the module registers with [@mcp.tool()]. *)
Inductive Call : Type :=
| ListBases
| GetBaseSchema (base_id : string)
| ListRecords (base_id table_id_or_name : string)
    (fields : option (list string)) (filter_by_formula : option string)
    (max_records page_size : option Z) (sort : option (list (dict string)))
    (view offset : option string)
| GetRecord (base_id table_id_or_name record_id : string)
| CreateRecord (base_id table_id_or_name : string) (fields : dict value)
| UpdateRecord (base_id table_id_or_name record_id : string)
    (fields : dict value) (replace_all : option bool)
| DeleteRecord (base_id table_id_or_name record_id : string)
| SearchRecords (base_id table_id_or_name formula : string)
    (fields : option (list string)) (sort : option (list (dict string)))
    (max_records : option Z)
| BulkCreateRecords (base_id table_id_or_name : string)
    (records : list (dict value))
| BulkUpdateRecords (base_id table_id_or_name : string)
    (records : list (dict value)) (replace_all : option bool)
| GetTableFields (base_id table_id_or_name : string)
| ListViews (base_id table_id_or_name : string).

Definition invoke (c : Call) : Prog value :=
  match c with
  | ListBases => list_bases
  | GetBaseSchema b => get_base_schema b
  | ListRecords b t fields f m p sort v o =>
      list_records b t fields f m p sort v o
  | GetRecord b t r => get_record b t r
  | CreateRecord b t fields => create_record b t fields
  | UpdateRecord b t r fields replace_all =>
      update_record b t r fields replace_all
  | DeleteRecord b t r => delete_record b t r
  | SearchRecords b t formula fields sort m =>
      search_records b t formula fields sort m
  | BulkCreateRecords b t records => bulk_create_records b t records
  | BulkUpdateRecords b t records replace_all =>
      bulk_update_records b t records replace_all
  | GetTableFields b t => get_table_fields b t
  | ListViews b t => list_views b t
  end.

End Env.

End Airtable.

(** ** servers/todoist/server.py *)

Module Todoist.

Section Env.
(** [os.getenv("TODOIST_API_TOKEN")] *)
Variable API_TOKEN : option string.

Definition BASE_URL : string := "https://api.todoist.com/rest/v2".

Definition get_headers : dict value :=
  [("Authorization", VStr ("Bearer " ++ str API_TOKEN));
   ("Content-Type", VStr "application/json")].

(** The JSON body [update_task] builds (lines 167-184). *)
Definition update_task_payload
    (content description : option string)
    (labels : option (list string))
    (priority : option Z)
    (due_string due_date due_datetime : option string)
    (due_lang : option string)
    (assignee_id : option string) : dict value :=
  let due_lang := default "en" due_lang in
  let payload : dict value := [("due_lang", to_value due_lang)] in
  let payload :=
    when (truthy content) (dict_set "content" (to_value content)) payload in
  let payload :=
    when (truthy description)
         (dict_set "description" (to_value description)) payload in
  let payload :=
    when (truthy labels) (dict_set "labels" (to_value labels)) payload in
  let payload :=
    when (truthy priority) (dict_set "priority" (to_value priority)) payload in
  let payload :=
    when (truthy due_string)
         (dict_set "due_string" (to_value due_string)) payload in
  let payload :=
    when (truthy due_date) (dict_set "due_date" (to_value due_date)) payload in
  let payload :=
    when (truthy due_datetime)
         (dict_set "due_datetime" (to_value due_datetime)) payload in
  let payload :=
    when (truthy assignee_id)
         (dict_set "assignee_id" (to_value assignee_id)) payload in
  payload.

Definition update_task
    (task_id : string)
    (content description : option string)
    (labels : option (list string))
    (priority : option Z)
    (due_string due_date due_datetime : option string)
    (due_lang : option string)
    (assignee_id : option string) : Prog value :=
  let payload :=
    update_task_payload content description labels priority due_string
                        due_date due_datetime due_lang assignee_id in
  response <- request
    (mkRequest POST (BASE_URL ++ "/tasks/" ++ task_id)
               (Some get_headers) None (Some (to_value payload)) None) ;;
  _ <- raise_for_status response ;;
  response_json response.

Definition get_task (task_id : string) : Prog value :=
  response <- request
    (mkRequest GET (BASE_URL ++ "/tasks/" ++ task_id)
               (Some get_headers) None None None) ;;
  _ <- raise_for_status response ;;
  response_json response.

(** The JSON body [create_task] builds (lines 103-128). *)
Definition create_task_payload
    (content : string)
    (description project_id section_id parent_id : option string)
    (order : option Z)
    (labels : option (list string))
    (priority : option Z)
    (due_string due_date due_datetime : option string)
    (due_lang : option string)
    (assignee_id : option string) : dict value :=
  let priority := default 1%Z priority in
  let due_lang := default "en" due_lang in
  let payload : dict value :=
    [("content", to_value content); ("priority", to_value priority);
     ("due_lang", to_value due_lang)] in
  let payload :=
    when (truthy description)
         (dict_set "description" (to_value description)) payload in
  let payload :=
    when (truthy project_id)
         (dict_set "project_id" (to_value project_id)) payload in
  let payload :=
    when (truthy section_id)
         (dict_set "section_id" (to_value section_id)) payload in
  let payload :=
    when (truthy parent_id)
         (dict_set "parent_id" (to_value parent_id)) payload in
  let payload :=
    when (is_not_None order) (dict_set "order" (to_value order)) payload in
  let payload :=
    when (truthy labels) (dict_set "labels" (to_value labels)) payload in
  let payload :=
    when (truthy due_string)
         (dict_set "due_string" (to_value due_string)) payload in
  let payload :=
    when (truthy due_date) (dict_set "due_date" (to_value due_date)) payload in
  let payload :=
    when (truthy due_datetime)
         (dict_set "due_datetime" (to_value due_datetime)) payload in
  let payload :=
    when (truthy assignee_id)
         (dict_set "assignee_id" (to_value assignee_id)) payload in
  payload.

Definition create_task
    (content : string)
    (description project_id section_id parent_id : option string)
    (order : option Z)
    (labels : option (list string))
    (priority : option Z)
    (due_string due_date due_datetime : option string)
    (due_lang : option string)
    (assignee_id : option string) : Prog value :=
  let payload :=
    create_task_payload content description project_id section_id parent_id
                        order labels priority due_string due_date due_datetime
                        due_lang assignee_id in
  response <- request
    (mkRequest POST (BASE_URL ++ "/tasks")
               (Some get_headers) None (Some (to_value payload)) None) ;;
  _ <- raise_for_status response ;;
  response_json response.

Definition complete_task (task_id : string) : Prog value :=
  response <- request
    (mkRequest POST (BASE_URL ++ "/tasks/" ++ task_id ++ "/close")
               (Some get_headers) None None None) ;;
  _ <- raise_for_status response ;;
  Ret (VDict [("success", VBool true); ("task_id", to_value task_id)]).

Definition reopen_task (task_id : string) : Prog value :=
  response <- request
    (mkRequest POST (BASE_URL ++ "/tasks/" ++ task_id ++ "/reopen")
               (Some get_headers) None None None) ;;
  _ <- raise_for_status response ;;
  Ret (VDict [("success", VBool true); ("task_id", to_value task_id)]).

Definition delete_task (task_id : string) : Prog value :=
  response <- request
    (mkRequest DELETE (BASE_URL ++ "/tasks/" ++ task_id)
               (Some get_headers) None None None) ;;
  _ <- raise_for_status response ;;
  Ret (VDict [("success", VBool true); ("task_id", to_value task_id)]).

(** The JSON body [update_project] builds (lines 327-336). *)
Definition update_project_payload
    (name color : option string)
    (is_favorite : option bool)
    (view_style : option string) : dict value :=
  let payload : dict value := [] in
  let payload := when (truthy name) (dict_set "name" (to_value name)) payload in
  let payload :=
    when (truthy color) (dict_set "color" (to_value color)) payload in
  let payload :=
    when (is_not_None is_favorite)
         (dict_set "is_favorite" (to_value is_favorite)) payload in
  let payload :=
    when (truthy view_style)
         (dict_set "view_style" (to_value view_style)) payload in
  payload.

Definition update_project
    (project_id : string)
    (name color : option string)
    (is_favorite : option bool)
    (view_style : option string) : Prog value :=
  let payload := update_project_payload name color is_favorite view_style in
  response <- request
    (mkRequest POST (BASE_URL ++ "/projects/" ++ project_id)
               (Some get_headers) None (Some (to_value payload)) None) ;;
  _ <- raise_for_status response ;;
  response_json response.

(** The query parameters [list_comments] builds (lines 474-478). *)
Definition list_comments_params (task_id project_id : option string)
  : dict value :=
  let params : dict value := [] in
  if truthy task_id then dict_set "task_id" (to_value task_id) params
  else if truthy project_id then
    dict_set "project_id" (to_value project_id) params
  else params.

Definition list_comments (task_id project_id : option string) : Prog value :=
  let params := list_comments_params task_id project_id in
  response <- request
    (mkRequest GET (BASE_URL ++ "/comments")
               (Some get_headers) (Some params) None None) ;;
  _ <- raise_for_status response ;;
  response_json response.

(** The JSON body [create_comment] builds (lines 505-513). *)
Definition create_comment_payload
    (content : string)
    (task_id project_id : option string)
    (attachment : option (dict value)) : dict value :=
  let payload : dict value := [("content", to_value content)] in
  let payload :=
    if truthy task_id then dict_set "task_id" (to_value task_id) payload
    else if truthy project_id then
      dict_set "project_id" (to_value project_id) payload
    else payload in
  let payload :=
    when (truthy attachment)
         (dict_set "attachment" (to_value attachment)) payload in
  payload.

Definition create_comment
    (content : string)
    (task_id project_id : option string)
    (attachment : option (dict value)) : Prog value :=
  let payload := create_comment_payload content task_id project_id attachment in
  response <- request
    (mkRequest POST (BASE_URL ++ "/comments")
               (Some get_headers) None (Some (to_value payload)) None) ;;
  _ <- raise_for_status response ;;
  response_json response.

End Env.

End Todoist.

(** ** servers/mailchimp/server.py *)

Module Mailchimp.

Section Env.
(** [os.getenv("MAILCHIMP_API_KEY")] *)
Variable API_KEY : option string.

Definition invalid_key_message : string :=
  "Invalid MAILCHIMP_API_KEY format. Expected format: key-dc (e.g., abc123-us1)".

(** [API_KEY.split("-")[-1]]; a split is never empty. *)
Definition data_center (key : string) : string :=
  last (split_char "-" key) EmptyString.

Definition get_base_url : exn + string :=
  match API_KEY with
  | None => inl (ValueError invalid_key_message)
  | Some key =>
      if negb (truthy key) || negb (str_contains "-" key) then
        inl (ValueError invalid_key_message)
      else
        let dc := data_center key in
        inr ("https://" ++ dc ++ ".api.mailchimp.com/3.0")
  end.

Definition get_auth : value * value := (VStr "anystring", to_value API_KEY).

Definition list_audiences (count offset : option Z) : Prog value :=
  let count := default 10%Z count in
  let offset := default 0%Z offset in
  base_url <- lift get_base_url ;;
  response <- request
    (mkRequest GET (base_url ++ "/lists") None
               (Some [("count", to_value count); ("offset", to_value offset)])
               None (Some get_auth)) ;;
  _ <- raise_for_status response ;;
  response_json response.

(** [hashlib.md5(data).hexdigest()], of the Python library. *)
Variable md5_hexdigest : string -> string.

(** [email.lower()] is taken on ASCII letters. *)
Definition md5_hash (email : string) : string :=
  md5_hexdigest (lower email).

Definition get_audience (list_id : string) : Prog value :=
  base_url <- lift get_base_url ;;
  response <- request
    (mkRequest GET (base_url ++ "/lists/" ++ list_id) None None None
               (Some get_auth)) ;;
  _ <- raise_for_status response ;;
  response_json response.

Definition list_audience_members
    (list_id : string) (status : option string) (count offset : option Z)
  : Prog value :=
  let count := default 10%Z count in
  let offset := default 0%Z offset in
  let params : dict value :=
    [("count", to_value count); ("offset", to_value offset)] in
  let params :=
    when (truthy status) (dict_set "status" (to_value status)) params in
  base_url <- lift get_base_url ;;
  response <- request
    (mkRequest GET (base_url ++ "/lists/" ++ list_id ++ "/members") None
               (Some params) None (Some get_auth)) ;;
  _ <- raise_for_status response ;;
  response_json response.

Definition add_member
    (list_id email_address : string)
    (status : option string)
    (merge_fields : option (dict value))
    (tags : option (list string))
    (vip : option bool) : Prog value :=
  let status := default "subscribed" status in
  let vip := default false vip in
  let payload : dict value :=
    [("email_address", to_value email_address); ("status", to_value status);
     ("vip", to_value vip)] in
  let payload :=
    when (truthy merge_fields)
         (dict_set "merge_fields" (to_value merge_fields)) payload in
  let payload :=
    when (truthy tags) (dict_set "tags" (to_value tags)) payload in
  base_url <- lift get_base_url ;;
  response <- request
    (mkRequest POST (base_url ++ "/lists/" ++ list_id ++ "/members") None
               None (Some (to_value payload)) (Some get_auth)) ;;
  _ <- raise_for_status response ;;
  response_json response.

Definition update_member
    (list_id email_address : string)
    (status : option string)
    (merge_fields : option (dict value))
    (vip : option bool) : Prog value :=
  let subscriber_hash := md5_hash email_address in
  let payload : dict value := [] in
  let payload :=
    when (truthy status) (dict_set "status" (to_value status)) payload in
  let payload :=
    when (truthy merge_fields)
         (dict_set "merge_fields" (to_value merge_fields)) payload in
  let payload :=
    when (is_not_None vip) (dict_set "vip" (to_value vip)) payload in
  base_url <- lift get_base_url ;;
  response <- request
    (mkRequest PATCH
       (base_url ++ "/lists/" ++ list_id ++ "/members/" ++ subscriber_hash)
       None None (Some (to_value payload)) (Some get_auth)) ;;
  _ <- raise_for_status response ;;
  response_json response.

Definition delete_member (list_id email_address : string) : Prog value :=
  let subscriber_hash := md5_hash email_address in
  base_url <- lift get_base_url ;;
  response <- request
    (mkRequest DELETE
       (base_url ++ "/lists/" ++ list_id ++ "/members/" ++ subscriber_hash)
       None None None (Some get_auth)) ;;
  _ <- raise_for_status response ;;
  Ret (VDict [("success", VBool true); ("email", to_value email_address)]).

Definition list_campaigns (status : option string) (count offset : option Z)
  : Prog value :=
  let count := default 10%Z count in
  let offset := default 0%Z offset in
  let params : dict value :=
    [("count", to_value count); ("offset", to_value offset)] in
  let params :=
    when (truthy status) (dict_set "status" (to_value status)) params in
  base_url <- lift get_base_url ;;
  response <- request
    (mkRequest GET (base_url ++ "/campaigns") None (Some params) None
               (Some get_auth)) ;;
  _ <- raise_for_status response ;;
  response_json response.

Definition get_campaign (campaign_id : string) : Prog value :=
  base_url <- lift get_base_url ;;
  response <- request
    (mkRequest GET (base_url ++ "/campaigns/" ++ campaign_id) None None None
               (Some get_auth)) ;;
  _ <- raise_for_status response ;;
  response_json response.

(** The JSON body [create_campaign] builds (lines 260-274); the title goes
    into the [settings] object the body holds. *)
Definition create_campaign_payload
    (campaign_type list_id subject_line from_name reply_to : string)
    (title : option string) : dict value :=
  let payload : dict value :=
    [("type", to_value campaign_type);
     ("recipients", VDict [("list_id", to_value list_id)]);
     ("settings",
      VDict [("subject_line", to_value subject_line);
             ("from_name", to_value from_name);
             ("reply_to", to_value reply_to)])] in
  if truthy title then
    match dict_get "settings" payload with
    | Some (VDict settings) =>
        dict_set "settings"
                 (VDict (dict_set "title" (to_value title) settings)) payload
    | _ => payload
    end
  else payload.

Definition create_campaign
    (campaign_type list_id subject_line from_name reply_to : string)
    (title : option string) : Prog value :=
  let payload :=
    create_campaign_payload campaign_type list_id subject_line from_name
                            reply_to title in
  base_url <- lift get_base_url ;;
  response <- request
    (mkRequest POST (base_url ++ "/campaigns") None None
               (Some (to_value payload)) (Some get_auth)) ;;
  _ <- raise_for_status response ;;
  response_json response.

Definition send_campaign (campaign_id : string) (schedule_time : option string)
  : Prog value :=
  response <-
    (if truthy schedule_time then
       base_url <- lift get_base_url ;;
       request
         (mkRequest POST
            (base_url ++ "/campaigns/" ++ campaign_id ++ "/actions/schedule")
            None None
            (Some (VDict [("schedule_time", to_value schedule_time)]))
            (Some get_auth))
     else
       base_url <- lift get_base_url ;;
       request
         (mkRequest POST
            (base_url ++ "/campaigns/" ++ campaign_id ++ "/actions/send")
            None None None (Some get_auth))) ;;
  _ <- raise_for_status response ;;
  Ret (VDict [("success", VBool true); ("campaign_id", to_value campaign_id);
              ("scheduled", VBool (truthy schedule_time))]).

Definition list_templates (count offset : option Z) : Prog value :=
  let count := default 10%Z count in
  let offset := default 0%Z offset in
  base_url <- lift get_base_url ;;
  response <- request
    (mkRequest GET (base_url ++ "/templates") None
               (Some [("count", to_value count); ("offset", to_value offset)])
               None (Some get_auth)) ;;
  _ <- raise_for_status response ;;
  response_json response.

Definition get_campaign_reports (campaign_id : string) : Prog value :=
  base_url <- lift get_base_url ;;
  response <- request
    (mkRequest GET (base_url ++ "/reports/" ++ campaign_id) None None None
               (Some get_auth)) ;;
  _ <- raise_for_status response ;;
  response_json response.

Definition list_segments (list_id : string) (count offset : option Z)
  : Prog value :=
  let count := default 10%Z count in
  let offset := default 0%Z offset in
  base_url <- lift get_base_url ;;
  response <- request
    (mkRequest GET (base_url ++ "/lists/" ++ list_id ++ "/segments") None
               (Some [("count", to_value count); ("offset", to_value offset)])
               None (Some get_auth)) ;;
  _ <- raise_for_status response ;;
  response_json response.

Definition create_segment
    (list_id name : string) (static_segment : option (list string))
  : Prog value :=
  let payload : dict value := [("name", to_value name)] in
  let payload :=
    when (truthy static_segment)
         (dict_set "static_segment" (to_value static_segment)) payload in
  base_url <- lift get_base_url ;;
  response <- request
    (mkRequest POST (base_url ++ "/lists/" ++ list_id ++ "/segments") None
               None (Some (to_value payload)) (Some get_auth)) ;;
  _ <- raise_for_status response ;;
  response_json response.

Definition list_tags (list_id : string) (count offset : option Z)
  : Prog value :=
  let count := default 10%Z count in
  let offset := default 0%Z offset in
  base_url <- lift get_base_url ;;
  response <- request
    (mkRequest GET (base_url ++ "/lists/" ++ list_id ++ "/tag-search") None
               (Some [("count", to_value count); ("offset", to_value offset)])
               None (Some get_auth)) ;;
  _ <- raise_for_status response ;;
  response_json response.

Definition add_tags_to_member
    (list_id email_address : string) (tags : list string)
    (is_syncing : option bool) : Prog value :=
  let is_syncing := default false is_syncing in
  let subscriber_hash := md5_hash email_address in
  let payload : dict value :=
    [("tags",
      VList (map (fun tag => VDict [("name", to_value tag);
                                    ("status", VStr "active")]) tags));
     ("is_syncing", to_value is_syncing)] in
  base_url <- lift get_base_url ;;
  response <- request
    (mkRequest POST
       (base_url ++ "/lists/" ++ list_id ++ "/members/" ++ subscriber_hash
                 ++ "/tags")
       None None (Some (to_value payload)) (Some get_auth)) ;;
  _ <- raise_for_status response ;;
  Ret (VDict [("success", VBool true); ("email", to_value email_address);
              ("tags_added", VInt (Z.of_nat (List.length tags)))]).

(** One call of a tool the module registers with [@mcp.tool()]. *)
Inductive Call : Type :=
| ListAudiences (count offset : option Z)
| GetAudience (list_id : string)
| ListAudienceMembers (list_id : string) (status : option string)
    (count offset : option Z)
| AddMember (list_id email_address : string) (status : option string)
    (merge_fields : option (dict value)) (tags : option (list string))
    (vip : option bool)
| UpdateMember (list_id email_address : string) (status : option string)
    (merge_fields : option (dict value)) (vip : option bool)
| DeleteMember (list_id email_address : string)
| ListCampaigns (status : option string) (count offset : option Z)
| GetCampaign (campaign_id : string)
| CreateCampaign
    (campaign_type list_id subject_line from_name reply_to : string)
    (title : option string)
| SendCampaign (campaign_id : string) (schedule_time : option string)
| ListTemplates (count offset : option Z)
| GetCampaignReports (campaign_id : string)
| ListSegments (list_id : string) (count offset : option Z)
| CreateSegment (list_id name : string) (static_segment : option (list string))
| ListTags (list_id : string) (count offset : option Z)
| AddTagsToMember (list_id email_address : string) (tags : list string)
    (is_syncing : option bool).

Definition invoke (c : Call) : Prog value :=
  match c with
  | ListAudiences count offset => list_audiences count offset
  | GetAudience l => get_audience l
  | ListAudienceMembers l status count offset =>
      list_audience_members l status count offset
  | AddMember l e status merge_fields tags vip =>
      add_member l e status merge_fields tags vip
  | UpdateMember l e status merge_fields vip =>
      update_member l e status merge_fields vip
  | DeleteMember l e => delete_member l e
  | ListCampaigns status count offset => list_campaigns status count offset
  | GetCampaign c => get_campaign c
  | CreateCampaign ty l subject from reply title =>
      create_campaign ty l subject from reply title
  | SendCampaign c schedule_time => send_campaign c schedule_time
  | ListTemplates count offset => list_templates count offset
  | GetCampaignReports c => get_campaign_reports c
  | ListSegments l count offset => list_segments l count offset
  | CreateSegment l name static_segment => create_segment l name static_segment
  | ListTags l count offset => list_tags l count offset
  | AddTagsToMember l e tags is_syncing =>
      add_tags_to_member l e tags is_syncing
  end.

End Env.

End Mailchimp.

(** ** servers/abstract-api/server.py *)

Module AbstractApi.

Section Env.
(** [os.getenv("ABSTRACT_API_KEY")] *)
Variable API_KEY : option string.

Definition get_timezone
    (location : option string)
    (latitude longitude : option float) : Prog value :=
  let params : dict value := [("api_key", to_value API_KEY)] in
  params <-
    (if truthy location then
       Ret (dict_set "location" (to_value location) params)
     else if is_not_None latitude && is_not_None longitude then
       let params := dict_set "latitude" (to_value latitude) params in
       let params := dict_set "longitude" (to_value longitude) params in
       Ret params
     else
       Raise (ValueError
                "Either location or latitude/longitude must be provided")) ;;
  response <- request
    (mkRequest GET "https://timezone.abstractapi.com/v1/current_time/"
               None (Some params) None None) ;;
  _ <- raise_for_status response ;;
  response_json response.

(** The shaping of the decoded body in [convert_currency] (lines 276-282). *)
Definition attach_converted_amount (target : string) (amount : float)
    (result : value) : exn + value :=
  match str_in "exchange_rates" result with
  | inl e => inl e
  | inr false => inr result
  | inr true =>
      match subscript result "exchange_rates" with
      | inl e => inl e
      | inr rates =>
          match str_in target rates with
          | inl e => inl e
          | inr false => inr result
          | inr true =>
              match subscript rates target with
              | inl e => inl e
              | inr rate =>
                  match float_mul amount rate with
                  | inl e => inl e
                  | inr converted =>
                      match set_item result "converted_amount" converted with
                      | inl e => inl e
                      | inr result =>
                          set_item result "amount" (to_value amount)
                      end
                  end
              end
          end
      end
  end.

Definition convert_currency
    (base target : string) (amount : float) (date : option string)
  : Prog value :=
  let params : dict value :=
    [("api_key", to_value API_KEY); ("base", to_value base);
     ("target", to_value target)] in
  let endpoint := if negb (truthy date) then "live" else "historical" in
  let params := when (truthy date) (dict_set "date" (to_value date)) params in
  response <- request
    (mkRequest GET
       ("https://exchange-rates.abstractapi.com/v1/" ++ endpoint ++ "/")
       None (Some params) None None) ;;
  _ <- raise_for_status response ;;
  result <- response_json response ;;
  lift (attach_converted_amount target amount result).

Definition geolocate_ip (ip_address : string) (fields : option string)
  : Prog value :=
  let params : dict value :=
    [("api_key", to_value API_KEY); ("ip_address", to_value ip_address)] in
  let params :=
    when (truthy fields) (dict_set "fields" (to_value fields)) params in
  response <- request
    (mkRequest GET "https://ipgeolocation.abstractapi.com/v1/"
               None (Some params) None None) ;;
  _ <- raise_for_status response ;;
  response_json response.

Definition get_ip_info (ip_address : string) : Prog value :=
  response <- request
    (mkRequest GET "https://ipgeolocation.abstractapi.com/v1/" None
               (Some [("api_key", to_value API_KEY);
                      ("ip_address", to_value ip_address)])
               None None) ;;
  _ <- raise_for_status response ;;
  response_json response.

Definition check_vpn (ip_address : string) : Prog value :=
  response <- request
    (mkRequest GET "https://ipgeolocation.abstractapi.com/v1/" None
               (Some [("api_key", to_value API_KEY);
                      ("ip_address", to_value ip_address);
                      ("fields", VStr "security")])
               None None) ;;
  _ <- raise_for_status response ;;
  response_json response.

Definition get_exchange_rates (base target : option string) : Prog value :=
  let base := default "USD" base in
  let params : dict value :=
    [("api_key", to_value API_KEY); ("base", to_value base)] in
  let params :=
    when (truthy target) (dict_set "target" (to_value target)) params in
  response <- request
    (mkRequest GET "https://exchange-rates.abstractapi.com/v1/live/"
               None (Some params) None None) ;;
  _ <- raise_for_status response ;;
  response_json response.

End Env.

End AbstractApi.

(** ** servers/claude/server.py *)

Module Claude.

Section Env.
(** [os.getenv("ANTHROPIC_API_KEY")] *)
Variable ANTHROPIC_API_KEY : option string.

Definition ANTHROPIC_BASE_URL : string := "https://api.anthropic.com/v1".
Definition ANTHROPIC_VERSION : string := "2023-06-01".

(** The check the module makes when it is loaded. *)
Definition on_import : exn + unit :=
  if negb (truthy ANTHROPIC_API_KEY) then
    inl (ValueError "ANTHROPIC_API_KEY environment variable is required")
  else inr tt.

Definition make_claude_request
    (method endpoint : string) (data : option value) : Prog value :=
  let headers : dict value :=
    [("x-api-key", to_value ANTHROPIC_API_KEY);
     ("anthropic-version", to_value ANTHROPIC_VERSION);
     ("content-type", VStr "application/json")] in
  let url := ANTHROPIC_BASE_URL ++ "/" ++ endpoint in
  response <-
    (if String.eqb method "GET" then
       request (mkRequest GET url (Some headers) None None None)
     else if String.eqb method "POST" then
       request (mkRequest POST url (Some headers) None data None)
     else
       Raise (ValueError ("Unsupported HTTP method: " ++ method))) ;;
  _ <- raise_for_status response ;;
  response_json response.

(** The body of the loop over the content blocks. *)
Definition collect_text (block : value) (text_content : list value)
  : exn + list value :=
  match get block "type" VNone with
  | inl e => inl e
  | inr type =>
      if eq_str type "text" then
        match get block "text" (VStr "") with
        | inl e => inl e
        | inr text => inr (text_content ++ [text])%list
        end
      else inr text_content
  end.

(** The shaping of the decoded body in [chat] (lines 137-143). *)
Definition extract_text (result : value) : exn + string :=
  match get result "content" (VList []) with
  | inl e => inl e
  | inr content =>
      match iterate content with
      | inl e => inl e
      | inr blocks =>
          match for_each collect_text blocks [] with
          | inl e => inl e
          | inr text_content => join (String "010" EmptyString) text_content
          end
      end
  end.

Definition chat
    (prompt : string)
    (model : option string)
    (max_tokens : option Z)
    (system : option string)
    (temperature : option float) : Prog string :=
  let model := default "claude-3-5-sonnet-20241022" model in
  let max_tokens := default 4096%Z max_tokens in
  let messages :=
    VList [VDict [("role", VStr "user"); ("content", to_value prompt)]] in
  let data : dict value :=
    [("model", to_value model); ("messages", messages);
     ("max_tokens", to_value max_tokens)] in
  let data := when (truthy system) (dict_set "system" (to_value system)) data in
  let data :=
    when (is_not_None temperature)
         (dict_set "temperature" (to_value temperature)) data in
  result <- make_claude_request "POST" "messages" (Some (to_value data)) ;;
  lift (extract_text result).

Definition create_message
    (messages : list (dict value))
    (model : option string)
    (max_tokens : option Z)
    (system : option string)
    (temperature top_p : option float)
    (top_k : option Z)
    (stop_sequences : option (list string)) : Prog value :=
  let model := default "claude-3-5-sonnet-20241022" model in
  let max_tokens := default 4096%Z max_tokens in
  let data : dict value :=
    [("model", to_value model); ("messages", to_value messages);
     ("max_tokens", to_value max_tokens)] in
  let data := when (truthy system) (dict_set "system" (to_value system)) data in
  let data :=
    when (is_not_None temperature)
         (dict_set "temperature" (to_value temperature)) data in
  let data :=
    when (is_not_None top_p) (dict_set "top_p" (to_value top_p)) data in
  let data :=
    when (is_not_None top_k) (dict_set "top_k" (to_value top_k)) data in
  let data :=
    when (truthy stop_sequences)
         (dict_set "stop_sequences" (to_value stop_sequences)) data in
  make_claude_request "POST" "messages" (Some (to_value data)).

Definition analyze_image
    (image_url : string) (prompt model : option string)
    (max_tokens : option Z) : Prog string :=
  let prompt := default "What's in this image?" prompt in
  let model := default "claude-3-5-sonnet-20241022" model in
  let max_tokens := default 4096%Z max_tokens in
  let messages :=
    VList
      [VDict
         [("role", VStr "user");
          ("content",
           VList
             [VDict [("type", VStr "image");
                     ("source", VDict [("type", VStr "url");
                                       ("url", to_value image_url)])];
              VDict [("type", VStr "text"); ("text", to_value prompt)]])]] in
  let data : dict value :=
    [("model", to_value model); ("messages", messages);
     ("max_tokens", to_value max_tokens)] in
  result <- make_claude_request "POST" "messages" (Some (to_value data)) ;;
  lift (extract_text result).

Definition analyze_image_base64
    (image_base64 media_type : string) (prompt model : option string)
    (max_tokens : option Z) : Prog string :=
  let prompt := default "What's in this image?" prompt in
  let model := default "claude-3-5-sonnet-20241022" model in
  let max_tokens := default 4096%Z max_tokens in
  let messages :=
    VList
      [VDict
         [("role", VStr "user");
          ("content",
           VList
             [VDict [("type", VStr "image");
                     ("source", VDict [("type", VStr "base64");
                                       ("media_type", to_value media_type);
                                       ("data", to_value image_base64)])];
              VDict [("type", VStr "text"); ("text", to_value prompt)]])]] in
  let data : dict value :=
    [("model", to_value model); ("messages", messages);
     ("max_tokens", to_value max_tokens)] in
  result <- make_claude_request "POST" "messages" (Some (to_value data)) ;;
  lift (extract_text result).

Definition count_tokens
    (messages : list (dict value)) (model system : option string)
  : Prog value :=
  let model := default "claude-3-5-sonnet-20241022" model in
  let data : dict value :=
    [("model", to_value model); ("messages", to_value messages);
     ("max_tokens", VInt 1)] in
  let data := when (truthy system) (dict_set "system" (to_value system)) data in
  result <- make_claude_request "POST" "messages" (Some (to_value data)) ;;
  usage <- lift (get result "usage" (VDict [])) ;;
  input_tokens <- lift (get usage "input_tokens" (VInt 0)) ;;
  usage <- lift (get result "usage" (VDict [])) ;;
  output_tokens <- lift (get usage "output_tokens" (VInt 0)) ;;
  Ret (VDict [("input_tokens", input_tokens);
              ("output_tokens", output_tokens)]).

Definition multi_turn_conversation
    (conversation_history : list (dict value))
    (new_message : string)
    (model : option string)
    (max_tokens : option Z)
    (system : option string) : Prog value :=
  let model := default "claude-3-5-sonnet-20241022" model in
  let max_tokens := default 4096%Z max_tokens in
  let messages :=
    (conversation_history
       ++ [[("role", VStr "user"); ("content", to_value new_message)]])%list in
  let data : dict value :=
    [("model", to_value model); ("messages", to_value messages);
     ("max_tokens", to_value max_tokens)] in
  let data := when (truthy system) (dict_set "system" (to_value system)) data in
  result <- make_claude_request "POST" "messages" (Some (to_value data)) ;;
  assistant_message <- lift (extract_text result) ;;
  let updated_history :=
    (messages
       ++ [[("role", VStr "assistant");
            ("content", to_value assistant_message)]])%list in
  usage <- lift (get result "usage" (VDict [])) ;;
  model' <- lift (get result "model" (to_value model)) ;;
  stop_reason <- lift (get result "stop_reason" (VStr "")) ;;
  Ret (VDict [("response", to_value assistant_message);
              ("updated_history", to_value updated_history);
              ("usage", usage);
              ("model", model');
              ("stop_reason", stop_reason)]).

(** The table of [get_model_info] (lines 350-401). *)
Definition model_info : dict (dict value) :=
  [("claude-3-5-sonnet-20241022",
    [("name", VStr "Claude 3.5 Sonnet"); ("version", VStr "20241022");
     ("context_window", VInt 200000); ("max_output", VInt 8192);
     ("supports_vision", VBool true); ("supports_tool_use", VBool true);
     ("tier", VStr "intelligent");
     ("description",
      VStr "Our most intelligent model with best-in-class performance")]);
   ("claude-3-5-haiku-20241022",
    [("name", VStr "Claude 3.5 Haiku"); ("version", VStr "20241022");
     ("context_window", VInt 200000); ("max_output", VInt 8192);
     ("supports_vision", VBool true); ("supports_tool_use", VBool true);
     ("tier", VStr "fast");
     ("description",
      VStr "Our fastest model for quick, intelligent responses")]);
   ("claude-3-opus-20240229",
    [("name", VStr "Claude 3 Opus"); ("version", VStr "20240229");
     ("context_window", VInt 200000); ("max_output", VInt 4096);
     ("supports_vision", VBool true); ("supports_tool_use", VBool true);
     ("tier", VStr "powerful");
     ("description", VStr "Top-level performance for complex tasks")]);
   ("claude-3-sonnet-20240229",
    [("name", VStr "Claude 3 Sonnet"); ("version", VStr "20240229");
     ("context_window", VInt 200000); ("max_output", VInt 4096);
     ("supports_vision", VBool true); ("supports_tool_use", VBool true);
     ("tier", VStr "balanced");
     ("description", VStr "Balance of intelligence and speed")]);
   ("claude-3-haiku-20240307",
    [("name", VStr "Claude 3 Haiku"); ("version", VStr "20240307");
     ("context_window", VInt 200000); ("max_output", VInt 4096);
     ("supports_vision", VBool true); ("supports_tool_use", VBool true);
     ("tier", VStr "fast");
     ("description", VStr "Fast and cost-effective")])].

Definition get_model_info (model : option string) : Prog value :=
  let model := default "claude-3-5-sonnet-20241022" model in
  let info :=
    dict_get_default model
      [("name", to_value model); ("context_window", VStr "unknown");
       ("supports_vision", VStr "unknown");
       ("description", VStr "Model information not available")]
      model_info in
  let info := dict_set "model_id" (to_value model) info in
  Ret (VDict info).

(** The loop over the models in [compare_responses] (lines 446-469). *)
Fixpoint compare_loop (messages : value) (max_tokens : Z)
    (system : option string) (models : list string) (results : dict value)
  : Prog (dict value) :=
  match models with
  | [] => Ret results
  | model :: models' =>
      let data : dict value :=
        [("model", to_value model); ("messages", messages);
         ("max_tokens", to_value max_tokens)] in
      let data :=
        when (truthy system) (dict_set "system" (to_value system)) data in
      result <- make_claude_request "POST" "messages" (Some (to_value data)) ;;
      response <- lift (extract_text result) ;;
      usage <- lift (get result "usage" (VDict [])) ;;
      stop_reason <- lift (get result "stop_reason" (VStr "")) ;;
      let results :=
        dict_set model
                 (VDict [("response", to_value response); ("usage", usage);
                         ("stop_reason", stop_reason)])
                 results in
      compare_loop messages max_tokens system models' results
  end.

Definition compare_responses
    (prompt : string)
    (models : option (list string))
    (max_tokens : option Z)
    (system : option string) : Prog value :=
  let models :=
    default ["claude-3-5-sonnet-20241022"; "claude-3-5-haiku-20241022"]
            models in
  let max_tokens := default 1024%Z max_tokens in
  if Nat.ltb 3 (List.length models) then
    Raise (ValueError "Maximum 3 models allowed for comparison")
  else
    let messages :=
      VList [VDict [("role", VStr "user"); ("content", to_value prompt)]] in
    results <- compare_loop messages max_tokens system models [] ;;
    Ret (VDict results).

End Env.

End Claude.

(** ** servers/clickup/server.py *)

Module ClickUp.

Section Env.
(** [os.getenv("CLICKUP_API_TOKEN")] *)
Variable API_TOKEN : option string.

Definition BASE_URL : string := "https://api.clickup.com/api/v2".

Definition get_headers : dict value :=
  [("Authorization", to_value API_TOKEN);
   ("Content-Type", VStr "application/json")].

Definition list_lists
    (folder_id space_id : option string) (archived : option bool)
  : Prog value :=
  let archived := default false archived in
  url <-
    (if truthy folder_id then
       Ret (BASE_URL ++ "/folder/" ++ str folder_id ++ "/list")
     else if truthy space_id then
       Ret (BASE_URL ++ "/space/" ++ str space_id ++ "/list")
     else
       Raise (ValueError "Either folder_id or space_id must be provided")) ;;
  response <- request
    (mkRequest GET url (Some get_headers)
               (Some [("archived", VStr (lower (str archived)))]) None None) ;;
  _ <- raise_for_status response ;;
  response_json response.

(** The JSON body [create_task] builds (lines 233-261). *)
Definition create_task_payload
    (name : string)
    (description : option string)
    (assignees : option (list Z))
    (tags : option (list string))
    (status : option string)
    (priority due_date : option Z)
    (due_date_time : option bool)
    (time_estimate start_date : option Z)
    (start_date_time notify_all : option bool)
    (parent : option string)
    (custom_fields : option (list (dict value))) : dict value :=
  let due_date_time := default false due_date_time in
  let start_date_time := default false start_date_time in
  let notify_all := default true notify_all in
  let payload : dict value :=
    [("name", to_value name); ("notify_all", to_value notify_all)] in
  let payload :=
    when (truthy description)
         (dict_set "description" (to_value description)) payload in
  let payload :=
    when (truthy assignees) (dict_set "assignees" (to_value assignees))
         payload in
  let payload := when (truthy tags) (dict_set "tags" (to_value tags)) payload in
  let payload :=
    when (truthy status) (dict_set "status" (to_value status)) payload in
  let payload :=
    when (truthy priority) (dict_set "priority" (to_value priority)) payload in
  let payload :=
    when (truthy due_date)
         (fun payload =>
            let payload := dict_set "due_date" (to_value due_date) payload in
            dict_set "due_date_time" (to_value due_date_time) payload)
         payload in
  let payload :=
    when (truthy time_estimate)
         (dict_set "time_estimate" (to_value time_estimate)) payload in
  let payload :=
    when (truthy start_date)
         (fun payload =>
            let payload :=
              dict_set "start_date" (to_value start_date) payload in
            dict_set "start_date_time" (to_value start_date_time) payload)
         payload in
  let payload :=
    when (truthy parent) (dict_set "parent" (to_value parent)) payload in
  let payload :=
    when (truthy custom_fields)
         (dict_set "custom_fields" (to_value custom_fields)) payload in
  payload.

Definition create_task
    (list_id name : string)
    (description : option string)
    (assignees : option (list Z))
    (tags : option (list string))
    (status : option string)
    (priority due_date : option Z)
    (due_date_time : option bool)
    (time_estimate start_date : option Z)
    (start_date_time notify_all : option bool)
    (parent : option string)
    (custom_fields : option (list (dict value))) : Prog value :=
  let payload :=
    create_task_payload name description assignees tags status priority
      due_date due_date_time time_estimate start_date start_date_time
      notify_all parent custom_fields in
  response <- request
    (mkRequest POST (BASE_URL ++ "/list/" ++ list_id ++ "/task")
               (Some get_headers) None (Some (to_value payload)) None) ;;
  _ <- raise_for_status response ;;
  response_json response.

End Env.

End ClickUp.

(** ** servers/pinecone/server.py *)

Module Pinecone.

Section Env.
(** [os.getenv("PINECONE_API_KEY")] and [os.getenv("PINECONE_ENVIRONMENT")] *)
Variable PINECONE_API_KEY : option string.
Variable PINECONE_ENVIRONMENT : option string.

Definition get_headers : exn + dict value :=
  if negb (truthy PINECONE_API_KEY) then
    inl (ValueError "PINECONE_API_KEY environment variable is required")
  else
    inr [("Api-Key", to_value PINECONE_API_KEY);
         ("Content-Type", VStr "application/json")].



End Env.

End Pinecone.

(** * Vocabulary of the properties *)

(** The records a request carries in its JSON body. *)
Definition sent_records (r : Request) : option (list value) :=
  match req_json r with
  | Some (VDict d) =>
      match dict_get "records" d with
      | Some (VList l) => Some l
      | _ => None
      end
  | _ => None
  end.

(** A string holds the character [c]. *)
Definition has_char (c : ascii) (s : string) : Prop :=
  In c (list_ascii_of_string s).

(** In the words of the specification: the text of the textual segments,
    in order, joined by newline, the other segments discarded. *)
Definition is_text_block (b : dict value) : bool :=
  match dict_get "type" b with
  | Some (VStr t) => String.eqb t "text"
  | _ => false
  end.

Definition text_field (b : dict value) : string :=
  match dict_get "text" b with
  | Some (VStr s) => s
  | _ => ""
  end.

Definition simplified_text (blocks : list (dict value)) : string :=
  String.concat (String "010" "") (map text_field (filter is_text_block blocks)).

(** The [text] of a block is a string when the block has one. *)
Definition text_is_str (b : dict value) : Prop :=
  match dict_get "text" b with
  | Some (VStr _) | None => True
  | Some _ => False
  end.

(** A table of a schema answers to [x] by its [id] or by its [name]. *)
Definition table_matches (x : string) (table : dict value) : bool :=
  eq_str (dict_get_default "id" VNone table) x
  || eq_str (dict_get_default "name" VNone table) x.

(** What is returned for a table: its id, its name and the [part] asked
    for, an empty list when the table has none. *)
Definition table_result (part : string) (table : dict value) : value :=
  VDict [("table_id", dict_get_default "id" VNone table);
         ("table_name", dict_get_default "name" VNone table);
         (part, dict_get_default part (VList []) table)].

(** The first table that answers to [x], or the error object. *)
Definition lookup_table (part x : string) (tables : list (dict value))
  : value :=
  match find (table_matches x) tables with
  | Some table => table_result part table
  | None => VDict [("error", VStr "Table not found")]
  end.

(** The keys [list_records] gives the [i]-th sort item. *)
Definition sort_field_key (i : nat) : string :=
  "sort[" ++ str i ++ "][field]".

Definition sort_direction_key (i : nat) : string :=
  "sort[" ++ str i ++ "][direction]".

(** A value [float * v] is defined for: a number or a boolean. *)
Definition is_number (v : value) : bool :=
  match v with
  | VInt _ | VFloat _ | VBool _ => true
  | _ => false
  end.

(** The model a request to the Messages API names. *)
Definition requested_model (r : Request) : option value :=
  match req_json r with
  | Some (VDict d) => dict_get "model" d
  | _ => None
  end.

Definition is_dict (v : value) : bool :=
  match v with VDict _ => true | _ => false end.

Definition is_str (v : value) : bool :=
  match v with VStr _ => true | _ => false end.

(** The POST request [make_claude_request] issues for [endpoint]. *)
Definition claude_post (key : option string) (endpoint : string)
    (data : option value) : Request :=
  mkRequest POST (Claude.ANTHROPIC_BASE_URL ++ "/" ++ endpoint)
    (Some [("x-api-key", to_value key);
           ("anthropic-version", VStr Claude.ANTHROPIC_VERSION);
           ("content-type", VStr "application/json")])
    None data None.

(** The entry [compare_responses] stores for a model, from the decoded
    body [d] and the text [response] extracted from it. *)
Definition comparison_entry (d : dict value) (response : string) : value :=
  VDict [("response", VStr response);
         ("usage", dict_get_default "usage" (VDict []) d);
         ("stop_reason", dict_get_default "stop_reason" (VStr "") d)].

(** The request [compare_responses] issues for one model. *)
Definition comparison_request (key : option string) (messages : value)
    (max_tokens : Z) (system : option string) (model : string) : Request :=
  claude_post key "messages"
    (Some (VDict (when (truthy system) (dict_set "system" (to_value system))
                       [("model", VStr model); ("messages", messages);
                        ("max_tokens", VInt max_tokens)]))).

(** A string of ASCII characters. *)
Definition is_ascii (s : string) : bool :=
  forallb (fun c => Nat.ltb (nat_of_ascii c) 128) (list_ascii_of_string s).

(** What a tool that checks the status and returns the decoded body ends
    with, given how the upstream answered its request: the transport's
    error, [HTTPStatusError] outside 2xx, [JSONDecodeError] on a body that
    is not JSON, and the decoded body otherwise. *)
Definition answer_json (r : exn + Response) : exn + value :=
  match r with
  | inl e => inl e
  | inr resp =>
      if is_success resp then
        match body resp with
        | Some v => inr v
        | None => inl JSONDecodeError
        end
      else inl (HTTPStatusError (status_code resp) (body resp))
  end.

(** A record as [bulk_create_records] sends it, in the words of the
    specification: as it is when it has the key ["fields"], and as the
    value of ["fields"] otherwise. *)
Definition wrapped_record (r : dict value) : value :=
  if dict_in "fields" r then VDict r else VDict [("fields", VDict r)].

(** * Properties *)

(** ** Dictionaries *)

Section DictFacts.
Context {A : Type}.
Implicit Types (d : dict A) (k : string) (v : A).

Lemma dict_get_set_same d k v : dict_get k (dict_set k v d) = Some v.
Proof.
  induction d as [|[k' v'] d IH]; simpl.
  - now rewrite String.eqb_refl.
  - destruct (String.eqb k' k) eqn:E; simpl; rewrite E; auto.
Qed.

Lemma dict_get_set_other d k k' v :
  k' <> k -> dict_get k (dict_set k' v d) = dict_get k d.
Proof.
  intros Hne. induction d as [|[k0 v0] d IH]; simpl.
  - apply String.eqb_neq in Hne. now rewrite Hne.
  - destruct (String.eqb k0 k') eqn:E; simpl.
    + apply String.eqb_eq in E. subst k0.
      apply String.eqb_neq in Hne. now rewrite Hne.
    + now rewrite IH.
Qed.

Lemma dict_get_set d k k' v :
  dict_get k (dict_set k' v d) =
  if String.eqb k' k then Some v else dict_get k d.
Proof.
  destruct (String.eqb_spec k' k) as [->|Hne].
  - apply dict_get_set_same.
  - now apply dict_get_set_other.
Qed.

Lemma dict_get_when d k k' v (c : bool) :
  dict_get k (when c (dict_set k' v) d) =
  if String.eqb k' k && c then Some v else dict_get k d.
Proof.
  destruct c; simpl.
  - rewrite andb_true_r. apply dict_get_set.
  - now rewrite andb_false_r.
Qed.

Lemma dict_get_not_key d k : ~ In k (dict_keys d) -> dict_get k d = None.
Proof.
  induction d as [|[k' v'] d IH]; simpl; intros Hn; [reflexivity|].
  destruct (String.eqb_spec k' k) as [->|Hne]; [tauto|].
  apply IH. tauto.
Qed.

Lemma dict_keys_set d k v :
  dict_keys (dict_set k v d) =
  if dict_in k d then dict_keys d else (dict_keys d ++ [k])%list.
Proof.
  unfold dict_in.
  induction d as [|[k' v'] d IH]; simpl; [reflexivity|].
  destruct (String.eqb k' k) eqn:E; simpl; [reflexivity|].
  rewrite IH. now destruct (dict_get k d).
Qed.

Lemma unique_keys_set d k v : unique_keys d -> unique_keys (dict_set k v d).
Proof.
  unfold unique_keys. rewrite dict_keys_set. intros Hd.
  destruct (dict_in k d) eqn:E; [assumption|].
  apply NoDup_app; [assumption | repeat constructor; simpl; tauto |].
  intros x Hx [<-|[]]. unfold dict_in in E.
  revert E Hx. clear. induction d as [|[k' v'] d IH]; simpl; [tauto|].
  destruct (String.eqb_spec k' k) as [->|Hne]; [discriminate|].
  intros E [Heq|Hin]; [congruence | auto].
Qed.

Lemma unique_keys_when d k v (c : bool) :
  unique_keys d -> unique_keys (when c (dict_set k v) d).
Proof. destruct c; simpl; [apply unique_keys_set | auto]. Qed.

Lemma dict_entries_not_key d k : ~ In k (dict_keys d) -> dict_entries k d = [].
Proof.
  unfold dict_entries.
  induction d as [|[k' v'] d IH]; simpl; intros Hn; [reflexivity|].
  destruct (String.eqb_spec k' k) as [->|Hne]; [tauto|].
  apply IH. tauto.
Qed.

Lemma dict_entries_unique d k :
  unique_keys d ->
  dict_entries k d =
  match dict_get k d with Some v => [(k, v)] | None => [] end.
Proof.
  unfold unique_keys, dict_entries.
  induction d as [|[k' v'] d IH]; simpl; intros Hd; [reflexivity|].
  inversion Hd as [|? ? Hnotin Hd']; subst.
  destruct (String.eqb_spec k' k) as [->|Hne].
  - f_equal. now apply dict_entries_not_key.
  - now apply IH.
Qed.

End DictFacts.

(** ** Running a tool *)

Lemma run_bind {A B} upstream (p : Prog A) (f : A -> Prog B) :
  run upstream (bind p f) =
  match run upstream p with
  | (rs, inl e) => (rs, inl e)
  | (rs, inr a) =>
      let (rs', out) := run upstream (f a) in ((rs ++ rs')%list, out)
  end.
Proof.
  induction p as [a|e|r k IH]; simpl.
  - now destruct (run upstream (f a)).
  - reflexivity.
  - destruct (upstream r) as [e|resp]; [reflexivity|].
    rewrite IH. destruct (run upstream (k resp)) as [rs [e|a]]; [reflexivity|].
    now destruct (run upstream (f a)).
Qed.

Lemma requests_bind {A B} upstream (p : Prog A) (f : A -> Prog B) :
  requests upstream (bind p f) =
  (requests upstream p ++
   match outcome upstream p with
   | inl _ => []
   | inr a => requests upstream (f a)
   end)%list.
Proof.
  unfold requests, outcome. rewrite run_bind.
  destruct (run upstream p) as [rs [e|a]]; simpl.
  - now rewrite app_nil_r.
  - now destruct (run upstream (f a)).
Qed.

Lemma requests_lift {A} upstream (r : exn + A) : requests upstream (lift r) = [].
Proof. now destruct r. Qed.

Lemma requests_request upstream r : requests upstream (request r) = [r].
Proof. unfold requests, request. simpl. now destruct (upstream r). Qed.

Lemma requests_raise_for_status upstream resp :
  requests upstream (raise_for_status resp) = [].
Proof. unfold raise_for_status. now destruct (is_success resp). Qed.

Lemma requests_response_json upstream resp :
  requests upstream (response_json resp) = [].
Proof. unfold response_json. now destruct (body resp). Qed.

(** The requests of a tool, read off its binds. *)
Ltac tool_requests :=
  cbn [bind lift];
  repeat (rewrite ?requests_bind, ?requests_lift, ?requests_request,
            ?requests_raise_for_status, ?requests_response_json;
          cbn [bind lift app];
          try match goal with
              | |- context [match outcome ?u ?p with _ => _ end] =>
                  destruct (outcome u p)
              end).

Lemma requests_raise {A} upstream e : requests upstream (@Raise A e) = [].
Proof. reflexivity. Qed.

Lemma requests_ret {A} upstream (a : A) : requests upstream (Ret a) = [].
Proof. reflexivity. Qed.

(** The requests of a tool, for a goal about a member of them. *)
Ltac tool_member :=
  tool_requests; rewrite ?requests_raise, ?requests_ret;
  try match goal with
      | |- In _ [] -> _ => intros []
      | |- In _ [_] -> _ => intros [<-|[]]
      | |- In _ ([_] ++ [])%list -> _ => intros [<-|[]]
      end.

(** The end of most tools: one request, the status check, the decoded
    body. *)
Lemma run_json_tool upstream r :
  run upstream
    (response <- request r ;;
     _ <- raise_for_status response ;;
     response_json response)
  = ([r], answer_json (upstream r)).
Proof.
  cbn [bind request run]. destruct (upstream r) as [e|resp]; [reflexivity|].
  cbn [answer_json]. unfold raise_for_status, response_json.
  destruct (is_success resp); [|reflexivity].
  cbn [bind]. destruct (body resp); reflexivity.
Qed.

(** ** Airtable *)

Section AirtableFacts.
Variable token : option string.
Variable upstream : Request -> exn + Response.

Lemma get_headers_ok :
  truthy token = true ->
  exists headers, Airtable.get_headers token = inr headers.
Proof. unfold Airtable.get_headers. intros ->. simpl. eauto. Qed.

Lemma get_headers_missing :
  truthy token = false ->
  Airtable.get_headers token =
  inl (ValueError "AIRTABLE_ACCESS_TOKEN environment variable is required").
Proof. unfold Airtable.get_headers. now intros ->. Qed.

Lemma bulk_create_records_request base_id table records :
  truthy token = true ->
  exists req,
    requests upstream (Airtable.bulk_create_records token base_id table records)
    = [req] /\
    req_method req = POST /\
    sent_records req =
    Some (map VDict (firstn 10 (map Airtable.format_record records))).
Proof.
  intros Htok. destruct (get_headers_ok Htok) as [h Hh].
  unfold Airtable.bulk_create_records. rewrite Hh.
  eexists. split; [tool_requests; reflexivity|]. split; reflexivity.
Qed.

Lemma bulk_update_records_request base_id table records replace_all :
  truthy token = true ->
  exists req,
    requests upstream
      (Airtable.bulk_update_records token base_id table records replace_all)
    = [req] /\
    req_method req = (if default false replace_all then PUT else PATCH) /\
    sent_records req = Some (map VDict (firstn 10 records)).
Proof.
  intros Htok. destruct (get_headers_ok Htok) as [h Hh].
  unfold Airtable.bulk_update_records. rewrite Hh.
  destruct (default false replace_all);
    (eexists; split; [tool_requests; reflexivity|]; split; reflexivity).
Qed.

Lemma update_record_request base_id table record_id fields replace_all :
  truthy token = true ->
  exists req,
    requests upstream
      (Airtable.update_record token base_id table record_id fields replace_all)
    = [req] /\
    req_method req = (if default false replace_all then PUT else PATCH) /\
    req_json req = Some (VDict [("fields", VDict fields)]).
Proof.
  intros Htok. destruct (get_headers_ok Htok) as [h Hh].
  unfold Airtable.update_record. rewrite Hh.
  destruct (default false replace_all);
    (eexists; split; [tool_requests; reflexivity|]; split; reflexivity).
Qed.

(** The bulk tools end as the upstream answers their one request. *)
Lemma bulk_create_records_run base_id table records :
  truthy token = true ->
  exists req,
    run upstream (Airtable.bulk_create_records token base_id table records)
    = ([req], answer_json (upstream req)) /\
    req_method req = POST /\
    req_url req = Airtable.BASE_URL ++ "/" ++ base_id ++ "/" ++ table /\
    sent_records req =
    Some (map VDict (firstn 10 (map Airtable.format_record records))).
Proof.
  intros Htok. destruct (get_headers_ok Htok) as [h Hh].
  unfold Airtable.bulk_create_records. rewrite Hh. cbn [lift bind].
  eexists. split; [apply run_json_tool|]. repeat split; reflexivity.
Qed.

Lemma bulk_update_records_run base_id table records replace_all :
  truthy token = true ->
  exists req,
    run upstream
      (Airtable.bulk_update_records token base_id table records replace_all)
    = ([req], answer_json (upstream req)) /\
    req_method req = (if default false replace_all then PUT else PATCH) /\
    req_url req = Airtable.BASE_URL ++ "/" ++ base_id ++ "/" ++ table /\
    sent_records req = Some (map VDict (firstn 10 records)).
Proof.
  intros Htok. destruct (get_headers_ok Htok) as [h Hh].
  unfold Airtable.bulk_update_records. rewrite Hh. cbn [lift bind].
  destruct (default false replace_all);
    (eexists; split; [apply run_json_tool|]; repeat split; reflexivity).
Qed.

(** Without the access token nothing is sent. *)
Lemma no_token_no_request base_id table record_id fields records replace_all :
  truthy token = false ->
  requests upstream
    (Airtable.update_record token base_id table record_id fields replace_all)
  = [] /\
  requests upstream
    (Airtable.bulk_update_records token base_id table records replace_all)
  = [] /\
  requests upstream (Airtable.bulk_create_records token base_id table records)
  = [].
Proof.
  intros Htok.
  unfold Airtable.update_record, Airtable.bulk_update_records,
    Airtable.bulk_create_records.
  rewrite (get_headers_missing Htok).
  destruct (default false replace_all); repeat split; reflexivity.
Qed.

End AirtableFacts.

(** *** The query parameters of [list_records] *)

Section ListRecordsParams.


Lemma prefix_append s t : String.prefix s (s ++ t) = true.
Proof.
  induction s as [|a s IH]; cbn [String.prefix append].
  - now destruct t.
  - destruct (ascii_dec a a); [assumption | congruence].
Qed.

Lemma set_fields_get_other fs (d : dict value) k :
  k <> "fields[]" -> dict_get k (Airtable.set_fields fs d) = dict_get k d.
Proof.
  intros Hne. unfold Airtable.set_fields.
  revert d. induction fs as [|f fs IH]; intros d; simpl; [reflexivity|].
  rewrite IH. apply dict_get_set_other. congruence.
Qed.

Lemma set_fields_get_last fs (d : dict value) :
  fs <> [] ->
  dict_get "fields[]" (Airtable.set_fields fs d) = Some (VStr (last fs "")).
Proof.
  unfold Airtable.set_fields.
  revert d. induction fs as [|f fs IH]; intros d Hne; [congruence|].
  destruct fs as [|f' fs].
  - simpl. apply dict_get_set_same.
  - change (last (f :: f' :: fs) "") with (last (f' :: fs) "").
    cbn [fold_left] in *. apply IH. discriminate.
Qed.

Lemma set_fields_unique fs (d : dict value) :
  unique_keys d -> unique_keys (Airtable.set_fields fs d).
Proof.
  unfold Airtable.set_fields.
  revert d. induction fs as [|f fs IH]; intros d Hd; simpl; [assumption|].
  apply IH. now apply unique_keys_set.
Qed.

Lemma set_sort_item_get item (p p' : dict value) k :
  Airtable.set_sort_item item p = inr p' ->
  String.prefix "sort[" k = false ->
  dict_get k p' = dict_get k p.
Proof.
  destruct item as [i sort_item]. unfold Airtable.set_sort_item.
  destruct (dict_item "field" sort_item) as [e|field]; [discriminate|].
  intros [= <-] Hk.
  rewrite !dict_get_set_other; [reflexivity | |];
    intros <-;
    match type of Hk with
    | String.prefix _ (String _ (String _ (String _ (String _ (String _ ?t)))))
      = _ => pose proof (prefix_append "sort[" t) as E
    end; cbn [append] in E; congruence.
Qed.

Lemma set_sort_item_unique item (p p' : dict value) :
  Airtable.set_sort_item item p = inr p' -> unique_keys p -> unique_keys p'.
Proof.
  destruct item as [i sort_item]. unfold Airtable.set_sort_item.
  destruct (dict_item "field" sort_item) as [e|field]; [discriminate|].
  intros [= <-] Hp. now repeat apply unique_keys_set.
Qed.

Lemma for_each_sort_get items (p p' : dict value) k :
  for_each Airtable.set_sort_item items p = inr p' ->
  String.prefix "sort[" k = false ->
  dict_get k p' = dict_get k p.
Proof.
  revert p. induction items as [|item items IH]; intros p; simpl.
  - now intros [= <-].
  - destruct (Airtable.set_sort_item item p) as [e|p1] eqn:E; [discriminate|].
    intros H Hk. rewrite (IH _ H Hk). now apply (set_sort_item_get item).
Qed.

Lemma for_each_sort_unique items (p p' : dict value) :
  for_each Airtable.set_sort_item items p = inr p' ->
  unique_keys p -> unique_keys p'.
Proof.
  revert p. induction items as [|item items IH]; intros p; simpl.
  - now intros [= <-].
  - destruct (Airtable.set_sort_item item p) as [e|p1] eqn:E; [discriminate|].
    intros H Hp. apply (IH _ H). now apply (set_sort_item_unique item p).
Qed.

Variables (fields : option (list string)) (filter_by_formula : option string).
Variables (max_records page_size : option Z).
Variables (sort : option (list (dict string))) (view offset : option string).
Variable params : dict value.
Hypothesis built :
  Airtable.list_records_params fields filter_by_formula max_records page_size
                               sort view offset = inr params.

(** What the parameters hold under a key, read off the builder. *)
Lemma list_records_params_get k :
  sort = None \/ String.prefix "sort[" k = false ->
  dict_get k params =
  if String.eqb "offset" k && truthy offset then Some (to_value offset)
  else if String.eqb "view" k && truthy view then Some (to_value view)
  else if String.eqb "pageSize" k && truthy page_size then
    Some (to_value page_size)
  else if String.eqb "maxRecords" k && truthy max_records then
    Some (to_value max_records)
  else if String.eqb "filterByFormula" k && truthy filter_by_formula then
    Some (to_value filter_by_formula)
  else if String.eqb "fields[]" k then
    match fields with
    | Some (f :: fs) => Some (VStr (last (f :: fs) ""))
    | _ => None
    end
  else None.
Proof.
  intros Hk. revert built. unfold Airtable.list_records_params.
  set (p0 := match fields with
             | Some fs => when (truthy fs) (Airtable.set_fields fs) []
             | None => []
             end).
  assert (Hp0 : dict_get k p0 =
                if String.eqb "fields[]" k then
                  match fields with
                  | Some (f :: fs) => Some (VStr (last (f :: fs) ""))
                  | _ => None
                  end
                else None).
  { subst p0. destruct (String.eqb_spec "fields[]" k) as [<-|Hne].
    - destruct fields as [[|f fs]|]; try reflexivity.
      apply set_fields_get_last. discriminate.
    - destruct fields as [[|f fs]|]; try reflexivity.
      cbn [truthy truthy_list when].
      rewrite set_fields_get_other by congruence. reflexivity. }
  intros H.
  assert (Hget : dict_get k params =
    dict_get k
      (when (truthy offset) (dict_set "offset" (to_value offset))
      (when (truthy view) (dict_set "view" (to_value view))
      (when (truthy page_size) (dict_set "pageSize" (to_value page_size))
      (when (truthy max_records) (dict_set "maxRecords" (to_value max_records))
      (when (truthy filter_by_formula)
            (dict_set "filterByFormula" (to_value filter_by_formula))
            p0)))))).
  { destruct sort as [items|].
    - destruct (truthy items).
      + destruct Hk as [Hk|Hk]; [discriminate|].
        now apply (for_each_sort_get _ _ _ _ H).
      + now injection H as <-.
    - now injection H as <-. }
  rewrite Hget, !dict_get_when, Hp0. reflexivity.
Qed.

Lemma list_records_params_unique : unique_keys params.
Proof.
  revert built. unfold Airtable.list_records_params.
  set (p := when (truthy offset) _ _).
  assert (Hp : unique_keys p).
  { subst p. repeat apply unique_keys_when.
    destruct fields as [fs|]; [|constructor].
    destruct (truthy fs); simpl; [|constructor].
    apply set_fields_unique. constructor. }
  destruct sort as [items|].
  - destruct (truthy items).
    + intros H. now apply (for_each_sort_unique _ _ _ H).
    + now intros [= <-].
  - now intros [= <-].
Qed.

End ListRecordsParams.

(** *** The tools of the Airtable adapter *)

Lemma list_records_request token upstream base_id table fields
    filter_by_formula max_records page_size sort view offset params :
  truthy token = true ->
  Airtable.list_records_params fields filter_by_formula max_records page_size
                               sort view offset = inr params ->
  exists req,
    requests upstream
      (Airtable.list_records token base_id table fields filter_by_formula
                             max_records page_size sort view offset) = [req] /\
    req_method req = GET /\
    req_params req = Some params.
Proof.
  intros Htok Hp. destruct (get_headers_ok _ Htok) as [h Hh].
  unfold Airtable.list_records. rewrite Hp, Hh.
  eexists. split; [tool_requests; reflexivity|]. split; reflexivity.
Qed.

(** Whatever request [list_records] issues carries the parameters it built. *)
Lemma list_records_requests_params token upstream base_id table fields
    filter_by_formula max_records page_size sort view offset req :
  In req (requests upstream
            (Airtable.list_records token base_id table fields
               filter_by_formula max_records page_size sort view offset)) ->
  exists params,
    Airtable.list_records_params fields filter_by_formula max_records
                                 page_size sort view offset = inr params /\
    req_params req = Some params.
Proof.
  unfold Airtable.list_records.
  destruct (Airtable.list_records_params _ _ _ _ _ _ _) as [e|params];
    [intros []|].
  unfold Airtable.get_headers. destruct (negb (truthy token)); [intros []|].
  tool_requests; (intros [<-|[]]; eauto).
Qed.

(** C2: the bulk operations of the Airtable adapter put at most ten
    records in the JSON body, and a long list is no error.  With the access
    token set, [bulk_create_records] and [bulk_update_records] each issue
    exactly one request, whatever the length of [records], and end as the
    upstream answers it: with the decoded body of a 2xx answer, and with an
    error only when the transport fails, the status is outside 2xx or the
    body is not JSON, so never because of the length of the list.  The body
    of the request carries the first ten of the (formatted) records: ten of
    them when more than ten are supplied, and all of them when at most ten
    are. *)
Theorem bulk_records_capped_at_ten :
  forall token upstream base_id table (records : list (dict value)) replace_all,
    truthy token = true ->
    exists created updated sent_c sent_u,
      run upstream
        (Airtable.bulk_create_records token base_id table records)
      = ([created], answer_json (upstream created)) /\
      run upstream
        (Airtable.bulk_update_records token base_id table records replace_all)
      = ([updated], answer_json (upstream updated)) /\
      requests upstream
        (Airtable.bulk_create_records token base_id table records)
      = [created] /\
      requests upstream
        (Airtable.bulk_update_records token base_id table records replace_all)
      = [updated] /\
      sent_records created = Some sent_c /\
      sent_records updated = Some sent_u /\
      sent_c = map VDict (firstn 10 (map Airtable.format_record records)) /\
      sent_u = map VDict (firstn 10 records) /\
      List.length sent_c = Nat.min 10 (List.length records) /\
      List.length sent_u = Nat.min 10 (List.length records) /\
      (List.length records <= 10 ->
       sent_c = map VDict (map Airtable.format_record records) /\
       sent_u = map VDict records).
Proof.
  intros token upstream base_id table records replace_all Htok.
  destruct (bulk_create_records_run token upstream base_id table records
              Htok) as (created & Hc & _ & _ & Hsc).
  destruct (bulk_update_records_run token upstream base_id table records
              replace_all Htok) as (updated & Hu & _ & _ & Hsu).
  exists created, updated. do 2 eexists.
  split; [exact Hc|]. split; [exact Hu|].
  split; [unfold requests; now rewrite Hc|].
  split; [unfold requests; now rewrite Hu|].
  split; [exact Hsc|]. split; [exact Hsu|].
  split; [reflexivity|]. split; [reflexivity|].
  split; [|split].
  - now rewrite !length_map, length_firstn, length_map.
  - now rewrite !length_map, length_firstn.
  - intros Hle. rewrite !firstn_all2; [split; reflexivity | lia |].
    now rewrite length_map.
Qed.

Lemma bulk_records_capped_at_ten_witness :
  let upstream := fun _ : Request => inr (mkResponse 200 (Some (VDict []))) in
  let records := repeat [("Name", VStr "x")] 12 in
  truthy (Some "tok") = true /\
  exists created updated sent_c sent_u,
    run upstream (Airtable.bulk_create_records (Some "tok") "app" "tbl" records)
    = ([created], inr (VDict [])) /\
    run upstream
      (Airtable.bulk_update_records (Some "tok") "app" "tbl" records None)
    = ([updated], inr (VDict [])) /\
    sent_records created = Some sent_c /\
    sent_records updated = Some sent_u /\
    sent_c = repeat (VDict [("fields", VDict [("Name", VStr "x")])]) 10 /\
    sent_u = repeat (VDict [("Name", VStr "x")]) 10 /\
    List.length sent_c = 10 /\
    List.length sent_u = 10.
Proof.
  intros upstream records. split; [reflexivity|].
  destruct (bulk_records_capped_at_ten (Some "tok") upstream "app" "tbl"
              records None eq_refl)
    as (created & updated & sent_c & sent_u & Hc & Hu & _ & _ & Hsc & Hsu
        & Hc10 & Hu10 & Hlc & Hlu & _).
  exists created, updated, sent_c, sent_u.
  split; [exact Hc|]. split; [exact Hu|].
  split; [exact Hsc|]. split; [exact Hsu|].
  split; [exact Hc10|]. split; [exact Hu10|].
  split; [exact Hlc | exact Hlu].
Defined.

(** C5: the verb of the Airtable update operations follows [replace_all]
    alone.  [update_record] and [bulk_update_records] issue their request
    with PUT when [replace_all] is true and with PATCH when it is false or
    left to its default, whatever the fields or records are; they issue
    exactly one request when the access token is set and none otherwise. *)
Theorem update_verb_follows_replace_all :
  forall token upstream base_id table record_id fields records replace_all,
    let verb := match replace_all with Some true => PUT | _ => PATCH end in
    let n := if truthy token then 1 else 0 in
    let single :=
      requests upstream
        (Airtable.update_record token base_id table record_id fields
                                replace_all) in
    let bulk :=
      requests upstream
        (Airtable.bulk_update_records token base_id table records
                                      replace_all) in
    Forall (fun req => req_method req = verb) single /\
    List.length single = n /\
    Forall (fun req => req_method req = verb) bulk /\
    List.length bulk = n.
Proof.
  intros token upstream base_id table record_id fields records replace_all.
  cbv zeta.
  assert (Hverb : (if default false replace_all then PUT else PATCH) =
                  match replace_all with Some true => PUT | _ => PATCH end)
    by now destruct replace_all as [[|]|].
  rewrite <- Hverb.
  destruct (truthy token) eqn:Htok.
  - destruct (update_record_request token upstream base_id table record_id
                fields replace_all Htok) as (r1 & -> & Hm1 & _).
    destruct (bulk_update_records_request token upstream base_id table records
                replace_all Htok) as (r2 & -> & Hm2 & _).
    repeat split; auto.
  - destruct (no_token_no_request token upstream base_id table record_id
                fields records replace_all Htok) as (-> & -> & _).
    repeat split; constructor.
Qed.

(** C9: [search_records] is [list_records] called with the formula as
    [filter_by_formula], with [fields], [sort] and [max_records] passed on
    and [page_size], [view] and [offset] not supplied: the two are the same
    tool, so against every upstream they issue the same requests and have
    the same outcome. *)
Theorem search_records_is_list_records :
  forall token upstream base_id table_id_or_name formula fields sort
         max_records,
    Airtable.search_records token base_id table_id_or_name formula fields sort
                            max_records
    = Airtable.list_records token base_id table_id_or_name fields
                            (Some formula) max_records None sort None None /\
    run upstream
      (Airtable.search_records token base_id table_id_or_name formula fields
                               sort max_records)
    = run upstream
        (Airtable.list_records token base_id table_id_or_name fields
                               (Some formula) max_records None sort None None).
Proof. intros. split; reflexivity. Qed.

(** C10: when [list_records] is given a non-empty list of field names
    (in particular more than one), the query parameters it sends hold a
    single entry under the key ["fields[]"], and its value is the last name
    of the list: the names before it are overwritten. *)
Theorem list_records_sends_last_field_only :
  forall token upstream base_id table fields filter_by_formula max_records
         page_size sort view offset params,
    truthy token = true ->
    fields <> [] ->
    Airtable.list_records_params (Some fields) filter_by_formula max_records
                                 page_size sort view offset = inr params ->
    exists req,
      requests upstream
        (Airtable.list_records token base_id table (Some fields)
           filter_by_formula max_records page_size sort view offset) = [req] /\
      req_params req = Some params /\
      dict_entries "fields[]" params = [("fields[]", VStr (last fields ""))].
Proof.
  intros token upstream base_id table fields filter_by_formula max_records
         page_size sort view offset params Htok Hne Hp.
  destruct (list_records_request token upstream base_id table _ _ _ _ _ _ _ _
              Htok Hp) as (req & Hreq & _ & Hparams).
  exists req. repeat split; auto.
  rewrite dict_entries_unique
    by (eapply list_records_params_unique; eassumption).
  rewrite (list_records_params_get _ _ _ _ _ _ _ _ Hp "fields[]")
    by (right; reflexivity).
  destruct fields; [congruence | reflexivity].
Qed.

Lemma list_records_sends_last_field_only_witness :
  let upstream := fun _ : Request => inr (mkResponse 200 (Some (VDict []))) in
  let params :=
    [("fields[]", VStr "Status"); ("maxRecords", VInt 5);
     ("sort[0][field]", VStr "Name"); ("sort[0][direction]", VStr "asc")] in
  truthy (Some "tok") = true /\
  ["Name"; "Age"; "Status"] <> [] /\
  Airtable.list_records_params (Some ["Name"; "Age"; "Status"]) None
    (Some 5%Z) None (Some [[("field", "Name")]]) None None = inr params /\
  exists req,
    requests upstream
      (Airtable.list_records (Some "tok") "app" "tbl"
         (Some ["Name"; "Age"; "Status"]) None (Some 5%Z) None
         (Some [[("field", "Name")]]) None None) = [req] /\
    req_params req = Some params /\
    dict_entries "fields[]" params = [("fields[]", VStr "Status")].
Proof.
  split; [reflexivity|]. split; [discriminate|]. split; [reflexivity|].
  apply (list_records_sends_last_field_only (Some "tok") _ "app" "tbl"
           ["Name"; "Age"; "Status"]); [reflexivity | discriminate | reflexivity].
Defined.

(** ** Todoist *)

Section TodoistFacts.
Variable token : option string.
Variable upstream : Request -> exn + Response.



End TodoistFacts.

(** ** Pinecone *)





(** C8: [update_task] tests its optional parameters for truth, so a
    supplied value that is falsy is dropped as if it had not been supplied:
    with [priority] 0, with [content] the empty string, or with [labels]
    the empty list, the payload built, and so the whole call, is the same
    as with that parameter left out. *)
Theorem update_task_drops_falsy_values :
  forall token task_id content description labels priority due_string
         due_date due_datetime due_lang assignee_id,
    (Todoist.update_task_payload content description labels (Some 0%Z)
       due_string due_date due_datetime due_lang assignee_id
     = Todoist.update_task_payload content description labels None
         due_string due_date due_datetime due_lang assignee_id /\
     Todoist.update_task_payload (Some "") description labels priority
       due_string due_date due_datetime due_lang assignee_id
     = Todoist.update_task_payload None description labels priority
         due_string due_date due_datetime due_lang assignee_id /\
     Todoist.update_task_payload content description (Some []) priority
       due_string due_date due_datetime due_lang assignee_id
     = Todoist.update_task_payload content description None priority
         due_string due_date due_datetime due_lang assignee_id) /\
    (Todoist.update_task token task_id content description labels (Some 0%Z)
       due_string due_date due_datetime due_lang assignee_id
     = Todoist.update_task token task_id content description labels None
         due_string due_date due_datetime due_lang assignee_id /\
     Todoist.update_task token task_id (Some "") description labels priority
       due_string due_date due_datetime due_lang assignee_id
     = Todoist.update_task token task_id None description labels priority
         due_string due_date due_datetime due_lang assignee_id /\
     Todoist.update_task token task_id content description (Some []) priority
       due_string due_date due_datetime due_lang assignee_id
     = Todoist.update_task token task_id content description None priority
         due_string due_date due_datetime due_lang assignee_id).
Proof. intros. repeat split; reflexivity. Qed.

(** ** Mailchimp *)

Section MailchimpFacts.

Lemma str_contains_char c s :
  str_contains (String c EmptyString) s = true <-> has_char c s.
Proof.
  unfold has_char. induction s as [|a s IH]; cbn [str_contains String.prefix].
  - simpl. split; [discriminate | tauto].
  - cbn [list_ascii_of_string In].
    destruct (ascii_dec c a) as [->|Hne].
    + destruct s; tauto.
    + rewrite IH. split; [tauto|]. intros [Heq|Hin]; [congruence | assumption].
Qed.

Lemma split_char_no_sep sep s :
  ~ has_char sep s -> split_char sep s = [s].
Proof.
  unfold has_char. induction s as [|a s IH]; simpl; intros Hn; [reflexivity|].
  destruct (Ascii.eqb_spec a sep) as [->|Hne]; [tauto|].
  rewrite IH; [reflexivity | tauto].
Qed.

(** The pieces of [pre-dc] end with [dc] when [dc] holds no separator. *)
Lemma split_char_trailing sep pre dc :
  ~ has_char sep dc ->
  exists p ps, split_char sep (pre ++ String sep dc) = (p :: ps ++ [dc])%list.
Proof.
  intros Hdc. induction pre as [|a pre (p & ps & IH)]; cbn [append split_char].
  - rewrite Ascii.eqb_refl, (split_char_no_sep _ _ Hdc). now exists "", [].
  - rewrite IH. destruct (Ascii.eqb a sep).
    + now exists "", (p :: ps).
    + now exists (String a p), ps.
Qed.

Lemma data_center_trailing pre dc :
  ~ has_char "-" dc -> Mailchimp.data_center (pre ++ String "-" dc) = dc.
Proof.
  intros Hdc. unfold Mailchimp.data_center.
  destruct (split_char_trailing "-" pre dc Hdc) as (p & ps & ->).
  change (p :: ps ++ [dc])%list with ((p :: ps) ++ [dc])%list.
  apply last_last.
Qed.

(** The base URL of a key [pre-dc]: the host starts with [dc]. *)
Lemma get_base_url_trailing pre dc :
  ~ has_char "-" dc ->
  Mailchimp.get_base_url (Some (pre ++ String "-" dc)) =
  inr ("https://" ++ dc ++ ".api.mailchimp.com/3.0").
Proof.
  intros Hdc. unfold Mailchimp.get_base_url.
  assert (Hc : str_contains "-" (pre ++ String "-" dc) = true).
  { apply str_contains_char. unfold has_char.
    clear. induction pre; simpl; auto. }
  assert (Ht : truthy (pre ++ String "-" dc) = true) by now destruct pre.
  rewrite Hc, Ht. cbn [negb orb]. now rewrite data_center_trailing.
Qed.

Lemma get_base_url_invalid key :
  (forall s, key = Some s -> ~ has_char "-" s) ->
  Mailchimp.get_base_url key = inl (ValueError Mailchimp.invalid_key_message).
Proof.
  intros Hkey. unfold Mailchimp.get_base_url.
  destruct key as [s|]; [|reflexivity].
  destruct (str_contains "-" s) eqn:E.
  - apply str_contains_char in E. now apply Hkey in E.
  - now rewrite orb_true_r.
Qed.

End MailchimpFacts.

(** C3: the base URL of the Mailchimp adapter.  With the key
    ["abc123-us5"], [get_base_url] returns the URL whose host is
    ["us5.api.mailchimp.com"].  With a key that is not set or holds no
    ['-'], it raises a [ValueError] (the configuration error of the
    adapters) that says which format is expected, and a tool that needs the
    base URL, such as [list_audiences], ends with that error and has issued
    no request. *)
Theorem get_base_url_data_center :
  forall (key : option string) upstream count offset,
    (forall s, key = Some s -> ~ has_char "-" s) ->
    Mailchimp.get_base_url (Some "abc123-us5")
    = inr "https://us5.api.mailchimp.com/3.0" /\
    Mailchimp.get_base_url key
    = inl (ValueError
             "Invalid MAILCHIMP_API_KEY format. Expected format: key-dc (e.g., abc123-us1)") /\
    run upstream (Mailchimp.list_audiences key count offset)
    = ([], inl (ValueError
             "Invalid MAILCHIMP_API_KEY format. Expected format: key-dc (e.g., abc123-us1)")).
Proof.
  intros key upstream count offset Hkey.
  split; [reflexivity|].
  pose proof (get_base_url_invalid key Hkey) as E.
  split; [exact E|].
  unfold Mailchimp.list_audiences. now rewrite E.
Qed.

Lemma get_base_url_data_center_witness :
  let upstream := fun _ : Request => inr (mkResponse 200 (Some (VDict []))) in
  (forall s, Some "abc123us5" = Some s -> ~ has_char "-" s) /\
  Mailchimp.get_base_url (Some "abc123us5")
  = inl (ValueError
           "Invalid MAILCHIMP_API_KEY format. Expected format: key-dc (e.g., abc123-us1)") /\
  run upstream (Mailchimp.list_audiences (Some "abc123us5") None None)
  = ([], inl (ValueError
           "Invalid MAILCHIMP_API_KEY format. Expected format: key-dc (e.g., abc123-us1)")).
Proof.
  intros upstream.
  assert (H : forall s, Some "abc123us5" = Some s -> ~ has_char "-" s).
  { intros s [= <-]. unfold has_char. simpl. intuition discriminate. }
  split; [exact H|].
  exact (proj2 (get_base_url_data_center (Some "abc123us5") upstream None None
                  H)).
Defined.

(** ** AbstractAPI and ClickUp *)

Section AbstractApiFacts.
Variable key : option string.
Variable upstream : Request -> exn + Response.

(** Against an upstream that answers with a success status and the JSON
    body [result], [convert_currency] returns the shaped [result]. *)
Lemma convert_currency_outcome base target amount date resp result :
  (forall req, upstream req = inr resp) ->
  is_success resp = true ->
  body resp = Some result ->
  outcome upstream (AbstractApi.convert_currency key base target amount date)
  = AbstractApi.attach_converted_amount target amount result.
Proof.
  intros Hup Hok Hbody.
  unfold outcome, AbstractApi.convert_currency, request.
  cbn [bind run]. rewrite Hup. cbn [bind].
  unfold raise_for_status. rewrite Hok. cbn [bind].
  unfold response_json. rewrite Hbody. cbn [bind].
  now destruct (AbstractApi.attach_converted_amount target amount result).
Qed.

Lemma attach_converted_amount_present target amount (d rates : dict value)
    rate converted :
  dict_get "exchange_rates" d = Some (VDict rates) ->
  dict_get target rates = Some rate ->
  float_mul amount rate = inr converted ->
  AbstractApi.attach_converted_amount target amount (VDict d) =
  inr (VDict (dict_set "amount" (VFloat amount)
                (dict_set "converted_amount" converted d))).
Proof.
  intros Hd Hr Hm. unfold AbstractApi.attach_converted_amount.
  cbn [str_in subscript]. unfold dict_in, dict_item. rewrite Hd.
  cbn [str_in subscript]. unfold dict_in, dict_item. rewrite Hr, Hm.
  reflexivity.
Qed.

Lemma attach_converted_amount_absent target amount (d : dict value) :
  dict_get "exchange_rates" d = None \/
  (exists rates, dict_get "exchange_rates" d = Some (VDict rates) /\
                 dict_get target rates = None) ->
  AbstractApi.attach_converted_amount target amount (VDict d) = inr (VDict d).
Proof.
  unfold AbstractApi.attach_converted_amount.
  cbn [str_in subscript]. unfold dict_in, dict_item.
  intros [Hd|(rates & Hd & Hr)]; rewrite Hd; [reflexivity|].
  cbn [str_in]. unfold dict_in. now rewrite Hr.
Qed.

End AbstractApiFacts.

(** C4: the shaping of [convert_currency], against an upstream that
    answers with a success status and a JSON object.  When the object's
    [exchange_rates] table gives 0.9 for ["EUR"], the call with target
    ["EUR"] and amount 100 returns the object with [converted_amount] set to
    90.0 and [amount] set to 100, its other keys unchanged.  When the object
    has no [exchange_rates] key, or its table has no entry for the target,
    the object is returned as it came. *)
Theorem convert_currency_attaches_amount :
  forall key upstream base date resp (d : dict value),
    (forall req, upstream req = inr resp) ->
    is_success resp = true ->
    body resp = Some (VDict d) ->
    (forall rates,
        dict_get "exchange_rates" d = Some (VDict rates) ->
        dict_get "EUR" rates = Some (VFloat 0x1.ccccccccccccdp-1) ->
        exists result,
          outcome upstream
            (AbstractApi.convert_currency key base "EUR" 100%float date)
          = inr (VDict result) /\
          dict_get "converted_amount" result = Some (VFloat 90) /\
          dict_get "amount" result = Some (VFloat 100) /\
          (forall k, k <> "converted_amount" -> k <> "amount" ->
                     dict_get k result = dict_get k d)) /\
    (forall target amount,
        dict_get "exchange_rates" d = None \/
        (exists rates, dict_get "exchange_rates" d = Some (VDict rates) /\
                       dict_get target rates = None) ->
        outcome upstream
          (AbstractApi.convert_currency key base target amount date)
        = inr (VDict d)).
Proof.
  intros key upstream base date resp d Hup Hok Hbody. split.
  - intros rates Hd Hr. eexists.
    rewrite (convert_currency_outcome key upstream base "EUR" _ date resp _
               Hup Hok Hbody).
    split; [eapply attach_converted_amount_present; eauto; reflexivity|].
    split; [|split].
    + rewrite dict_get_set_other by discriminate. apply dict_get_set_same.
    + apply dict_get_set_same.
    + intros k H1 H2. rewrite !dict_get_set_other; congruence.
  - intros target amount Habsent.
    rewrite (convert_currency_outcome key upstream base target amount date
               resp _ Hup Hok Hbody).
    now apply attach_converted_amount_absent.
Qed.

Lemma convert_currency_attaches_amount_witness :
  let d := [("base", VStr "USD");
            ("exchange_rates", VDict [("EUR", VFloat 0x1.ccccccccccccdp-1)])] in
  let resp := mkResponse 200 (Some (VDict d)) in
  let upstream := fun _ : Request => @inr exn Response resp in
  (forall req, upstream req = inr resp) /\
  is_success resp = true /\
  body resp = Some (VDict d) /\
  (exists result,
      outcome upstream
        (AbstractApi.convert_currency (Some "k") "USD" "EUR" 100%float None)
      = inr (VDict result) /\
      dict_get "converted_amount" result = Some (VFloat 90) /\
      dict_get "amount" result = Some (VFloat 100) /\
      (forall k, k <> "converted_amount" -> k <> "amount" ->
                 dict_get k result = dict_get k d)) /\
  outcome upstream
    (AbstractApi.convert_currency (Some "k") "USD" "GBP" 100%float None)
  = inr (VDict d).
Proof.
  intros d resp upstream.
  split; [reflexivity|]. split; [reflexivity|]. split; [reflexivity|].
  destruct (convert_currency_attaches_amount (Some "k") upstream "USD" None
              resp d (fun _ => eq_refl) eq_refl eq_refl) as [Hpresent Habsent].
  split.
  - apply (Hpresent [("EUR", VFloat 0x1.ccccccccccccdp-1)]); reflexivity.
  - apply Habsent. right. eexists. split; reflexivity.
Defined.

(** C7: a tool that needs one of two alternatives raises before it sends
    anything when the caller supplies neither.  [get_timezone] without
    [location] and without one of [latitude] and [longitude], and
    [list_lists] without [folder_id] and [space_id], end with a
    [ValueError] (the validation error of the adapters) and have issued no
    request. *)
Theorem missing_alternative_raises_before_request :
  forall key token upstream latitude longitude archived,
    run upstream (AbstractApi.get_timezone key None None longitude)
    = ([], inl (ValueError
                  "Either location or latitude/longitude must be provided")) /\
    run upstream (AbstractApi.get_timezone key None latitude None)
    = ([], inl (ValueError
                  "Either location or latitude/longitude must be provided")) /\
    run upstream (ClickUp.list_lists token None None archived)
    = ([], inl (ValueError "Either folder_id or space_id must be provided")).
Proof.
  intros key token upstream latitude longitude archived.
  split; [reflexivity|]. split; [|reflexivity].
  unfold AbstractApi.get_timezone. cbn [truthy truthy_option].
  now rewrite andb_false_r.
Qed.

(** ** Claude *)

Section ClaudeFacts.
Variable key : option string.
Variable upstream : Request -> exn + Response.

Lemma chat_outcome prompt model max_tokens system temperature resp result :
  (forall req, upstream req = inr resp) ->
  is_success resp = true ->
  body resp = Some result ->
  outcome upstream (Claude.chat key prompt model max_tokens system temperature)
  = Claude.extract_text result.
Proof.
  intros Hup Hok Hbody.
  unfold outcome, Claude.chat, Claude.make_claude_request, request.
  cbn [String.eqb Ascii.eqb Bool.eqb bind run]. rewrite Hup. cbn [bind].
  unfold raise_for_status. rewrite Hok. cbn [bind].
  unfold response_json. rewrite Hbody. cbn [bind].
  now destruct (Claude.extract_text result).
Qed.

Lemma collect_text_skip b text_content :
  is_text_block b = false ->
  Claude.collect_text (VDict b) text_content = inr text_content.
Proof.
  unfold Claude.collect_text, is_text_block. cbn [get].
  unfold dict_get_default.
  destruct (dict_get "type" b) as [[| | | |t| |]|]; cbn [eq_str];
    try reflexivity.
  now intros ->.
Qed.

Lemma collect_text_keep b acc :
  is_text_block b = true ->
  text_is_str b ->
  Claude.collect_text (VDict b) (map VStr acc) =
  inr (map VStr (acc ++ [text_field b])%list).
Proof.
  unfold Claude.collect_text, is_text_block, text_is_str, text_field.
  cbn [get]. unfold dict_get_default.
  destruct (dict_get "type" b) as [[| | | |t| |]|]; cbn [eq_str];
    try discriminate.
  intros -> Hs. rewrite map_app.
  now destruct (dict_get "text" b) as [[| | | |s| |]|].
Qed.

Lemma collect_text_blocks blocks acc :
  Forall (fun b => is_text_block b = true -> text_is_str b) blocks ->
  for_each Claude.collect_text (map VDict blocks) (map VStr acc) =
  inr (map VStr (acc ++ map text_field (filter is_text_block blocks))%list).
Proof.
  intros Hall. revert acc.
  induction Hall as [|b blocks Hb Hall IH]; intros acc.
  - cbn. now rewrite app_nil_r.
  - cbn [map for_each filter].
    destruct (is_text_block b) eqn:E.
    + rewrite (collect_text_keep b acc E (Hb eq_refl)), IH.
      cbn [map]. now rewrite <- app_assoc.
    + rewrite (collect_text_skip b _ E). apply IH.
Qed.

Lemma str_items_strs ss : str_items (map VStr ss) = inr ss.
Proof. induction ss as [|s ss IH]; cbn; [reflexivity | now rewrite IH]. Qed.

Lemma extract_text_blocks (d : dict value) blocks :
  dict_get "content" d = Some (VList (map VDict blocks)) ->
  Forall (fun b => is_text_block b = true -> text_is_str b) blocks ->
  Claude.extract_text (VDict d) = inr (simplified_text blocks).
Proof.
  intros Hd Hall. unfold Claude.extract_text.
  cbn [get]. unfold dict_get_default. rewrite Hd. cbn [iterate].
  change (@nil value) with (map VStr []).
  rewrite (collect_text_blocks blocks [] Hall). cbn [app].
  unfold join. now rewrite str_items_strs.
Qed.

End ClaudeFacts.

(** C6: the text [chat] returns, against an upstream that answers with a
    success status and a JSON object.  When the object's [content] is a text
    block with text [a], an image block and a text block with text [b], the
    call returns [a], a newline and [b].  In general, when [content] is a
    list of blocks, the call returns the [text] of the blocks whose [type]
    is ["text"], in their order, joined by single newlines, and nothing of
    the other blocks. *)
Theorem chat_returns_text_blocks :
  forall key upstream prompt model max_tokens system temperature resp
         (d : dict value),
    (forall req, upstream req = inr resp) ->
    is_success resp = true ->
    body resp = Some (VDict d) ->
    (forall image,
        dict_get "content" d =
        Some (VList [VDict [("type", VStr "text"); ("text", VStr "A")];
                     VDict (("type", VStr "image") :: image);
                     VDict [("type", VStr "text"); ("text", VStr "B")]]) ->
        outcome upstream
          (Claude.chat key prompt model max_tokens system temperature)
        = inr (String "A" (String "010" (String "B" "")))) /\
    (forall blocks,
        dict_get "content" d = Some (VList (map VDict blocks)) ->
        Forall (fun b => is_text_block b = true -> text_is_str b) blocks ->
        outcome upstream
          (Claude.chat key prompt model max_tokens system temperature)
        = inr (simplified_text blocks)).
Proof.
  intros key upstream prompt model max_tokens system temperature resp d
         Hup Hok Hbody.
  rewrite (chat_outcome key upstream prompt model max_tokens system
             temperature resp _ Hup Hok Hbody).
  split.
  - intros image Hd.
    rewrite (extract_text_blocks d
               [[("type", VStr "text"); ("text", VStr "A")];
                ("type", VStr "image") :: image;
                [("type", VStr "text"); ("text", VStr "B")]] Hd).
    + reflexivity.
    + repeat constructor. discriminate.
  - intros blocks Hd Hall. now apply extract_text_blocks.
Qed.

Lemma chat_returns_text_blocks_witness :
  let content :=
    VList [VDict [("type", VStr "text"); ("text", VStr "A")];
           VDict [("type", VStr "image");
                  ("source", VDict [("type", VStr "base64")])];
           VDict [("type", VStr "text"); ("text", VStr "B")]] in
  let d := [("id", VStr "msg_1"); ("content", content)] in
  let resp := mkResponse 200 (Some (VDict d)) in
  let upstream := fun _ : Request => @inr exn Response resp in
  (forall req, upstream req = inr resp) /\
  is_success resp = true /\
  body resp = Some (VDict d) /\
  outcome upstream (Claude.chat (Some "k") "hello" None None None None)
  = inr (String "A" (String "010" (String "B" ""))).
Proof.
  intros content d resp upstream.
  split; [reflexivity|]. split; [reflexivity|]. split; [reflexivity|].
  apply (proj1 (chat_returns_text_blocks (Some "k") upstream "hello" None None
                  None None resp d (fun _ => eq_refl) eq_refl eq_refl)
           [("source", VDict [("type", VStr "base64")])]).
  reflexivity.
Defined.

(** * Further properties of the adapters *)

(** ** Airtable: the access token *)

Lemma list_records_carries_token token upstream base_id table fields
    filter_by_formula max_records page_size sort view offset req :
  In req (requests upstream
            (Airtable.list_records token base_id table fields
               filter_by_formula max_records page_size sort view offset)) ->
  exists t headers,
    token = Some t /\ t <> "" /\
    req_headers req = Some headers /\
    dict_get "Authorization" headers = Some (VStr ("Bearer " ++ t)).
Proof.
  unfold Airtable.list_records.
  destruct (Airtable.list_records_params _ _ _ _ _ _ _) as [e|params];
    [intros []|].
  unfold Airtable.get_headers.
  destruct token as [[|c t]|]; cbn [truthy truthy_option truthy_string negb];
    tool_member.
  all: exists (String c t); eexists;
    (split; [reflexivity | split; [discriminate | split; reflexivity]]).
Qed.

(** X1: no tool of the Airtable adapter sends a request without the access
    token.  Every request a tool issues carries the header [Authorization]
    with ["Bearer "] and the token, which is set and not empty; with the
    token unset or empty, a tool issues no request at all. *)
Theorem airtable_requests_carry_token :
  forall token call upstream req,
    In req (requests upstream (Airtable.invoke token call)) ->
    exists t headers,
      token = Some t /\ t <> "" /\
      req_headers req = Some headers /\
      dict_get "Authorization" headers = Some (VStr ("Bearer " ++ t)).
Proof.
  intros token call upstream req.
  destruct call; cbn [Airtable.invoke];
    try apply list_records_carries_token;
    unfold Airtable.list_bases, Airtable.get_base_schema, Airtable.get_record,
      Airtable.create_record, Airtable.update_record, Airtable.delete_record,
      Airtable.bulk_create_records, Airtable.bulk_update_records,
      Airtable.get_table_fields, Airtable.list_views, Airtable.get_headers;
    try destruct (default false replace_all);
    (destruct token as [[|c t]|];
     cbn [truthy truthy_option truthy_string negb];
     tool_member;
     exists (String c t); eexists;
     (split; [reflexivity | split; [discriminate | split; reflexivity]])).
Qed.

Lemma airtable_requests_carry_token_witness :
  let upstream := fun _ : Request => inr (mkResponse 200 (Some (VDict []))) in
  let req :=
    mkRequest DELETE "https://api.airtable.com/v0/app/tbl/rec1"
      (Some [("Authorization", VStr "Bearer tok");
             ("Content-Type", VStr "application/json")]) None None None in
  In req (requests upstream
            (Airtable.invoke (Some "tok")
               (Airtable.DeleteRecord "app" "tbl" "rec1"))) /\
  exists t headers,
    Some "tok" = Some t /\ t <> "" /\
    req_headers req = Some headers /\
    dict_get "Authorization" headers = Some (VStr ("Bearer " ++ t)).
Proof.
  intros upstream req.
  assert (H : In req (requests upstream
                        (Airtable.invoke (Some "tok")
                           (Airtable.DeleteRecord "app" "tbl" "rec1"))))
    by (left; reflexivity).
  split; [exact H|].
  exact (airtable_requests_carry_token _ _ _ _ H).
Defined.

(** ** Running a tool, step by step *)

Lemma run_request {A} upstream r (k : Response -> Prog A) :
  run upstream (bind (request r) k) =
  match upstream r with
  | inl e => ([r], inl e)
  | inr resp => let (rs, out) := run upstream (k resp) in (r :: rs, out)
  end.
Proof. reflexivity. Qed.

Lemma run_raise_for_status {A} upstream resp (k : unit -> Prog A) :
  run upstream (bind (raise_for_status resp) k) =
  if is_success resp then run upstream (k tt)
  else ([], inl (HTTPStatusError (status_code resp) (body resp))).
Proof. unfold raise_for_status. now destruct (is_success resp). Qed.

Lemma run_response_json {A} upstream resp (k : value -> Prog A) :
  run upstream (bind (response_json resp) k) =
  match body resp with
  | Some v => run upstream (k v)
  | None => ([], inl JSONDecodeError)
  end.
Proof. unfold response_json. now destruct (body resp). Qed.

Lemma run_response_json_last upstream resp :
  run upstream (response_json resp) =
  match body resp with
  | Some v => ([], inr v)
  | None => ([], inl JSONDecodeError)
  end.
Proof. unfold response_json. now destruct (body resp). Qed.

Lemma run_lift {A B} upstream (r : exn + A) (k : A -> Prog B) :
  run upstream (bind (lift r) k) =
  match r with
  | inl e => ([], inl e)
  | inr a => run upstream (k a)
  end.
Proof. now destruct r. Qed.

Lemma run_lift_last {A} upstream (r : exn + A) :
  run upstream (lift r) = ([], r).
Proof. now destruct r. Qed.

Lemma bind_request_assoc {A B} r (f : Response -> Prog A) (g : A -> Prog B) :
  bind (bind (request r) f) g = bind (request r) (fun resp => bind (f resp) g).
Proof. reflexivity. Qed.

Lemma bind_raise_for_status_assoc {A B} resp (f : unit -> Prog A)
    (g : A -> Prog B) :
  bind (bind (raise_for_status resp) f) g =
  bind (raise_for_status resp) (fun x => bind (f x) g).
Proof. unfold raise_for_status. now destruct (is_success resp). Qed.

Lemma bind_response_json_assoc {A B} resp (f : value -> Prog A)
    (g : A -> Prog B) :
  bind (bind (response_json resp) f) g =
  bind (response_json resp) (fun x => bind (f x) g).
Proof. unfold response_json. now destruct (body resp). Qed.

(** The run of a tool, read off its binds. *)
Ltac tool_run :=
  repeat (progress cbn [lift bind]
          || rewrite bind_request_assoc
          || rewrite bind_raise_for_status_assoc
          || rewrite bind_response_json_assoc
          || rewrite run_request || rewrite run_raise_for_status
          || rewrite run_response_json || rewrite run_response_json_last
          || rewrite run_lift_last || rewrite run_lift).

(** The same against an upstream whose answer is known: [Hup] gives the
    response, [Hok] its status and [Hbody] its body. *)
Ltac tool_run_with Hup Hok Hbody :=
  repeat (tool_run; rewrite ?Hup, ?Hok, ?Hbody; cbn beta iota).

(** ** Airtable: tables of a schema, records, sorting *)

Lemma subscript_present (d : dict value) k :
  dict_in k d = true ->
  subscript (VDict d) k = inr (dict_get_default k VNone d).
Proof.
  cbn [subscript]. unfold dict_in, dict_item, dict_get_default.
  now destruct (dict_get k d).
Qed.

Lemma find_table_lookup part x tables :
  Forall (fun t => dict_in "id" t = true /\ dict_in "name" t = true) tables ->
  Airtable.find_table part x (map VDict tables) =
  inr (lookup_table part x tables).
Proof.
  unfold lookup_table.
  induction 1 as [|t tables [Hid Hname] _ IH]; [reflexivity|].
  cbn [map Airtable.find_table find].
  rewrite (subscript_present t "id" Hid), (subscript_present t "name" Hname).
  cbn [get]. unfold table_matches at 1.
  destruct (eq_str (dict_get_default "id" VNone t) x); [reflexivity|].
  destruct (eq_str (dict_get_default "name" VNone t) x); [reflexivity|].
  exact IH.
Qed.

(** X2: [get_table_fields] and [list_views] look a table up in the schema
    of the base.  Against an upstream that answers with a success status and
    a schema whose tables have an [id] and a [name], they return the id, the
    name and the fields or views (an empty list when the table has none) of
    the first table whose id or name is the one asked for; when no table
    answers to it, or the schema has no [tables], they return the object
    [{"error": "Table not found"}] and raise nothing. *)
Theorem table_lookup_returns_first_match :
  forall token upstream base_id x resp (d : dict value) tables,
    truthy token = true ->
    (forall req, upstream req = inr resp) ->
    is_success resp = true ->
    body resp = Some (VDict d) ->
    dict_get_default "tables" (VList []) d = VList (map VDict tables) ->
    Forall (fun t => dict_in "id" t = true /\ dict_in "name" t = true)
           tables ->
    outcome upstream (Airtable.get_table_fields token base_id x)
    = inr (lookup_table "fields" x tables) /\
    outcome upstream (Airtable.list_views token base_id x)
    = inr (lookup_table "views" x tables).
Proof.
  intros token upstream base_id x resp d tables Htok Hup Hok Hbody Ht Hall.
  destruct (get_headers_ok token Htok) as [h Hh].
  unfold outcome, Airtable.get_table_fields, Airtable.list_views.
  rewrite Hh. tool_run_with Hup Hok Hbody.
  unfold Airtable.find_in_schema. cbn [get]. rewrite Ht. cbn [iterate].
  rewrite !find_table_lookup by assumption. split; reflexivity.
Qed.

Lemma table_lookup_returns_first_match_witness :
  let tasks := [("id", VStr "tbl1"); ("name", VStr "Tasks");
                ("fields", VList [VDict [("name", VStr "Title")]])] in
  let people := [("id", VStr "tbl2"); ("name", VStr "People")] in
  let d := [("tables", VList [VDict tasks; VDict people])] in
  let resp := mkResponse 200 (Some (VDict d)) in
  let upstream := fun _ : Request => @inr exn Response resp in
  outcome upstream (Airtable.get_table_fields (Some "tok") "app" "People")
  = inr (VDict [("table_id", VStr "tbl2"); ("table_name", VStr "People");
                ("fields", VList [])]) /\
  outcome upstream (Airtable.list_views (Some "tok") "app" "Nobody")
  = inr (VDict [("error", VStr "Table not found")]).
Proof.
  intros tasks people d resp upstream.
  destruct (table_lookup_returns_first_match (Some "tok") upstream "app"
              "People" resp d [tasks; people] eq_refl (fun _ => eq_refl)
              eq_refl eq_refl eq_refl) as [H _].
  { repeat constructor. }
  destruct (table_lookup_returns_first_match (Some "tok") upstream "app"
              "Nobody" resp d [tasks; people] eq_refl (fun _ => eq_refl)
              eq_refl eq_refl eq_refl) as [_ H'].
  { repeat constructor. }
  split; [exact H | exact H'].
Defined.

Lemma in_firstn {A} n (l : list A) x : In x (firstn n l) -> In x l.
Proof.
  intros H. rewrite <- (firstn_skipn n l). apply in_or_app. now left.
Qed.

Lemma format_record_has_fields r :
  dict_in "fields" (Airtable.format_record r) = true.
Proof.
  unfold Airtable.format_record.
  destruct (dict_in "fields" r) eqn:E; [exact E | reflexivity].
Qed.

Lemma format_record_wrapped r :
  VDict (Airtable.format_record r) = wrapped_record r.
Proof.
  unfold Airtable.format_record, wrapped_record.
  now destruct (dict_in "fields" r).
Qed.

(** X3: every record [bulk_create_records] sends is an object with a
    [fields] key.  The one request the tool issues carries, for each of the
    first ten records and in their order, the record as it is when it has
    the key already, and the record wrapped as the value of [fields] when it
    has not; so every record sent has the key, and formatting a formatted
    record changes nothing. *)
Theorem bulk_create_sends_records_with_fields :
  forall token upstream base_id table (records : list (dict value)),
    truthy token = true ->
    exists req sent,
      requests upstream
        (Airtable.bulk_create_records token base_id table records) = [req] /\
      sent_records req = Some sent /\
      sent = map wrapped_record (firstn 10 records) /\
      (forall i r,
          i < 10 -> nth_error records i = Some r ->
          nth_error sent i
          = Some (if dict_in "fields" r then VDict r
                  else VDict [("fields", VDict r)])) /\
      Forall (fun r => exists d, r = VDict d /\ dict_in "fields" d = true)
             sent /\
      (forall r, dict_in "fields" r = true -> Airtable.format_record r = r) /\
      (forall r, dict_in "fields" r = false ->
                 Airtable.format_record r = [("fields", VDict r)]) /\
      (forall r, Airtable.format_record (Airtable.format_record r)
                 = Airtable.format_record r).
Proof.
  intros token upstream base_id table records Htok.
  destruct (bulk_create_records_request token upstream base_id table records
              Htok) as (req & Hreq & _ & Hsent).
  assert (Hmap : map VDict (firstn 10 (map Airtable.format_record records))
                 = map wrapped_record (firstn 10 records)).
  { rewrite firstn_map, map_map. apply map_ext, format_record_wrapped. }
  exists req, (map wrapped_record (firstn 10 records)).
  split; [exact Hreq|]. split; [now rewrite Hsent, Hmap|].
  split; [reflexivity|].
  split; [|split; [|split; [|split]]].
  - intros i r Hi Hnth.
    rewrite nth_error_map, nth_error_firstn.
    destruct (Nat.ltb_spec i 10) as [_|Hge]; [|lia].
    now rewrite Hnth.
  - apply Forall_forall. intros r Hr. rewrite <- Hmap in Hr.
    apply in_map_iff in Hr. destruct Hr as (d & <- & Hd).
    apply in_firstn, in_map_iff in Hd. destruct Hd as (r & <- & _).
    eexists. split; [reflexivity | apply format_record_has_fields].
  - intros r Hr. unfold Airtable.format_record. now rewrite Hr.
  - intros r Hr. unfold Airtable.format_record. now rewrite Hr.
  - intros r. unfold Airtable.format_record at 1.
    now rewrite format_record_has_fields.
Qed.

Lemma bulk_create_sends_records_with_fields_witness :
  let upstream := fun _ : Request => inr (mkResponse 200 (Some (VDict []))) in
  let records :=
    [[("Name", VStr "x")]; [("fields", VDict [("Name", VStr "y")])]] in
  truthy (Some "tok") = true /\
  exists req sent,
    requests upstream
      (Airtable.bulk_create_records (Some "tok") "app" "tbl" records)
    = [req] /\
    sent_records req = Some sent /\
    sent = [VDict [("fields", VDict [("Name", VStr "x")])];
            VDict [("fields", VDict [("Name", VStr "y")])]] /\
    Forall (fun r => exists d, r = VDict d /\ dict_in "fields" d = true) sent.
Proof.
  intros upstream records. split; [reflexivity|].
  destruct (bulk_create_sends_records_with_fields (Some "tok") upstream "app"
              "tbl" records eq_refl) as (req & sent & H1 & H2 & H3 & _ & H5 & _).
  exists req, sent.
  split; [exact H1|]. split; [exact H2|]. split; [exact H3 | exact H5].
Defined.

Lemma for_each_sort_missing_field idxs items (p : dict value) :
  List.length idxs = List.length items ->
  (exists item, In item items /\ dict_in "field" item = false) ->
  for_each Airtable.set_sort_item (combine idxs items) p
  = inl (KeyError "field").
Proof.
  revert idxs p.
  induction items as [|item items IH]; intros idxs p Hlen (bad & Hin & Hbad);
    [destruct Hin|].
  destruct idxs as [|i idxs]; [discriminate|].
  cbn [combine for_each]. unfold Airtable.set_sort_item at 1.
  unfold dict_item. unfold dict_in in Hbad.
  destruct (dict_get "field" item) as [field|] eqn:E; [|reflexivity].
  apply IH; [now injection Hlen|].
  destruct Hin as [->|Hin]; [now rewrite E in Hbad|].
  exists bad. unfold dict_in. auto.
Qed.

(** X5: a sort item without the key [field] stops [list_records] before
    anything is sent.  When some item of [sort] has no [field], building the
    query parameters raises [KeyError] for ["field"], and the tool ends with
    that error without a request, whatever else was supplied and whether or
    not the access token is set. *)
Theorem list_records_sort_needs_field :
  forall token upstream base_id table fields filter_by_formula max_records
         page_size sort view offset,
    (exists item, In item sort /\ dict_in "field" item = false) ->
    Airtable.list_records_params fields filter_by_formula max_records
      page_size (Some sort) view offset = inl (KeyError "field") /\
    run upstream
      (Airtable.list_records token base_id table fields filter_by_formula
         max_records page_size (Some sort) view offset)
    = ([], inl (KeyError "field")).
Proof.
  intros token upstream base_id table fields filter_by_formula max_records
         page_size sort view offset Hbad.
  assert (Hp : Airtable.list_records_params fields filter_by_formula
                 max_records page_size (Some sort) view offset
               = inl (KeyError "field")).
  { unfold Airtable.list_records_params.
    destruct sort as [|item sort]; [destruct Hbad as (? & [] & _)|].
    cbn [truthy truthy_list]. unfold enumerate.
    apply for_each_sort_missing_field; [now rewrite length_seq | assumption]. }
  split; [exact Hp|].
  unfold Airtable.list_records. now rewrite Hp.
Qed.

Lemma list_records_sort_needs_field_witness :
  let upstream := fun _ : Request => inr (mkResponse 200 (Some (VDict []))) in
  let sort := [[("field", "Name")]; [("direction", "desc")]] in
  (exists item, In item sort /\ dict_in "field" item = false) /\
  run upstream
    (Airtable.list_records (Some "tok") "app" "tbl" None None None None
       (Some sort) None None)
  = ([], inl (KeyError "field")).
Proof.
  intros upstream sort.
  assert (H : exists item, In item sort /\ dict_in "field" item = false).
  { exists [("direction", "desc")]. split; [right; left|]; reflexivity. }
  split; [exact H|].
  exact (proj2 (list_records_sort_needs_field (Some "tok") upstream "app"
                  "tbl" None None None None sort None None H)).
Defined.

(** X6: [search_records] with an empty formula does not filter.  The empty
    string fails the truth test in [list_records], so no [filterByFormula]
    parameter is sent and the call is the one [list_records] makes without a
    formula. *)
Theorem search_records_empty_formula_unfiltered :
  forall token upstream base_id table fields sort max_records,
    Airtable.search_records token base_id table "" fields sort max_records
    = Airtable.list_records token base_id table fields None max_records None
                            sort None None /\
    (forall req,
        In req (requests upstream
                  (Airtable.search_records token base_id table "" fields sort
                     max_records)) ->
        exists params,
          req_params req = Some params /\
          dict_in "filterByFormula" params = false).
Proof.
  intros token upstream base_id table fields sort max_records.
  split; [reflexivity|].
  intros req Hin.
  change (Airtable.search_records token base_id table "" fields sort
            max_records)
    with (Airtable.list_records token base_id table fields None max_records
            None sort None None) in Hin.
  destruct (list_records_requests_params _ _ _ _ _ _ _ _ _ _ _ _ Hin)
    as (params & Hp & Hreq).
  exists params. split; [assumption|]. unfold dict_in.
  rewrite (list_records_params_get _ _ _ _ _ _ _ _ Hp) by (right; reflexivity).
  reflexivity.
Qed.

(** *** The keys of the sort items *)

Lemma list_ascii_of_append s t :
  list_ascii_of_string (s ++ t) =
  (list_ascii_of_string s ++ list_ascii_of_string t)%list.
Proof. induction s as [|a s IH]; simpl; [reflexivity | now rewrite IH]. Qed.

Lemma list_ascii_of_string_inj s t :
  list_ascii_of_string s = list_ascii_of_string t -> s = t.
Proof.
  intros H. rewrite <- (string_of_list_ascii_of_string s),
    <- (string_of_list_ascii_of_string t). now rewrite H.
Qed.

Lemma append_inv_tail s1 s2 t : s1 ++ t = s2 ++ t -> s1 = s2.
Proof.
  intros H. apply list_ascii_of_string_inj.
  apply (f_equal list_ascii_of_string) in H.
  rewrite !list_ascii_of_append in H. now apply app_inv_tail in H.
Qed.

Lemma str_nat_inj (i j : nat) : str i = str j -> i = j.
Proof.
  unfold str, str_nat. intros H.
  apply (f_equal NilEmpty.uint_of_string) in H.
  rewrite !NilEmpty.usu in H. injection H as H.
  now apply DecimalNat.Unsigned.to_uint_inj.
Qed.

Lemma sort_field_key_inj i j : sort_field_key i = sort_field_key j -> i = j.
Proof.
  unfold sort_field_key. intros H. cbn [append] in H. injection H as H.
  now apply append_inv_tail, str_nat_inj in H.
Qed.

Lemma sort_direction_key_inj i j :
  sort_direction_key i = sort_direction_key j -> i = j.
Proof.
  unfold sort_direction_key. intros H. cbn [append] in H. injection H as H.
  now apply append_inv_tail, str_nat_inj in H.
Qed.

Lemma sort_field_direction_neq i j : sort_field_key i <> sort_direction_key j.
Proof.
  unfold sort_field_key, sort_direction_key. intros H.
  cbn [append] in H. injection H as H.
  apply (f_equal list_ascii_of_string) in H.
  rewrite !list_ascii_of_append in H.
  apply app_eq_app in H. destruct H as (l & [[_ H]|[_ H]]).
  - pose proof (f_equal (@List.length ascii) H) as Hlen.
    rewrite length_app in Hlen. cbn in Hlen.
    do 5 (destruct l as [|? l]; cbn in Hlen; try lia).
    discriminate H.
  - pose proof (f_equal (@List.length ascii) H) as Hlen.
    rewrite length_app in Hlen. cbn in Hlen. lia.
Qed.

Lemma set_sort_item_keep i item (p p' : dict value) key :
  Airtable.set_sort_item (i, item) p = inr p' ->
  key <> sort_field_key i -> key <> sort_direction_key i ->
  dict_get key p' = dict_get key p.
Proof.
  unfold Airtable.set_sort_item.
  destruct (dict_item "field" item) as [e|field]; [discriminate|].
  intros [= <-] Hf Hd.
  rewrite !dict_get_set_other; [reflexivity | |]; intros E; symmetry in E;
    [now apply Hf | now apply Hd].
Qed.

Lemma set_sort_item_sets i item (p p' : dict value) :
  Airtable.set_sort_item (i, item) p = inr p' ->
  exists field,
    dict_get "field" item = Some field /\
    dict_get (sort_field_key i) p' = Some (VStr field) /\
    dict_get (sort_direction_key i) p' =
    Some (VStr (dict_get_default "direction" "asc" item)).
Proof.
  unfold Airtable.set_sort_item, dict_item.
  destruct (dict_get "field" item) as [field|]; [|discriminate].
  intros [= <-]. exists field. split; [reflexivity|]. split.
  - rewrite dict_get_set_other; [apply dict_get_set_same|].
    intros E. symmetry in E. now apply sort_field_direction_neq in E.
  - apply dict_get_set_same.
Qed.

Lemma for_each_sort_keep k items (p p' : dict value) key :
  for_each Airtable.set_sort_item
           (combine (seq k (List.length items)) items) p = inr p' ->
  (forall j, k <= j -> key <> sort_field_key j /\ key <> sort_direction_key j)
  ->
  dict_get key p' = dict_get key p.
Proof.
  revert k p. induction items as [|item items IH]; intros k p;
    cbn [List.length seq combine for_each].
  - now intros [= <-].
  - destruct (Airtable.set_sort_item (k, item) p) as [e|p1] eqn:E;
      [discriminate|].
    intros H Hkey. rewrite (IH _ _ H) by (intros j Hj; apply Hkey; lia).
    destruct (Hkey k (le_n k)). now apply (set_sort_item_keep k item).
Qed.

Lemma for_each_sort_nth k items (p p' : dict value) i item :
  for_each Airtable.set_sort_item
           (combine (seq k (List.length items)) items) p = inr p' ->
  nth_error items i = Some item ->
  exists field,
    dict_get "field" item = Some field /\
    dict_get (sort_field_key (k + i)) p' = Some (VStr field) /\
    dict_get (sort_direction_key (k + i)) p' =
    Some (VStr (dict_get_default "direction" "asc" item)).
Proof.
  revert k p i. induction items as [|it items IH]; intros k p i;
    cbn [List.length seq combine for_each].
  - destruct i; discriminate.
  - destruct (Airtable.set_sort_item (k, it) p) as [e|p1] eqn:E;
      [discriminate|].
    intros H Hnth. destruct i as [|i]; cbn in Hnth.
    + injection Hnth as ->. rewrite Nat.add_0_r.
      destruct (set_sort_item_sets k item p p1 E) as (field & Hf & H1 & H2).
      exists field. split; [assumption|].
      rewrite !(for_each_sort_keep _ _ _ _ _ H); [now split | |];
        intros j Hj; split; intros Hk;
        first [ apply sort_field_key_inj in Hk; lia
              | apply sort_direction_key_inj in Hk; lia
              | now apply sort_field_direction_neq in Hk
              | symmetry in Hk; now apply sort_field_direction_neq in Hk ].
    + replace (k + S i) with (S k + i) by lia. now apply (IH _ _ _ H).
Qed.

(** X4: every item of [sort] reaches the query parameters under its own
    index.  When [list_records] builds its parameters, the [i]-th item of
    [sort] (counted from 0) is found under the keys [sort[i][field]] and
    [sort[i][direction]]: the first holds the item's [field], the second its
    [direction], or ["asc"] when the item has none; no item overwrites
    another. *)
Theorem list_records_sort_items_indexed :
  forall fields filter_by_formula max_records page_size sort view offset
         params i item,
    Airtable.list_records_params fields filter_by_formula max_records
      page_size (Some sort) view offset = inr params ->
    nth_error sort i = Some item ->
    exists field,
      dict_get "field" item = Some field /\
      dict_get (sort_field_key i) params = Some (VStr field) /\
      dict_get (sort_direction_key i) params =
      Some (VStr (dict_get_default "direction" "asc" item)).
Proof.
  intros fields filter_by_formula max_records page_size sort view offset
         params i item Hp Hnth.
  unfold Airtable.list_records_params in Hp.
  destruct sort as [|it sort]; [destruct i; discriminate|].
  cbn [truthy truthy_list] in Hp. unfold enumerate in Hp.
  exact (for_each_sort_nth 0 _ _ _ i item Hp Hnth).
Qed.

Lemma list_records_sort_items_indexed_witness :
  let sort := [[("field", "Name")];
               [("field", "Age"); ("direction", "desc")]] in
  exists params field,
    Airtable.list_records_params None None None None (Some sort) None None
    = inr params /\
    nth_error sort 1 = Some [("field", "Age"); ("direction", "desc")] /\
    dict_get "field" [("field", "Age"); ("direction", "desc")] = Some field /\
    dict_get "sort[1][field]" params = Some (VStr field) /\
    dict_get "sort[1][direction]" params = Some (VStr "desc").
Proof.
  intros sort. eexists.
  destruct (list_records_sort_items_indexed None None None None sort None None
              _ 1 [("field", "Age"); ("direction", "desc")] eq_refl eq_refl)
    as (field & Hf & H1 & H2).
  exists field. repeat split; assumption.
Defined.

(** ** Todoist: comments, closing tasks, presence tests *)

(** X7: a comment goes to the task when both a task and a project are
    given, and no target is not an error.  [list_comments] and
    [create_comment] each issue exactly one request, whatever [task_id] and
    [project_id] are, and end as the upstream answers it: they raise nothing
    of their own, also when neither target is given.  In the query
    parameters of the first and the body of the second, [task_id] is sent
    when it is supplied and not empty; [project_id] is sent only when it is
    and [task_id] is not; with neither, the request goes without a target. *)
Theorem comments_prefer_task_id :
  forall token upstream content task_id project_id attachment,
    let target (d : dict value) :=
      dict_get "task_id" d
      = (if truthy task_id then Some (to_value task_id) else None) /\
      dict_get "project_id" d
      = (if negb (truthy task_id) && truthy project_id then
           Some (to_value project_id)
         else None) in
    (exists req params,
        run upstream (Todoist.list_comments token task_id project_id)
        = ([req], answer_json (upstream req)) /\
        req_method req = GET /\
        req_url req = Todoist.BASE_URL ++ "/comments" /\
        req_params req = Some params /\
        params = Todoist.list_comments_params task_id project_id /\
        target params) /\
    (exists req payload,
        run upstream
          (Todoist.create_comment token content task_id project_id attachment)
        = ([req], answer_json (upstream req)) /\
        req_method req = POST /\
        req_url req = Todoist.BASE_URL ++ "/comments" /\
        req_json req = Some (VDict payload) /\
        payload
        = Todoist.create_comment_payload content task_id project_id
                                         attachment /\
        dict_get "content" payload = Some (VStr content) /\
        target payload).
Proof.
  intros token upstream content task_id project_id attachment. cbv zeta.
  split.
  - do 2 eexists. unfold Todoist.list_comments. cbv zeta.
    split; [apply run_json_tool|].
    do 4 (split; [reflexivity|]).
    destruct task_id as [[|]|], project_id as [[|]|]; split; reflexivity.
  - do 2 eexists. unfold Todoist.create_comment. cbv zeta.
    split; [apply run_json_tool|].
    do 4 (split; [reflexivity|]).
    destruct task_id as [[|]|], project_id as [[|]|],
      attachment as [[|]|]; repeat split; reflexivity.
Qed.

(** X8: closing, reopening and deleting a task report success by the
    status alone.  Against an upstream that answers with [resp],
    [complete_task], [reopen_task] and [delete_task] return
    [{"success": true, "task_id": task_id}] when the status is 2xx, whatever
    the body is (it is not decoded, so an empty body is fine), and raise
    [HTTPStatusError] with the status and body otherwise; [get_task], which
    decodes the body, raises [JSONDecodeError] on a success without JSON. *)
Theorem task_actions_report_status_only :
  forall token upstream task_id resp,
    (forall req, upstream req = inr resp) ->
    let done :=
      if is_success resp then
        inr (VDict [("success", VBool true); ("task_id", VStr task_id)])
      else inl (HTTPStatusError (status_code resp) (body resp)) in
    outcome upstream (Todoist.complete_task token task_id) = done /\
    outcome upstream (Todoist.reopen_task token task_id) = done /\
    outcome upstream (Todoist.delete_task token task_id) = done /\
    outcome upstream (Todoist.get_task token task_id)
    = (if is_success resp then
         match body resp with
         | Some v => inr v
         | None => inl JSONDecodeError
         end
       else inl (HTTPStatusError (status_code resp) (body resp))).
Proof.
  intros token upstream task_id resp Hup. cbv zeta.
  unfold outcome, Todoist.complete_task, Todoist.reopen_task,
    Todoist.delete_task, Todoist.get_task.
  tool_run. rewrite !Hup. cbn beta iota. tool_run.
  destruct (is_success resp); cbn; [|repeat split; reflexivity].
  destruct (body resp); repeat split; reflexivity.
Qed.

Lemma task_actions_report_status_only_witness :
  let resp := mkResponse 204 None in
  let upstream := fun _ : Request => @inr exn Response resp in
  (forall req, upstream req = inr resp) /\
  outcome upstream (Todoist.complete_task (Some "tok") "42")
  = inr (VDict [("success", VBool true); ("task_id", VStr "42")]) /\
  outcome upstream (Todoist.get_task (Some "tok") "42") = inl JSONDecodeError.
Proof.
  intros resp upstream. split; [reflexivity|].
  destruct (task_actions_report_status_only (Some "tok") upstream "42" resp
              (fun _ => eq_refl)) as (H1 & _ & _ & H4).
  split; [exact H1 | exact H4].
Defined.

(** X9: where the Todoist adapter tests for presence, a supplied zero or
    false is sent.  The body of the one request [create_task] issues always
    holds [content], [priority] (1 by default, and 0 when 0 is given) and
    [due_lang], and holds [order] whenever it is supplied, 0 included; the
    body of the one request [update_project] issues holds [is_favorite]
    whenever it is supplied, false included; an [order] or [is_favorite]
    that is not supplied is not sent. *)
Theorem presence_tests_keep_zero_and_false :
  forall token upstream content description project_id section_id parent_id
         order labels priority due_string due_date due_datetime due_lang
         assignee_id updated_id name color is_favorite view_style,
    (exists req task,
        run upstream
          (Todoist.create_task token content description project_id
             section_id parent_id order labels priority due_string due_date
             due_datetime due_lang assignee_id)
        = ([req], answer_json (upstream req)) /\
        req_method req = POST /\
        req_url req = Todoist.BASE_URL ++ "/tasks" /\
        req_json req = Some (VDict task) /\
        dict_get "content" task = Some (VStr content) /\
        dict_get "priority" task = Some (VInt (default 1%Z priority)) /\
        dict_get "due_lang" task = Some (VStr (default "en" due_lang)) /\
        dict_get "order" task = option_map VInt order) /\
    (exists req project,
        run upstream
          (Todoist.update_project token updated_id name color is_favorite
                                  view_style)
        = ([req], answer_json (upstream req)) /\
        req_method req = POST /\
        req_url req = Todoist.BASE_URL ++ "/projects/" ++ updated_id /\
        req_json req = Some (VDict project) /\
        dict_get "is_favorite" project = option_map VBool is_favorite).
Proof.
  intros. split.
  - do 2 eexists. unfold Todoist.create_task. cbv zeta.
    split; [apply run_json_tool|].
    do 3 (split; [reflexivity|]).
    unfold Todoist.create_task_payload. cbv zeta. rewrite !dict_get_when.
    repeat split; try reflexivity.
    now destruct order.
  - do 2 eexists. unfold Todoist.update_project. cbv zeta.
    split; [apply run_json_tool|].
    do 3 (split; [reflexivity|]).
    unfold Todoist.update_project_payload. cbv zeta. rewrite !dict_get_when.
    now destruct is_favorite.
Qed.

(** ** Mailchimp: the key, member addresses, campaigns, tags *)

Section MailchimpTools.
Variable key : option string.
Variable md5 : string -> string.
Variable upstream : Request -> exn + Response.

Lemma get_base_url_inv base :
  Mailchimp.get_base_url key = inr base ->
  exists s, key = Some s /\ has_char "-" s /\
            base = "https://" ++ Mailchimp.data_center s
                              ++ ".api.mailchimp.com/3.0".
Proof.
  unfold Mailchimp.get_base_url. destruct key as [s|]; [|discriminate].
  destruct (truthy s); [|discriminate].
  destruct (str_contains "-" s) eqn:E; [|discriminate].
  cbn [negb orb]. intros [= <-]. exists s.
  split; [reflexivity|]. split; [now apply str_contains_char | reflexivity].
Qed.

Lemma lower_ascii_idempotent c : lower_ascii (lower_ascii c) = lower_ascii c.
Proof.
  destruct c as [[] [] [] [] [] [] [] []]; reflexivity.
Qed.

Lemma lower_idempotent s : lower (lower s) = lower s.
Proof.
  induction s as [|c s IH]; cbn [lower]; [reflexivity|].
  now rewrite lower_ascii_idempotent, IH.
Qed.

End MailchimpTools.

(** X10: with a key that is not set or holds no ['-'], no tool of the
    Mailchimp adapter sends anything: each of them ends with the
    [ValueError] of [get_base_url] and an empty list of requests. *)
Theorem mailchimp_invalid_key_stops_every_tool :
  forall key md5 upstream call,
    (forall s, key = Some s -> ~ has_char "-" s) ->
    run upstream (Mailchimp.invoke key md5 call)
    = ([], inl (ValueError Mailchimp.invalid_key_message)).
Proof.
  intros key md5 upstream call Hkey.
  pose proof (get_base_url_invalid key Hkey) as E.
  destruct call; cbn [Mailchimp.invoke];
    unfold Mailchimp.list_audiences, Mailchimp.get_audience,
      Mailchimp.list_audience_members, Mailchimp.add_member,
      Mailchimp.update_member, Mailchimp.delete_member,
      Mailchimp.list_campaigns, Mailchimp.get_campaign,
      Mailchimp.create_campaign, Mailchimp.send_campaign,
      Mailchimp.list_templates, Mailchimp.get_campaign_reports,
      Mailchimp.list_segments, Mailchimp.create_segment, Mailchimp.list_tags,
      Mailchimp.add_tags_to_member;
    rewrite ?E; try reflexivity.
  destruct (truthy schedule_time); reflexivity.
Qed.

Lemma mailchimp_invalid_key_stops_every_tool_witness :
  let upstream := fun _ : Request => inr (mkResponse 200 (Some (VDict []))) in
  (forall s, Some "abc123us5" = Some s -> ~ has_char "-" s) /\
  run upstream
    (Mailchimp.invoke (Some "abc123us5") (fun s => s)
       (Mailchimp.DeleteMember "list1" "a@b.c"))
  = ([], inl (ValueError Mailchimp.invalid_key_message)).
Proof.
  intros upstream.
  assert (H : forall s, Some "abc123us5" = Some s -> ~ has_char "-" s).
  { intros s [= <-]. unfold has_char. simpl. intuition discriminate. }
  split; [exact H|].
  exact (mailchimp_invalid_key_stops_every_tool (Some "abc123us5")
           (fun s => s) upstream (Mailchimp.DeleteMember "list1" "a@b.c") H).
Defined.

(** X11: every request of the Mailchimp adapter goes to the data center of
    the key, with the key as the password.  A request that any tool issues
    has a URL made of the base URL [get_base_url] returns for the key and a
    path that starts with ['/'], and carries the Basic Auth pair
    [("anystring", key)]. *)
Theorem mailchimp_requests_use_base_url_and_key :
  forall key md5 upstream call req,
    In req (requests upstream (Mailchimp.invoke key md5 call)) ->
    exists s base path,
      key = Some s /\
      Mailchimp.get_base_url key = inr base /\
      req_url req = base ++ String "/" path /\
      req_auth req = Some (VStr "anystring", VStr s).
Proof.
  intros key md5 upstream call req.
  destruct (Mailchimp.get_base_url key) as [e|base] eqn:E.
  - destruct call; cbn [Mailchimp.invoke];
      unfold Mailchimp.list_audiences, Mailchimp.get_audience,
        Mailchimp.list_audience_members, Mailchimp.add_member,
        Mailchimp.update_member, Mailchimp.delete_member,
        Mailchimp.list_campaigns, Mailchimp.get_campaign,
        Mailchimp.create_campaign, Mailchimp.send_campaign,
        Mailchimp.list_templates, Mailchimp.get_campaign_reports,
        Mailchimp.list_segments, Mailchimp.create_segment,
        Mailchimp.list_tags, Mailchimp.add_tags_to_member;
      try destruct (truthy schedule_time); rewrite E; intros [].
  - destruct (get_base_url_inv key base E) as (s & -> & _ & _).
    destruct call; cbn [Mailchimp.invoke];
      unfold Mailchimp.list_audiences, Mailchimp.get_audience,
        Mailchimp.list_audience_members, Mailchimp.add_member,
        Mailchimp.update_member, Mailchimp.delete_member,
        Mailchimp.list_campaigns, Mailchimp.get_campaign,
        Mailchimp.create_campaign, Mailchimp.send_campaign,
        Mailchimp.list_templates, Mailchimp.get_campaign_reports,
        Mailchimp.list_segments, Mailchimp.create_segment,
        Mailchimp.list_tags, Mailchimp.add_tags_to_member;
      try destruct (truthy schedule_time); rewrite E; tool_member;
      exists s, base; eexists;
      (split; [reflexivity | split; [reflexivity | split; reflexivity]]).
Qed.

Lemma mailchimp_requests_use_base_url_and_key_witness :
  let upstream := fun _ : Request => inr (mkResponse 200 (Some (VDict []))) in
  let req :=
    mkRequest GET "https://us5.api.mailchimp.com/3.0/campaigns/c1" None None
              None (Some (VStr "anystring", VStr "abc123-us5")) in
  In req (requests upstream
            (Mailchimp.invoke (Some "abc123-us5") (fun s => s)
               (Mailchimp.GetCampaign "c1"))) /\
  exists s base path,
    Some "abc123-us5" = Some s /\
    Mailchimp.get_base_url (Some "abc123-us5") = inr base /\
    req_url req = base ++ String "/" path /\
    req_auth req = Some (VStr "anystring", VStr s).
Proof.
  intros upstream req.
  assert (H : In req (requests upstream
                        (Mailchimp.invoke (Some "abc123-us5") (fun s => s)
                           (Mailchimp.GetCampaign "c1"))))
    by (left; reflexivity).
  split; [exact H|].
  exact (mailchimp_requests_use_base_url_and_key _ _ _ _ _ H).
Defined.

(** X12: member addresses do not depend on the case of the e-mail.  Two
    ASCII addresses with the same lower-case form give the same subscriber
    hash, so [update_member] is the same call for both, and [delete_member]
    and [add_tags_to_member] issue the same requests for both; lower-casing
    an address first changes nothing. *)
Theorem member_address_ignores_case :
  forall key md5 upstream list_id e1 e2 status merge_fields vip tags
         is_syncing,
    is_ascii e1 = true ->
    is_ascii e2 = true ->
    lower e1 = lower e2 ->
    Mailchimp.md5_hash md5 e1 = Mailchimp.md5_hash md5 e2 /\
    Mailchimp.md5_hash md5 (lower e1) = Mailchimp.md5_hash md5 e1 /\
    Mailchimp.update_member key md5 list_id e1 status merge_fields vip
    = Mailchimp.update_member key md5 list_id e2 status merge_fields vip /\
    requests upstream (Mailchimp.delete_member key md5 list_id e1)
    = requests upstream (Mailchimp.delete_member key md5 list_id e2) /\
    requests upstream
      (Mailchimp.add_tags_to_member key md5 list_id e1 tags is_syncing)
    = requests upstream
        (Mailchimp.add_tags_to_member key md5 list_id e2 tags is_syncing).
Proof.
  intros key md5 upstream list_id e1 e2 status merge_fields vip tags
         is_syncing _ _ Hlow.
  assert (Hhash : Mailchimp.md5_hash md5 e1 = Mailchimp.md5_hash md5 e2)
    by (unfold Mailchimp.md5_hash; now rewrite Hlow).
  split; [exact Hhash|]. split.
  { unfold Mailchimp.md5_hash. now rewrite lower_idempotent. }
  split.
  { unfold Mailchimp.update_member. now rewrite Hhash. }
  unfold Mailchimp.delete_member, Mailchimp.add_tags_to_member.
  rewrite Hhash.
  destruct (Mailchimp.get_base_url key) as [e|base]; [split; reflexivity|].
  split; tool_requests; rewrite ?requests_ret; reflexivity.
Qed.

Lemma member_address_ignores_case_witness :
  let upstream := fun _ : Request => inr (mkResponse 204 None) in
  lower "Ada@Example.COM" = lower "ada@example.com" /\
  requests upstream
    (Mailchimp.delete_member (Some "k-us1") (fun s => s) "l1"
       "Ada@Example.COM")
  = requests upstream
      (Mailchimp.delete_member (Some "k-us1") (fun s => s) "l1"
         "ada@example.com").
Proof.
  intros upstream. split; [reflexivity|].
  exact (proj1 (proj2 (proj2 (proj2
           (member_address_ignores_case (Some "k-us1") (fun s => s) upstream
              "l1" "Ada@Example.COM" "ada@example.com" None None None []
              None eq_refl eq_refl eq_refl))))).
Defined.

(** X13: [send_campaign] schedules exactly when it says so.  With a usable
    key and a success status, the one request goes to [actions/schedule]
    with the time as its body when [schedule_time] is supplied and not
    empty, and to [actions/send] without a body otherwise; the result's
    [scheduled] flag is true in the first case and false in the second, and
    the body of the response is not read. *)
Theorem send_campaign_flag_matches_endpoint :
  forall key upstream campaign_id schedule_time base resp,
    Mailchimp.get_base_url key = inr base ->
    (forall req, upstream req = inr resp) ->
    is_success resp = true ->
    exists req result,
      run upstream (Mailchimp.send_campaign key campaign_id schedule_time)
      = ([req], inr (VDict result)) /\
      req_method req = POST /\
      dict_get "scheduled" result = Some (VBool (truthy schedule_time)) /\
      dict_get "campaign_id" result = Some (VStr campaign_id) /\
      (truthy schedule_time = true ->
       req_url req
       = base ++ "/campaigns/" ++ campaign_id ++ "/actions/schedule" /\
       req_json req = Some (VDict [("schedule_time", to_value schedule_time)]))
      /\
      (truthy schedule_time = false ->
       req_url req = base ++ "/campaigns/" ++ campaign_id ++ "/actions/send" /\
       req_json req = None).
Proof.
  intros key upstream campaign_id schedule_time base resp Hbase Hup Hok.
  unfold Mailchimp.send_campaign. rewrite Hbase.
  destruct (truthy schedule_time) eqn:Ht;
    (do 2 eexists; split;
     [ tool_run_with Hup Hok Hok; reflexivity
     | repeat split; try reflexivity; discriminate ]).
Qed.

Lemma send_campaign_flag_matches_endpoint_witness :
  let resp := mkResponse 204 None in
  let upstream := fun _ : Request => @inr exn Response resp in
  exists req result,
    run upstream
      (Mailchimp.send_campaign (Some "k-us1") "c1" (Some ""))
    = ([req], inr (VDict result)) /\
    dict_get "scheduled" result = Some (VBool false) /\
    req_url req = "https://us1.api.mailchimp.com/3.0/campaigns/c1/actions/send".
Proof.
  intros resp upstream.
  destruct (send_campaign_flag_matches_endpoint (Some "k-us1")
              upstream "c1" (Some "") _ resp eq_refl (fun _ => eq_refl)
              eq_refl) as (req & result & Hrun & _ & Hs & _ & _ & Hsend).
  exists req, result. split; [exact Hrun|]. split; [exact Hs|].
  exact (proj1 (Hsend eq_refl)).
Defined.

(** X14: [add_tags_to_member] reports as many tags as it sends.  With a
    usable key and a success status the one request carries one object
    [{"name": tag, "status": "active"}] for each tag given, in the order
    given, and the result's [tags_added] is their number. *)
Theorem add_tags_count_matches_sent :
  forall key md5 upstream list_id email tags is_syncing base resp,
    Mailchimp.get_base_url key = inr base ->
    (forall req, upstream req = inr resp) ->
    is_success resp = true ->
    exists req payload sent result,
      run upstream
        (Mailchimp.add_tags_to_member key md5 list_id email tags is_syncing)
      = ([req], inr (VDict result)) /\
      req_json req = Some (VDict payload) /\
      dict_get "tags" payload = Some (VList sent) /\
      sent = map (fun tag => VDict [("name", VStr tag);
                                    ("status", VStr "active")]) tags /\
      dict_get "tags_added" result
      = Some (VInt (Z.of_nat (List.length sent))).
Proof.
  intros key md5 upstream list_id email tags is_syncing base resp
         Hbase Hup Hok.
  unfold Mailchimp.add_tags_to_member. rewrite Hbase.
  do 4 eexists. split; [tool_run_with Hup Hok Hok; reflexivity|].
  split; [reflexivity|]. split; [reflexivity|]. split; [reflexivity|].
  cbn [dict_get String.eqb Ascii.eqb Bool.eqb]. now rewrite length_map.
Qed.

Lemma add_tags_count_matches_sent_witness :
  let resp := mkResponse 204 None in
  let upstream := fun _ : Request => @inr exn Response resp in
  exists req payload sent result,
    run upstream
      (Mailchimp.add_tags_to_member (Some "k-us1") (fun s => s) "l1" "a@b.c"
         ["vip"; "beta"] None)
    = ([req], inr (VDict result)) /\
    req_json req = Some (VDict payload) /\
    dict_get "tags" payload = Some (VList sent) /\
    List.length sent = 2 /\
    dict_get "tags_added" result = Some (VInt 2).
Proof.
  intros resp upstream.
  destruct (add_tags_count_matches_sent (Some "k-us1") (fun s => s) upstream
              "l1" "a@b.c" ["vip"; "beta"] None _ resp eq_refl
              (fun _ => eq_refl) eq_refl)
    as (req & payload & sent & result & H1 & H2 & H3 & H4 & H5).
  exists req, payload, sent, result.
  split; [exact H1|]. split; [exact H2|]. split; [exact H3|].
  subst sent. split; [reflexivity | exact H5].
Defined.

(** X15: the data center is what follows the last ['-'] of the key.  For
    a key [pre-dc] where [dc] holds no ['-'], whatever [pre] holds,
    [get_base_url] returns [https://dc.api.mailchimp.com/3.0]; a key that
    ends with ['-'] is accepted and gives a host with an empty data
    center. *)
Theorem base_url_uses_last_segment :
  forall pre dc,
    ~ has_char "-" dc ->
    Mailchimp.get_base_url (Some (pre ++ String "-" dc))
    = inr ("https://" ++ dc ++ ".api.mailchimp.com/3.0") /\
    Mailchimp.get_base_url (Some (pre ++ "-"))
    = inr "https://.api.mailchimp.com/3.0".
Proof.
  intros pre dc Hdc. split; [now apply get_base_url_trailing|].
  apply (get_base_url_trailing pre ""). intros [].
Qed.

Lemma base_url_uses_last_segment_witness :
  ~ has_char "-" "us21" /\
  Mailchimp.get_base_url (Some "a1-b2-us21")
  = inr "https://us21.api.mailchimp.com/3.0".
Proof.
  assert (H : ~ has_char "-" "us21")
    by (unfold has_char; simpl; intuition discriminate).
  split; [exact H|].
  exact (proj1 (base_url_uses_last_segment "a1-b2" "us21" H)).
Defined.

(** ** AbstractAPI: time zones, currencies, IP tools *)

(** X16: [get_timezone] sends a location or a pair of coordinates, never
    both, and the location wins.  With both coordinates supplied the tool
    issues one request: its parameters are the key and [location] when
    [location] is supplied and not empty, and the key, [latitude] and
    [longitude] otherwise, for every pair of coordinates, zero included. *)
Theorem get_timezone_location_or_coordinates :
  forall key upstream location latitude longitude,
    requests upstream
      (AbstractApi.get_timezone key location (Some latitude) (Some longitude))
    = [mkRequest GET "https://timezone.abstractapi.com/v1/current_time/" None
         (Some (if truthy location then
                  [("api_key", to_value key); ("location", to_value location)]
                else
                  [("api_key", to_value key); ("latitude", VFloat latitude);
                   ("longitude", VFloat longitude)]))
         None None].
Proof.
  intros key upstream location latitude longitude.
  unfold AbstractApi.get_timezone.
  destruct (truthy location); cbn [is_not_None andb];
    tool_requests; reflexivity.
Qed.

(** X17: [convert_currency] asks the historical endpoint exactly when it
    sends a date, and never sends the amount.  The tool always issues one
    request; with a [date] that is supplied and not empty it goes to
    [historical/] and carries the date, otherwise it goes to [live/] and
    carries none; the parameters never hold the amount, which is only used
    on the answer. *)
Theorem convert_currency_endpoint_follows_date :
  forall key upstream base target amount date,
    exists req params,
      requests upstream
        (AbstractApi.convert_currency key base target amount date) = [req] /\
      req_params req = Some params /\
      dict_in "amount" params = false /\
      dict_get "base" params = Some (VStr base) /\
      dict_get "target" params = Some (VStr target) /\
      (if truthy date then
         req_url req = "https://exchange-rates.abstractapi.com/v1/historical/"
         /\ dict_get "date" params = Some (to_value date)
       else
         req_url req = "https://exchange-rates.abstractapi.com/v1/live/"
         /\ dict_in "date" params = false).
Proof.
  intros key upstream base target amount date.
  unfold AbstractApi.convert_currency.
  destruct (truthy date); cbn [negb when];
    (do 2 eexists; split; [tool_requests; reflexivity|];
     repeat split; reflexivity).
Qed.

(** X18: a rate that is not a number makes [convert_currency] fail after the
    request.  When the upstream answers with a success status and a rate
    table that holds the target, but the rate is [null], a string, a list or
    an object, the tool has issued its one request and ends with
    [TypeError]; nothing is returned. *)
Theorem convert_currency_rejects_non_numeric_rate :
  forall key upstream base target amount date resp (d rates : dict value) rate,
    (forall req, upstream req = inr resp) ->
    is_success resp = true ->
    body resp = Some (VDict d) ->
    dict_get "exchange_rates" d = Some (VDict rates) ->
    dict_get target rates = Some rate ->
    is_number rate = false ->
    exists req,
      run upstream (AbstractApi.convert_currency key base target amount date)
      = ([req], inl TypeError).
Proof.
  intros key upstream base target amount date resp d rates rate
         Hup Hok Hbody Hd Hr Hrate.
  unfold AbstractApi.convert_currency. eexists.
  tool_run_with Hup Hok Hbody.
  unfold AbstractApi.attach_converted_amount.
  cbn [str_in subscript]. unfold dict_in, dict_item. rewrite Hd.
  cbn [str_in subscript]. unfold dict_in, dict_item. rewrite Hr.
  destruct rate; try discriminate; reflexivity.
Qed.

Lemma convert_currency_rejects_non_numeric_rate_witness :
  let rates := [("EUR", VNone)] in
  let d := [("base", VStr "USD"); ("exchange_rates", VDict rates)] in
  let resp := mkResponse 200 (Some (VDict d)) in
  let upstream := fun _ : Request => @inr exn Response resp in
  exists req,
    run upstream
      (AbstractApi.convert_currency (Some "k") "USD" "EUR" 100%float None)
    = ([req], inl TypeError).
Proof.
  intros rates d resp upstream.
  exact (convert_currency_rejects_non_numeric_rate (Some "k") upstream "USD"
           "EUR" 100%float None resp d rates VNone (fun _ => eq_refl) eq_refl
           eq_refl eq_refl eq_refl eq_refl).
Defined.

(** X19: three IP tools are one request, and converting without a date
    asks what [get_exchange_rates] asks.  [get_ip_info] is [geolocate_ip]
    without [fields], [check_vpn] is [geolocate_ip] with [fields] set to
    ["security"], and [convert_currency] without a date issues the request
    of [get_exchange_rates] for the same base and (non-empty) target. *)
Theorem ip_and_rate_tools_coincide :
  forall key upstream ip_address base target amount,
    truthy target = true ->
    AbstractApi.get_ip_info key ip_address
    = AbstractApi.geolocate_ip key ip_address None /\
    AbstractApi.check_vpn key ip_address
    = AbstractApi.geolocate_ip key ip_address (Some "security") /\
    requests upstream
      (AbstractApi.convert_currency key base target amount None)
    = requests upstream
        (AbstractApi.get_exchange_rates key (Some base) (Some target)).
Proof.
  intros key upstream ip_address base target amount Ht.
  split; [reflexivity|]. split; [reflexivity|].
  unfold AbstractApi.convert_currency, AbstractApi.get_exchange_rates.
  cbn [truthy truthy_option negb when default]. rewrite Ht.
  cbn [when]. tool_requests; reflexivity.
Qed.

Lemma ip_and_rate_tools_coincide_witness :
  let upstream := fun _ : Request => inr (mkResponse 200 (Some (VDict []))) in
  truthy "EUR" = true /\
  requests upstream
    (AbstractApi.convert_currency (Some "k") "USD" "EUR" 5%float None)
  = requests upstream
      (AbstractApi.get_exchange_rates (Some "k") (Some "USD") (Some "EUR")).
Proof.
  intros upstream. split; [reflexivity|].
  exact (proj2 (proj2 (ip_and_rate_tools_coincide (Some "k") upstream
                         "1.1.1.1" "USD" "EUR" 5%float eq_refl))).
Defined.

(** ** Claude: requests, malformed answers, conversations, comparisons *)

Section ClaudeTools.
Variable key : option string.
Variable upstream : Request -> exn + Response.

Lemma run_claude_post {A} endpoint data (k : value -> Prog A) :
  run upstream (bind (Claude.make_claude_request key "POST" endpoint data) k) =
  match upstream (claude_post key endpoint data) with
  | inl e => ([claude_post key endpoint data], inl e)
  | inr resp =>
      let (rs, out) :=
        (if is_success resp then
           match body resp with
           | Some v => run upstream (k v)
           | None => ([], inl JSONDecodeError)
           end
         else ([], inl (HTTPStatusError (status_code resp) (body resp)))) in
      (claude_post key endpoint data :: rs, out)
  end.
Proof.
  unfold Claude.make_claude_request, claude_post.
  cbn [String.eqb Ascii.eqb Bool.eqb].
  tool_run. destruct (upstream _) as [e|resp]; [reflexivity|].
  tool_run. destruct (is_success resp); [|reflexivity].
  tool_run. reflexivity.
Qed.

Lemma collect_text_dict b text_content :
  Claude.collect_text (VDict b) text_content =
  inr (if is_text_block b then
         (text_content ++ [dict_get_default "text" (VStr "") b])%list
       else text_content).
Proof.
  unfold Claude.collect_text, is_text_block. cbn [get].
  unfold dict_get_default.
  destruct (dict_get "type" b) as [[| | | |t| |]|]; cbn [eq_str];
    try reflexivity.
  now destruct (String.eqb t "text").
Qed.

Lemma for_each_collect_dicts bs text_content :
  for_each Claude.collect_text (map VDict bs) text_content =
  inr (text_content
         ++ map (dict_get_default "text" (VStr "")) (filter is_text_block bs)
      )%list.
Proof.
  revert text_content. induction bs as [|b bs IH]; intros text_content.
  - cbn. now rewrite app_nil_r.
  - cbn [map for_each filter]. rewrite collect_text_dict, IH.
    destruct (is_text_block b); [|reflexivity].
    cbn [map]. now rewrite <- app_assoc.
Qed.

Lemma for_each_collect_non_dict blocks text_content :
  (exists b, In b blocks /\ is_dict b = false) ->
  for_each Claude.collect_text blocks text_content = inl AttributeError.
Proof.
  revert text_content.
  induction blocks as [|b blocks IH]; intros text_content (bad & Hin & Hbad);
    [destruct Hin|].
  cbn [for_each]. destruct b as [| | | | | |d];
    try reflexivity.
  rewrite collect_text_dict. apply IH.
  destruct Hin as [<-|Hin]; [discriminate|]. eauto.
Qed.

Lemma str_items_non_str items :
  (exists v, In v items /\ is_str v = false) ->
  str_items items = inl TypeError.
Proof.
  induction items as [|v items IH]; intros (bad & Hin & Hbad);
    [destruct Hin|].
  destruct v; try reflexivity. cbn [str_items].
  rewrite IH; [reflexivity|].
  destruct Hin as [<-|Hin]; [discriminate|]. eauto.
Qed.

End ClaudeTools.

(** X20: [make_claude_request] knows two methods, spelled in capitals.
    For a method that is neither ["GET"] nor ["POST"] it raises
    [ValueError] naming the method and sends nothing; a ["GET"] request
    never carries the data it was given. *)
Theorem make_claude_request_methods :
  forall key upstream method endpoint data,
    method <> "GET" ->
    method <> "POST" ->
    run upstream (Claude.make_claude_request key method endpoint data)
    = ([], inl (ValueError ("Unsupported HTTP method: " ++ method))) /\
    (forall req,
        In req (requests upstream
                  (Claude.make_claude_request key "GET" endpoint data)) ->
        req_method req = GET /\ req_json req = None).
Proof.
  intros key upstream method endpoint data Hget Hpost. split.
  - unfold Claude.make_claude_request.
    apply String.eqb_neq in Hget, Hpost. now rewrite Hget, Hpost.
  - intros req. unfold Claude.make_claude_request.
    cbn [String.eqb Ascii.eqb Bool.eqb]. tool_member.
    all: split; reflexivity.
Qed.

Lemma make_claude_request_methods_witness :
  let upstream := fun _ : Request => inr (mkResponse 200 (Some (VDict []))) in
  "post" <> "GET" /\ "post" <> "POST" /\
  run upstream (Claude.make_claude_request (Some "k") "post" "messages" None)
  = ([], inl (ValueError "Unsupported HTTP method: post")).
Proof.
  intros upstream.
  assert (H1 : "post" <> "GET") by discriminate.
  assert (H2 : "post" <> "POST") by discriminate.
  split; [exact H1|]. split; [exact H2|].
  exact (proj1 (make_claude_request_methods (Some "k") upstream "post"
                  "messages" None H1 H2)).
Defined.

(** X21: what [chat] does with an answer that has no text or is malformed,
    against an upstream that answers with a success status and a JSON
    object.  Without [content], or with an empty list, it returns the empty
    string.  When some block of [content] is not an object it raises
    [AttributeError]; when the blocks are objects but a text block holds a
    [text] that is not a string it raises [TypeError]. *)
Theorem chat_on_empty_or_malformed_content :
  forall key upstream prompt model max_tokens system temperature resp
         (d : dict value),
    (forall req, upstream req = inr resp) ->
    is_success resp = true ->
    body resp = Some (VDict d) ->
    let answer :=
      outcome upstream
        (Claude.chat key prompt model max_tokens system temperature) in
    (dict_get "content" d = None \/ dict_get "content" d = Some (VList []) ->
     answer = inr "") /\
    (forall blocks,
        dict_get "content" d = Some (VList blocks) ->
        (exists b, In b blocks /\ is_dict b = false) ->
        answer = inl AttributeError) /\
    (forall blocks,
        dict_get "content" d = Some (VList (map VDict blocks)) ->
        (exists b, In b blocks /\ is_text_block b = true /\
                   is_str (dict_get_default "text" (VStr "") b) = false) ->
        answer = inl TypeError).
Proof.
  intros key upstream prompt model max_tokens system temperature resp d
         Hup Hok Hbody. cbv zeta.
  rewrite (chat_outcome key upstream prompt model max_tokens system
             temperature resp _ Hup Hok Hbody).
  unfold Claude.extract_text. cbn [get]. unfold dict_get_default.
  split; [|split].
  - intros [->| ->]; reflexivity.
  - intros blocks -> Hbad. cbn [iterate].
    now rewrite for_each_collect_non_dict.
  - intros blocks -> (b & Hin & Htext & Hstr). cbn [iterate].
    rewrite for_each_collect_dicts. cbn [app]. unfold join.
    rewrite str_items_non_str; [reflexivity|].
    exists (dict_get_default "text" (VStr "") b). split; [|exact Hstr].
    apply in_map, filter_In. now split.
Qed.

Lemma chat_on_empty_or_malformed_content_witness :
  let d := [("content", VList [VStr "hello"])] in
  let resp := mkResponse 200 (Some (VDict d)) in
  let upstream := fun _ : Request => @inr exn Response resp in
  outcome upstream (Claude.chat (Some "k") "hi" None None None None)
  = inl AttributeError.
Proof.
  intros d resp upstream.
  apply (proj1 (proj2 (chat_on_empty_or_malformed_content (Some "k") upstream
                         "hi" None None None None resp d (fun _ => eq_refl)
                         eq_refl eq_refl)) [VStr "hello"] eq_refl).
  exists (VStr "hello"). split; [left|]; reflexivity.
Defined.

(** X22: [multi_turn_conversation] extends the history and never rewrites
    it.  Against an upstream that answers with a success status and an
    object whose text is [text], the one request carries the history
    followed by the new user message, and the result holds [text] as
    [response], the same messages followed by the assistant's turn with
    [text] as [updated_history], and the model of the answer, or the model
    asked for when the answer names none. *)
Theorem multi_turn_extends_history :
  forall key upstream history new_message model max_tokens system resp
         (d : dict value) text,
    (forall req, upstream req = inr resp) ->
    is_success resp = true ->
    body resp = Some (VDict d) ->
    Claude.extract_text (VDict d) = inr text ->
    let turn := [("role", VStr "user"); ("content", VStr new_message)] in
    let reply := [("role", VStr "assistant"); ("content", VStr text)] in
    exists req data result,
      run upstream
        (Claude.multi_turn_conversation key history new_message model
                                        max_tokens system)
      = ([req], inr (VDict result)) /\
      req_json req = Some (VDict data) /\
      dict_get "messages" data = Some (VList (map VDict (history ++ [turn])))
      /\
      dict_get "response" result = Some (VStr text) /\
      dict_get "updated_history" result
      = Some (VList (map VDict (history ++ [turn; reply]))) /\
      dict_get "model" result
      = Some (dict_get_default "model"
                (VStr (default "claude-3-5-sonnet-20241022" model)) d).
Proof.
  intros key upstream history new_message model max_tokens system resp d text
         Hup Hok Hbody Htext. cbv zeta.
  unfold Claude.multi_turn_conversation. cbv zeta.
  rewrite run_claude_post, Hup, Hok, Hbody, Htext.
  do 3 eexists. split; [tool_run; reflexivity|].
  split; [reflexivity|]. split; [|split; [reflexivity|split]].
  - rewrite dict_get_when. reflexivity.
  - cbn [dict_get String.eqb Ascii.eqb Bool.eqb].
    unfold to_value at 1, to_value_list.
    now rewrite <- app_assoc.
  - reflexivity.
Qed.

Lemma multi_turn_extends_history_witness :
  let d := [("content", VList [VDict [("type", VStr "text");
                                      ("text", VStr "Hello!")]])] in
  let resp := mkResponse 200 (Some (VDict d)) in
  let upstream := fun _ : Request => @inr exn Response resp in
  let history := [[("role", VStr "user"); ("content", VStr "Hi")]] in
  exists req data result,
    run upstream
      (Claude.multi_turn_conversation (Some "k") history "And now?" None None
                                      None)
    = ([req], inr (VDict result)) /\
    req_json req = Some (VDict data) /\
    dict_get "updated_history" result
    = Some (VList
              [VDict [("role", VStr "user"); ("content", VStr "Hi")];
               VDict [("role", VStr "user"); ("content", VStr "And now?")];
               VDict [("role", VStr "assistant");
                      ("content", VStr "Hello!")]]) /\
    dict_get "model" result = Some (VStr "claude-3-5-sonnet-20241022").
Proof.
  intros d resp upstream history.
  destruct (multi_turn_extends_history (Some "k") upstream history "And now?"
              None None None resp d "Hello!" (fun _ => eq_refl) eq_refl
              eq_refl eq_refl)
    as (req & data & result & H1 & H2 & _ & _ & H5 & H6).
  exists req, data, result. repeat split; assumption.
Defined.

(** X23: [count_tokens] does make a request, for one token.  Against an
    upstream that answers with a success status and an object, the tool
    issues one POST to [https://api.anthropic.com/v1/messages], the endpoint
    that generates an answer, whose body names the model and the messages
    and has [max_tokens] 1, and returns the [input_tokens] and
    [output_tokens] of the answer's [usage], each 0 when it is missing, also
    when there is no [usage] at all; a [usage] that is not an object makes
    it raise [AttributeError]. *)
Theorem count_tokens_spends_one_token :
  forall key upstream messages model system resp (d : dict value),
    (forall req, upstream req = inr resp) ->
    is_success resp = true ->
    body resp = Some (VDict d) ->
    exists req data,
      requests upstream (Claude.count_tokens key messages model system)
      = [req] /\
      req_method req = POST /\
      req_url req = "https://api.anthropic.com/v1/messages" /\
      req_json req = Some (VDict data) /\
      dict_get "max_tokens" data = Some (VInt 1) /\
      dict_get "model" data
      = Some (VStr (default "claude-3-5-sonnet-20241022" model)) /\
      dict_get "messages" data = Some (VList (map VDict messages)) /\
      (forall usage,
          dict_get_default "usage" (VDict []) d = VDict usage ->
          outcome upstream (Claude.count_tokens key messages model system)
          = inr (VDict
                   [("input_tokens",
                     dict_get_default "input_tokens" (VInt 0) usage);
                    ("output_tokens",
                     dict_get_default "output_tokens" (VInt 0) usage)])) /\
      (is_dict (dict_get_default "usage" (VDict []) d) = false ->
       outcome upstream (Claude.count_tokens key messages model system)
       = inl AttributeError).
Proof.
  intros key upstream messages model system resp d Hup Hok Hbody.
  unfold requests, outcome, Claude.count_tokens. cbv zeta.
  rewrite run_claude_post, Hup, Hok, Hbody. cbn [get].
  do 2 eexists.
  split.
  { destruct (dict_get_default "usage" (VDict []) d); reflexivity. }
  split; [reflexivity|]. split; [reflexivity|]. split; [reflexivity|].
  rewrite !dict_get_when.
  do 3 (split; [reflexivity|]).
  split.
  - intros usage ->. reflexivity.
  - destruct (dict_get_default "usage" (VDict []) d); try reflexivity.
    discriminate.
Qed.

Lemma count_tokens_spends_one_token_witness :
  let d := [("id", VStr "msg_1")] in
  let resp := mkResponse 200 (Some (VDict d)) in
  let upstream := fun _ : Request => @inr exn Response resp in
  exists req data,
    requests upstream (Claude.count_tokens (Some "k") [] None None) = [req] /\
    req_url req = "https://api.anthropic.com/v1/messages" /\
    req_json req = Some (VDict data) /\
    dict_get "max_tokens" data = Some (VInt 1) /\
    outcome upstream (Claude.count_tokens (Some "k") [] None None)
    = inr (VDict [("input_tokens", VInt 0); ("output_tokens", VInt 0)]).
Proof.
  intros d resp upstream.
  destruct (count_tokens_spends_one_token (Some "k") upstream [] None None
              resp d (fun _ => eq_refl) eq_refl eq_refl)
    as (req & data & H1 & _ & Hurl & H3 & H4 & _ & _ & H5 & _).
  exists req, data.
  split; [exact H1|]. split; [exact Hurl|]. split; [exact H3|].
  split; [exact H4|].
  exact (H5 [] eq_refl).
Defined.

(** X24: [get_model_info] answers for every model id and asks nobody.  It
    issues no request and returns an object that names the id as
    [model_id] and has a [name], a [context_window], a [supports_vision]
    and a [description]; for an id that is not in its table the name is the
    id itself and the window is ["unknown"]. *)
Theorem get_model_info_total :
  forall upstream model,
    let m := default "claude-3-5-sonnet-20241022" model in
    exists info,
      run upstream (Claude.get_model_info model) = ([], inr (VDict info)) /\
      dict_get "model_id" info = Some (VStr m) /\
      dict_in "name" info = true /\
      dict_in "context_window" info = true /\
      dict_in "supports_vision" info = true /\
      dict_in "description" info = true /\
      (dict_in m Claude.model_info = false ->
       dict_get "name" info = Some (VStr m) /\
       dict_get "context_window" info = Some (VStr "unknown")).
Proof.
  intros upstream model. cbv zeta. eexists. split; [reflexivity|].
  generalize (default "claude-3-5-sonnet-20241022" model) as m. intros m.
  unfold dict_in, dict_get_default, Claude.model_info.
  cbn [dict_get].
  repeat match goal with
         | |- context [String.eqb ?a m] => destruct (String.eqb a m)
         end;
    repeat split; try reflexivity; discriminate.
Qed.

(** *** Comparing models *)

Section CompareResponses.
Variable key : option string.
Variable upstream : Request -> exn + Response.
Variables (messages : value) (max_tokens : Z) (system : option string).

Lemma requested_model_comparison model :
  requested_model (comparison_request key messages max_tokens system model)
  = Some (VStr model).
Proof.
  unfold requested_model, comparison_request, claude_post. cbn [req_json].
  rewrite dict_get_when. reflexivity.
Qed.

Lemma compare_loop_step_ok model models results resp (d : dict value) text :
  upstream (comparison_request key messages max_tokens system model)
  = inr resp ->
  is_success resp = true ->
  body resp = Some (VDict d) ->
  Claude.extract_text (VDict d) = inr text ->
  run upstream
    (Claude.compare_loop key messages max_tokens system (model :: models)
                         results)
  = let (rs, out) :=
      run upstream
        (Claude.compare_loop key messages max_tokens system models
           (dict_set model (comparison_entry d text) results)) in
    (comparison_request key messages max_tokens system model :: rs, out).
Proof.
  intros Hup Hok Hbody Htext. cbn [Claude.compare_loop].
  rewrite run_claude_post.
  match goal with
  | |- context [upstream ?r] =>
      change r with (comparison_request key messages max_tokens system model)
  end.
  rewrite Hup, Hok, Hbody, Htext. reflexivity.
Qed.

Lemma compare_loop_step_bad model models results resp :
  upstream (comparison_request key messages max_tokens system model)
  = inr resp ->
  is_success resp = false ->
  run upstream
    (Claude.compare_loop key messages max_tokens system (model :: models)
                         results)
  = ([comparison_request key messages max_tokens system model],
     inl (HTTPStatusError (status_code resp) (body resp))).
Proof.
  intros Hup Hbad. cbn [Claude.compare_loop].
  rewrite run_claude_post.
  match goal with
  | |- context [upstream ?r] =>
      change r with (comparison_request key messages max_tokens system model)
  end.
  now rewrite Hup, Hbad.
Qed.

Lemma compare_loop_all_ok models results resp (d : dict value) text :
  (forall req, upstream req = inr resp) ->
  is_success resp = true ->
  body resp = Some (VDict d) ->
  Claude.extract_text (VDict d) = inr text ->
  run upstream
    (Claude.compare_loop key messages max_tokens system models results)
  = (map (comparison_request key messages max_tokens system) models,
     inr (fold_left (fun res m => dict_set m (comparison_entry d text) res)
                    models results)).
Proof.
  intros Hup Hok Hbody Htext. revert results.
  induction models as [|m models IH]; intros results; [reflexivity|].
  rewrite (compare_loop_step_ok m models results resp d text (Hup _) Hok
             Hbody Htext), IH.
  reflexivity.
Qed.

Lemma fold_set_keeps (entry : value) models (results : dict value) m :
  dict_get m results = Some entry ->
  dict_get m (fold_left (fun res m' => dict_set m' entry res) models results)
  = Some entry.
Proof.
  revert results. induction models as [|m' models IH]; intros results H;
    [exact H|].
  cbn [fold_left]. apply IH. rewrite dict_get_set.
  now destruct (String.eqb m' m).
Qed.

Lemma fold_set_member (entry : value) models (results : dict value) m :
  In m models ->
  dict_get m (fold_left (fun res m' => dict_set m' entry res) models results)
  = Some entry.
Proof.
  revert results. induction models as [|m' models IH]; intros results Hin;
    [destruct Hin|].
  cbn [fold_left]. destruct Hin as [->|Hin]; [|now apply IH].
  apply fold_set_keeps, dict_get_set_same.
Qed.

End CompareResponses.

(** X25: [compare_responses] asks each model once, in order, and at most
    three.  With more than three models it raises [ValueError] and sends
    nothing.  With at most three, against an upstream that answers every
    request with a success status and an object whose text is [text], it
    issues one request per model, in the order given, and returns an object
    that holds, for every model given, its response, usage and stop
    reason. *)
Theorem compare_responses_asks_each_model :
  forall key upstream prompt models max_tokens system resp (d : dict value)
         text,
    (forall req, upstream req = inr resp) ->
    is_success resp = true ->
    body resp = Some (VDict d) ->
    Claude.extract_text (VDict d) = inr text ->
    (3 < List.length models ->
     run upstream
       (Claude.compare_responses key prompt (Some models) max_tokens system)
     = ([], inl (ValueError "Maximum 3 models allowed for comparison"))) /\
    (List.length models <= 3 ->
     exists reqs results,
       run upstream
         (Claude.compare_responses key prompt (Some models) max_tokens system)
       = (reqs, inr (VDict results)) /\
       map requested_model reqs = map (fun m => Some (VStr m)) models /\
       (forall m, In m models ->
                  dict_get m results = Some (comparison_entry d text))).
Proof.
  intros key upstream prompt models max_tokens system resp d text
         Hup Hok Hbody Htext.
  unfold Claude.compare_responses. cbn [default]. split.
  - intros Hlen. apply Nat.ltb_lt in Hlen. now rewrite Hlen.
  - intros Hlen. apply Nat.ltb_ge in Hlen. rewrite Hlen.
    rewrite run_bind,
      (compare_loop_all_ok key upstream _ _ system models [] resp d text
         Hup Hok Hbody Htext).
    cbn [run]. do 2 eexists. split; [rewrite app_nil_r; reflexivity|].
    split.
    + rewrite map_map. apply map_ext. intros m.
      apply requested_model_comparison.
    + intros m Hin. now apply fold_set_member.
Qed.

Lemma compare_responses_asks_each_model_witness :
  let d := [("content", VList [VDict [("type", VStr "text");
                                      ("text", VStr "4")]]);
            ("stop_reason", VStr "end_turn")] in
  let resp := mkResponse 200 (Some (VDict d)) in
  let upstream := fun _ : Request => @inr exn Response resp in
  (run upstream
     (Claude.compare_responses (Some "k") "2+2?" (Some ["a"; "b"; "c"; "d"])
                               None None)
   = ([], inl (ValueError "Maximum 3 models allowed for comparison"))) /\
  (exists reqs results,
      run upstream
        (Claude.compare_responses (Some "k") "2+2?" (Some ["a"; "b"]) None
                                  None)
      = (reqs, inr (VDict results)) /\
      map requested_model reqs = [Some (VStr "a"); Some (VStr "b")] /\
      dict_get "b" results = Some (comparison_entry d "4")).
Proof.
  intros d resp upstream. split.
  - apply (proj1 (compare_responses_asks_each_model (Some "k") upstream "2+2?"
                    ["a"; "b"; "c"; "d"] None None resp d "4"
                    (fun _ => eq_refl) eq_refl eq_refl eq_refl)).
    cbn. lia.
  - destruct (proj2 (compare_responses_asks_each_model (Some "k") upstream
                       "2+2?" ["a"; "b"] None None resp d "4"
                       (fun _ => eq_refl) eq_refl eq_refl eq_refl))
      as (reqs & results & H1 & H2 & H3); [cbn; lia|].
    exists reqs, results. split; [exact H1|]. split; [exact H2|].
    apply H3. right. left. reflexivity.
Defined.

(** X26: a failure for one model discards the answers before it.  When
    the upstream answers the first model with a success and the second with
    a status outside 2xx, [compare_responses] has issued the two requests,
    ends with the [HTTPStatusError] of the second, returns nothing of the
    first answer, and does not ask the models after. *)
Theorem compare_responses_failure_discards_answers :
  forall key upstream prompt m1 m2 rest max_tokens system ok bad
         (d : dict value) text,
    (forall req, requested_model req = Some (VStr m1) ->
                 upstream req = inr ok) ->
    (forall req, requested_model req = Some (VStr m2) ->
                 upstream req = inr bad) ->
    is_success ok = true ->
    body ok = Some (VDict d) ->
    Claude.extract_text (VDict d) = inr text ->
    is_success bad = false ->
    List.length rest <= 1 ->
    exists r1 r2,
      run upstream
        (Claude.compare_responses key prompt (Some (m1 :: m2 :: rest))
                                  max_tokens system)
      = ([r1; r2], inl (HTTPStatusError (status_code bad) (body bad))) /\
      requested_model r1 = Some (VStr m1) /\
      requested_model r2 = Some (VStr m2).
Proof.
  intros key upstream prompt m1 m2 rest max_tokens system ok bad d text
         Hok_up Hbad_up Hok Hbody Htext Hbad Hlen.
  unfold Claude.compare_responses. cbn [default].
  assert (Hlt : Nat.ltb 3 (List.length (m1 :: m2 :: rest)) = false)
    by (apply Nat.ltb_ge; cbn [List.length]; lia).
  rewrite Hlt, run_bind.
  rewrite (compare_loop_step_ok key upstream _ _ system m1 (m2 :: rest) []
             ok d text
             (Hok_up _ (requested_model_comparison key _ _ system m1))
             Hok Hbody Htext).
  rewrite (compare_loop_step_bad key upstream _ _ system m2 rest _ bad
             (Hbad_up _ (requested_model_comparison key _ _ system m2)) Hbad).
  do 2 eexists. split; [reflexivity|].
  split; apply requested_model_comparison.
Qed.

Lemma compare_responses_failure_discards_answers_witness :
  let d := [("content", VList [VDict [("type", VStr "text");
                                      ("text", VStr "4")]])] in
  let ok := mkResponse 200 (Some (VDict d)) in
  let bad := mkResponse 529 None in
  let upstream := fun req : Request =>
    match requested_model req with
    | Some (VStr "a") => @inr exn Response ok
    | _ => inr bad
    end in
  exists r1 r2,
    run upstream
      (Claude.compare_responses (Some "k") "2+2?" (Some ["a"; "b"; "c"]) None
                                None)
    = ([r1; r2], inl (HTTPStatusError 529 None)) /\
    requested_model r1 = Some (VStr "a") /\
    requested_model r2 = Some (VStr "b").
Proof.
  intros d ok bad upstream.
  apply (compare_responses_failure_discards_answers (Some "k") upstream "2+2?"
           "a" "b" ["c"] None None ok bad d "4").
  - intros req H. unfold upstream. now rewrite H.
  - intros req H. unfold upstream. now rewrite H.
  - reflexivity.
  - reflexivity.
  - reflexivity.
  - reflexivity.
  - cbn. lia.
Defined.

(** ** ClickUp: lists and tasks *)

(** X27: [list_lists] prefers the folder, and sends [archived] in lower
    case.  The tool issues one request whenever [folder_id] or [space_id] is
    supplied and not empty: to the lists of the folder when [folder_id] is,
    whatever [space_id] is, and to the lists of the space otherwise; its
    only parameter is [archived], the string ["true"] or ["false"], and
    ["false"] when it is not supplied. *)
Theorem list_lists_prefers_folder :
  forall token upstream folder_id space_id archived,
    truthy folder_id || truthy space_id = true ->
    requests upstream (ClickUp.list_lists token folder_id space_id archived)
    = [mkRequest GET
         (if truthy folder_id then
            "https://api.clickup.com/api/v2/folder/" ++ str folder_id
                                                     ++ "/list"
          else
            "https://api.clickup.com/api/v2/space/" ++ str space_id
                                                    ++ "/list")
         (Some (ClickUp.get_headers token))
         (Some [("archived",
                 VStr (match archived with
                       | Some true => "true"
                       | _ => "false"
                       end))])
         None None].
Proof.
  intros token upstream folder_id space_id archived H.
  unfold ClickUp.list_lists.
  destruct (truthy folder_id); [|cbn [orb] in H; rewrite H];
    destruct archived as [[|]|]; tool_requests; reflexivity.
Qed.

Lemma list_lists_prefers_folder_witness :
  let upstream := fun _ : Request => inr (mkResponse 200 (Some (VDict []))) in
  truthy (Some "f1") || truthy (Some "s1") = true /\
  requests upstream
    (ClickUp.list_lists (Some "tok") (Some "f1") (Some "s1") (Some true))
  = [mkRequest GET "https://api.clickup.com/api/v2/folder/f1/list"
       (Some (ClickUp.get_headers (Some "tok")))
       (Some [("archived", VStr "true")]) None None].
Proof.
  intros upstream. split; [reflexivity|].
  exact (list_lists_prefers_folder (Some "tok") upstream (Some "f1")
           (Some "s1") (Some true) eq_refl).
Defined.

(** X28: in [create_task] a time flag travels with its date.  The tool
    issues one POST to the task list, and ends as the upstream answers it.
    The body of that request holds [due_date_time] exactly when it holds
    [due_date], that is when [due_date] is supplied and not 0, and likewise
    [start_date_time] with [start_date]; a flag given without its date is
    dropped, and a flag not given is sent as false with its date.  [name]
    and [notify_all] (true by default) are always sent. *)
Theorem create_task_time_flags_follow_dates :
  forall token upstream list_id name description assignees tags status
         priority due_date due_date_time time_estimate start_date
         start_date_time notify_all parent custom_fields,
    exists req payload,
      run upstream
        (ClickUp.create_task token list_id name description assignees tags
           status priority due_date due_date_time time_estimate start_date
           start_date_time notify_all parent custom_fields)
      = ([req], answer_json (upstream req)) /\
      req_method req = POST /\
      req_url req = ClickUp.BASE_URL ++ "/list/" ++ list_id ++ "/task" /\
      req_json req = Some (VDict payload) /\
      dict_in "due_date" payload = truthy due_date /\
      dict_in "due_date_time" payload = truthy due_date /\
      dict_in "start_date" payload = truthy start_date /\
      dict_in "start_date_time" payload = truthy start_date /\
      (truthy due_date = true ->
       dict_get "due_date" payload = option_map VInt due_date /\
       dict_get "due_date_time" payload
       = Some (VBool (default false due_date_time))) /\
      (truthy start_date = true ->
       dict_get "start_date" payload = option_map VInt start_date /\
       dict_get "start_date_time" payload
       = Some (VBool (default false start_date_time))) /\
      dict_get "name" payload = Some (VStr name) /\
      dict_get "notify_all" payload = Some (VBool (default true notify_all)).
Proof.
  intros. do 2 eexists. unfold ClickUp.create_task. cbv zeta.
  split; [apply run_json_tool|].
  do 3 (split; [reflexivity|]).
  unfold dict_in, ClickUp.create_task_payload.
  cbv zeta.
  repeat match goal with
         | |- context [dict_get ?k (when ?c (dict_set ?k' ?v) ?d)] =>
             rewrite (dict_get_when d k k' v c)
         | |- context [dict_get ?k (when ?c ?f ?d)] =>
             destruct c eqn:?; cbn [when]; rewrite ?dict_get_set
         end.
  all: cbn [String.eqb Ascii.eqb Bool.eqb andb dict_get].
  all: repeat split; try reflexivity; try discriminate.
  all: try (intros _; split; [|reflexivity]).
  all: try match goal with
           | |- _ = option_map VInt ?o => now destruct o
           end.
Qed.

(** ** Claude: full and simplified answers, sampling parameters *)

(** X29: the full-response tool returns the answer as it came, the
    simplified ones return its text.  Against an upstream that answers every
    request with a success status and the JSON value [v], [create_message]
    returns [v] itself, and [chat], [analyze_image] and
    [analyze_image_base64] all return what the text extraction gives on [v],
    whatever they were asked. *)
Theorem full_and_simplified_answers :
  forall key upstream resp v messages prompt image_url image_base64
         media_type model max_tokens system temperature top_p top_k
         stop_sequences vision_prompt,
    (forall req, upstream req = inr resp) ->
    is_success resp = true ->
    body resp = Some v ->
    outcome upstream
      (Claude.create_message key messages model max_tokens system temperature
                             top_p top_k stop_sequences) = inr v /\
    outcome upstream
      (Claude.chat key prompt model max_tokens system temperature)
    = Claude.extract_text v /\
    outcome upstream
      (Claude.analyze_image key image_url vision_prompt model max_tokens)
    = Claude.extract_text v /\
    outcome upstream
      (Claude.analyze_image_base64 key image_base64 media_type vision_prompt
                                   model max_tokens)
    = Claude.extract_text v.
Proof.
  intros key upstream resp v messages prompt image_url image_base64
         media_type model max_tokens system temperature top_p top_k
         stop_sequences vision_prompt Hup Hok Hbody.
  split; [|split; [|split]].
  - unfold outcome, Claude.create_message, Claude.make_claude_request.
    cbn [String.eqb Ascii.eqb Bool.eqb]. cbv zeta.
    tool_run_with Hup Hok Hbody. reflexivity.
  - now apply chat_outcome with (resp := resp).
  - unfold outcome, Claude.analyze_image. cbv zeta.
    rewrite run_claude_post, Hup, Hok, Hbody.
    now destruct (Claude.extract_text v).
  - unfold outcome, Claude.analyze_image_base64. cbv zeta.
    rewrite run_claude_post, Hup, Hok, Hbody.
    now destruct (Claude.extract_text v).
Qed.

Lemma full_and_simplified_answers_witness :
  let v := VDict [("content", VList [VDict [("type", VStr "text");
                                            ("text", VStr "A cat.")]])] in
  let resp := mkResponse 200 (Some v) in
  let upstream := fun _ : Request => @inr exn Response resp in
  outcome upstream
    (Claude.create_message (Some "k") [] None None None None None None None)
  = inr v /\
  outcome upstream
    (Claude.analyze_image (Some "k") "https://example.org/cat.png" None None
                          None)
  = inr "A cat.".
Proof.
  intros v resp upstream.
  destruct (full_and_simplified_answers (Some "k") upstream resp v [] "hi"
              "https://example.org/cat.png" "" "" None None None None None
              None None None (fun _ => eq_refl) eq_refl eq_refl)
    as (H1 & _ & H3 & _).
  split; [exact H1 | exact H3].
Defined.

(** X30: [create_message] sends a sampling parameter whenever it is
    given, zero included.  The one request it issues, a POST to
    [https://api.anthropic.com/v1/messages], carries [temperature], [top_p]
    and [top_k] exactly as supplied (a temperature of 0.0 is sent) and none
    of them when not supplied, while [system] and [stop_sequences] are sent
    only when supplied and not empty; [model]
    (["claude-3-5-sonnet-20241022"] by default), [messages] and
    [max_tokens] (4096 by default) are always sent. *)
Theorem create_message_keeps_zero_sampling :
  forall key upstream messages model max_tokens system temperature top_p
         top_k stop_sequences,
    exists req data,
      requests upstream
        (Claude.create_message key messages model max_tokens system
           temperature top_p top_k stop_sequences) = [req] /\
      req_method req = POST /\
      req_url req = "https://api.anthropic.com/v1/messages" /\
      req_json req = Some (VDict data) /\
      dict_get "temperature" data = option_map VFloat temperature /\
      dict_get "top_p" data = option_map VFloat top_p /\
      dict_get "top_k" data = option_map VInt top_k /\
      dict_get "system" data
      = (if truthy system then option_map VStr system else None) /\
      dict_get "stop_sequences" data
      = (if truthy stop_sequences then
           option_map (fun l => VList (map VStr l)) stop_sequences
         else None) /\
      dict_in "system" data = truthy system /\
      dict_in "stop_sequences" data = truthy stop_sequences /\
      dict_get "model" data
      = Some (VStr (default "claude-3-5-sonnet-20241022" model)) /\
      dict_get "messages" data = Some (VList (map VDict messages)) /\
      dict_get "max_tokens" data = Some (VInt (default 4096%Z max_tokens)).
Proof.
  intros key upstream messages model max_tokens system temperature top_p
         top_k stop_sequences.
  unfold Claude.create_message, Claude.make_claude_request.
  cbn [String.eqb Ascii.eqb Bool.eqb]. cbv zeta.
  do 2 eexists. split; [tool_requests; reflexivity|].
  do 3 (split; [reflexivity|]). unfold dict_in. rewrite !dict_get_when.
  cbn [String.eqb Ascii.eqb Bool.eqb andb dict_get].
  repeat split.
  - now destruct temperature.
  - now destruct top_p.
  - now destruct top_k.
  - now destruct system.
  - now destruct stop_sequences.
  - now destruct (truthy system).
  - now destruct (truthy stop_sequences).
Qed.

(** ** Instances of the conditional properties *)

Lemma search_records_empty_formula_unfiltered_witness :
  let upstream := fun _ : Request => inr (mkResponse 200 (Some (VDict []))) in
  exists req params,
    requests upstream
      (Airtable.search_records (Some "tok") "app" "tbl" "" None None
                               (Some 3%Z)) = [req] /\
    req_params req = Some params /\
    dict_in "filterByFormula" params = false.
Proof.
  intros upstream. eexists.
  destruct (proj2 (search_records_empty_formula_unfiltered (Some "tok")
                     upstream "app" "tbl" None None (Some 3%Z))
              _ (or_introl eq_refl)) as (params & Hp & Hf).
  exists params. split; [reflexivity|]. split; assumption.
Defined.

Lemma get_model_info_total_witness :
  let upstream := fun _ : Request => inr (mkResponse 200 (Some (VDict []))) in
  exists info,
    run upstream (Claude.get_model_info (Some "claude-9")) =
    ([], inr (VDict info)) /\
    dict_get "model_id" info = Some (VStr "claude-9") /\
    dict_get "name" info = Some (VStr "claude-9") /\
    dict_get "context_window" info = Some (VStr "unknown").
Proof.
  intros upstream.
  destruct (get_model_info_total upstream (Some "claude-9"))
    as (info & H1 & H2 & _ & _ & _ & _ & H7).
  exists info. split; [exact H1|]. split; [exact H2|].
  exact (H7 eq_refl).
Defined.

Lemma create_task_time_flags_follow_dates_witness :
  let upstream := fun _ : Request => inr (mkResponse 200 (Some (VDict []))) in
  exists req payload,
    run upstream
      (ClickUp.create_task (Some "tok") "901" "Write" None None None None None
         None (Some true) None (Some 1700000000000%Z) None None None None)
    = ([req], inr (VDict [])) /\
    req_url req = "https://api.clickup.com/api/v2/list/901/task" /\
    req_json req = Some (VDict payload) /\
    dict_in "due_date_time" payload = false /\
    dict_get "start_date" payload = Some (VInt 1700000000000) /\
    dict_get "start_date_time" payload = Some (VBool false).
Proof.
  intros upstream.
  destruct (create_task_time_flags_follow_dates (Some "tok") upstream "901"
              "Write" None None None None None None (Some true) None
              (Some 1700000000000%Z) None None None None)
    as (req & payload & Hrun & _ & Hurl & Hjson & _ & H2 & _ & _ & _ & H6 & _).
  exists req, payload.
  split; [exact Hrun|]. split; [exact Hurl|]. split; [exact Hjson|].
  split; [exact H2|]. exact (H6 eq_refl).
Defined.
